(** * Terminal-Decorator: the trust-and-integrity subsystem

    A shallow embedding of [src/security_manager.py]: the command and path
    policies and the sandbox executor of [SandboxManager], and the
    snapshot/restore logic of [BackupManager].

    Conventions.
    - Python [str] values are [string]s, read as sequences of code points
      below 256; the [bytes] of a file are a [string] too.
    - A [pathlib] path is the list of its [parts]; an absolute path starts
      with the part ["/"] (or ["//"]).
    - A [dict] with string keys is a [gmap string _].  The file system is an
      association list from paths to regular files: its order stands for the
      order in which a directory is enumerated, which [glob] and [max] see.
    - Code that raises is modelled with [option] ([None] = an exception
      propagates) inside a small state monad [M]; the state holds the file
      system and the log of the mutating system calls made so far.
    - The calls on the file system are modelled as they go when the
      caller is let through; the module [Access] states the conditions on
      modes, owners and devices under which they do, and the theorems
      that say a file was written or read back carry them.
    - [logging] calls are omitted.

    The first part of the file holds the definitions, the second part the
    lemmas and the theorems about them. *)

From Stdlib Require Import ZArith Lia Bool Ascii.
From Stdlib Require String.
From stdpp Require Import base option list gmap strings sorting.

(* ================================================================== *)
(** * Part I: definitions *)
(* ================================================================== *)

(** ** Python string primitives *)

Module PyStr.

(** [c.isspace()] on code points below 256: TAB..CR, FS..US, SPACE,
    NEL (0x85) and NBSP (0xA0). *)
Definition isspace (c : ascii) : bool :=
  let n := N_of_ascii c in
  ((9 <=? n) && (n <=? 13) || (28 <=? n) && (n <=? 32)
   || (n =? 133) || (n =? 160))%N.

(** [c.lower()] on code points below 256: A..Z and the Latin-1 capitals
    0xC0..0xDE (except the multiplication sign 0xD7) move up by 32. *)
Definition lower_char (c : ascii) : ascii :=
  let n := N_of_ascii c in
  if ((65 <=? n) && (n <=? 90)
      || (192 <=? n) && (n <=? 222) && negb (n =? 215))%N
  then ascii_of_N (n + 32) else c.

(** [s.lower()] *)
Fixpoint lower (s : string) : string :=
  match s with
  | EmptyString => EmptyString
  | String c s' => String (lower_char c) (lower s')
  end.

Fixpoint lstrip (s : string) : string :=
  match s with
  | EmptyString => EmptyString
  | String c s' => if isspace c then lstrip s' else s
  end.

Fixpoint rstrip (s : string) : string :=
  match s with
  | EmptyString => EmptyString
  | String c s' =>
      match rstrip s' with
      | EmptyString => if isspace c then EmptyString else String c EmptyString
      | r => String c r
      end
  end.

(** [s.strip()] *)
Definition strip (s : string) : string := rstrip (lstrip s).

(** [s.startswith(p)] *)
Fixpoint startswith (s p : string) {struct p} : bool :=
  match p, s with
  | EmptyString, _ => true
  | String a p', String b s' => if Ascii.eqb a b then startswith s' p' else false
  | String _ _, EmptyString => false
  end.

(** [sub in s] *)
Fixpoint contains (sub s : string) : bool :=
  startswith s sub ||
  match s with
  | EmptyString => false
  | String _ s' => contains sub s'
  end.

(** [sep.join(parts)] *)
Fixpoint join (sep : string) (parts : list string) : string :=
  match parts with
  | [] => EmptyString
  | [p] => p
  | p :: rest => p +:+ sep +:+ join sep rest
  end.

(** [s.split(sep)] for a one-character separator. *)
Fixpoint split (sep : ascii) (s : string) : list string :=
  match s with
  | EmptyString => [EmptyString]
  | String c s' =>
      if Ascii.eqb c sep then EmptyString :: split sep s'
      else match split sep s' with
           | h :: t => String c h :: t
           | [] => [String c EmptyString]
           end
  end.

(** [s.rfind(c)], [None] standing for [-1]. *)
Fixpoint rfind (c : ascii) (s : string) : option nat :=
  match s with
  | EmptyString => None
  | String a s' =>
      match rfind c s' with
      | Some i => Some (S i)
      | None => if Ascii.eqb a c then Some 0 else None
      end
  end.

(** [s[:n]] and [s[n:]] for [0 <= n]. *)
Fixpoint take (n : nat) (s : string) : string :=
  match n, s with
  | S n', String c s' => String c (take n' s')
  | _, _ => EmptyString
  end.

Fixpoint drop (n : nat) (s : string) : string :=
  match n, s with
  | S n', String _ s' => drop n' s'
  | _, _ => s
  end.

(** [s[-1]], [None] for the empty string. *)
Fixpoint last_char (s : string) : option ascii :=
  match s with
  | EmptyString => None
  | String c EmptyString => Some c
  | String _ s' => last_char s'
  end.

(** String comparison [a <= b]: lexicographic on code points. *)
Definition le (a b : string) : bool := String.leb a b.

(** Nothing but white space. *)
Fixpoint all_space (s : string) : bool :=
  match s with
  | EmptyString => true
  | String c s' => isspace c && all_space s'
  end.

(** [s[0]], [None] for the empty string. *)
Definition first_char (s : string) : option ascii :=
  match s with
  | EmptyString => None
  | String c _ => Some c
  end.

(** The mathematical notion [contains] decides. *)
Definition Substring (sub s : string) : Prop :=
  exists pre post, s = pre +:+ sub +:+ post.

End PyStr.

(** ** [pathlib] paths *)

Module PyPath.

(** A path is its tuple of [parts]; [Path('/a/b').parts == ('/', 'a', 'b')]. *)
Definition path := list string.

(** The two roots of POSIX paths: ["/"], and ["//"], which [pathlib] keeps
    apart from it. *)
Definition is_root (a : string) : bool := String.eqb a "/" || String.eqb a "//".

(** The root a text starts with: exactly two leading slashes are the root
    ["//"], one slash and three or more are ["/"]. *)
Definition root_of (s : string) : option string :=
  if PyStr.startswith s "//" && negb (PyStr.startswith s "///") then Some "//"
  else if PyStr.startswith s "/" then Some "/"
  else None.

(** [Path(s)]: split at the slashes, drop empty and ["."] parts, keep the
    root. *)
Definition parse (s : string) : path :=
  let comps :=
    filter (fun c => c <> EmptyString /\ c <> ".") (PyStr.split "/" s) in
  match root_of s with
  | Some r => r :: comps
  | None => comps
  end.

(** [str(p)] *)
Definition str (p : path) : string :=
  match p with
  | [] => "."
  | a :: rest =>
      if is_root a then a +:+ PyStr.join "/" rest
      else PyStr.join "/" p
  end.

(** [p.name]: the last part, unless it is the root. *)
Definition name (p : path) : string :=
  let l := List.last p EmptyString in
  if is_root l then EmptyString else l.

(** [p / c] for a string [c] that is one part of a path, neither empty nor
    ["."] and without a slash: a file name, or one of the directory names
    the program itself uses.  ([pathlib] splits any other operand into its
    parts and lets an absolute one replace [p]; the category of a backup
    is the one operand a caller chooses, and the theorems about
    [create_backup] say which categories they speak of.) *)
Definition truediv (p : path) (c : string) : path := p ++ [c].

(** [PurePath.suffix]: from the last dot of the name, when that dot is
    neither its first nor its last character. *)
Definition suffix (p : path) : string :=
  let n := name p in
  match PyStr.rfind "." n with
  | Some i =>
      if (0 <? i) && (i <? String.length n - 1) then PyStr.drop i n
      else EmptyString
  | None => EmptyString
  end.

(** [p.with_suffix(sfx)] for a valid [sfx] (here always [".meta"]);
    [None] is the [ValueError] raised for a path with an empty name. *)
Definition with_suffix (p : path) (sfx : string) : option path :=
  let n := name p in
  if String.eqb n EmptyString then None
  else
    let stem := PyStr.take (String.length n - String.length (suffix p)) n in
    Some (removelast p ++ [stem +:+ sfx]).

(** [p] is an entry of the directory [dir]. *)
Definition in_dir (dir p : path) : bool := bool_decide (p = truediv dir (name p)).

(** The specification's notion of nesting: [p] is [root] or lies below it,
    part by part. *)
Definition nested_under (root p : path) : Prop := exists rest, p = root ++ rest.

End PyPath.

Infix "//" := PyPath.truediv (at level 40, left associativity).

(** ** Shell-style patterns: [fnmatch] as used by [Path.glob] *)

Module Fnmatch.

(** One position of a translated pattern. *)
Inductive tok :=
| TStar                                       (* [*]: any run of characters *)
| TAny                                        (* [?]: any one character *)
| TLit (c : ascii)                            (* an ordinary character *)
| TSet (neg : bool) (ranges : list (ascii * ascii)). (* [[...]] or [[!...]] *)

(** The members of a bracket expression: [x-y] is a range when both ends
    are there, every other character stands for itself. *)
Fixpoint set_items (fuel : nat) (s : string) : list (ascii * ascii) :=
  match fuel with
  | 0 => []
  | S fuel' =>
      match s with
      | EmptyString => []
      | String x (String "-" (String y rest)) => (x, y) :: set_items fuel' rest
      | String x rest => (x, x) :: set_items fuel' rest
      end
  end.

(** Everything up to the next [']'] and what follows it. *)
Fixpoint until_close (s : string) : option (string * string) :=
  match s with
  | EmptyString => None
  | String c s' =>
      if Ascii.eqb c "]" then Some (EmptyString, s')
      else match until_close s' with
           | Some (body, after) => Some (String c body, after)
           | None => None
           end
  end.

(** After a ['[']: an optional ['!'], then an optional [']'] that belongs to
    the set, then the body up to the closing [']'].  [None]: not closed. *)
Definition split_class (s : string) : option (bool * string * string) :=
  let '(neg, s1) :=
    match s with
    | String "!" s' => (true, s')
    | _ => (false, s)
    end in
  match s1 with
  | String "]" s2 =>
      match until_close s2 with
      | Some (body, after) => Some (neg, String "]" body, after)
      | None => None
      end
  | _ =>
      match until_close s1 with
      | Some (body, after) => Some (neg, body, after)
      | None => None
      end
  end.

(** [fnmatch.translate]: consecutive stars count once, an unclosed ['[']
    is an ordinary character. *)
Fixpoint translate_aux (fuel : nat) (pat : string) : list tok :=
  match fuel with
  | 0 => []
  | S fuel' =>
      match pat with
      | EmptyString => []
      | String "*" rest =>
          match translate_aux fuel' rest with
          | TStar :: ts => TStar :: ts
          | ts => TStar :: ts
          end
      | String "?" rest => TAny :: translate_aux fuel' rest
      | String "[" rest =>
          match split_class rest with
          | Some (neg, body, after) =>
              TSet neg (set_items (String.length body) body)
                :: translate_aux fuel' after
          | None => TLit "[" :: translate_aux fuel' rest
          end
      | String c rest => TLit c :: translate_aux fuel' rest
      end
  end.

Definition translate (pat : string) : list tok :=
  translate_aux (S (String.length pat)) pat.

Definition in_range (c : ascii) (r : ascii * ascii) : bool :=
  ((N_of_ascii r.1 <=? N_of_ascii c) && (N_of_ascii c <=? N_of_ascii r.2))%N.

Definition tok_accepts (t : tok) (c : ascii) : bool :=
  match t with
  | TStar | TAny => true
  | TLit a => Ascii.eqb a c
  | TSet neg ranges => xorb neg (existsb (in_range c) ranges)
  end.

(** A whole-string match of the translated pattern. *)
Fixpoint matches (ts : list tok) : string -> bool :=
  match ts with
  | [] => fun s => String.eqb s EmptyString
  | TStar :: ts' =>
      fix star (s : string) : bool :=
        matches ts' s ||
        match s with
        | EmptyString => false
        | String _ s' => star s'
        end
  | t :: ts' =>
      fun s =>
        match s with
        | EmptyString => false
        | String c s' => tok_accepts t c && matches ts' s'
        end
  end.

(** [fnmatch.fnmatchcase(name, pat)] *)
Definition fnmatch (name pat : string) : bool := matches (translate pat) name.

(** The translation of a text without pattern characters. *)
Fixpoint lits (s : string) : list tok :=
  match s with
  | EmptyString => []
  | String c s' => TLit c :: lits s'
  end.

(** A name without pattern characters. *)
Fixpoint literal (s : string) : bool :=
  match s with
  | EmptyString => true
  | String c s' =>
      negb (Ascii.eqb c "*" || Ascii.eqb c "?" || Ascii.eqb c "[") && literal s'
  end.

End Fnmatch.

(** ** The operating system seen by the program *)

Module OS.
Import PyPath.

(** A regular file: its bytes and the [stat] fields the program reads.
    [f_mode] holds the permission bits; [f_mtime] is [st_mtime], which
    enters the program only through comparisons. *)
Record file := mkfile {
  f_data : string;
  f_mode : Z;
  f_uid : Z;
  f_gid : Z;
  f_mtime : Z
}.

(** The file system: regular files by path, in enumeration order. *)
Definition fsys := list (path * file).

Fixpoint fs_lookup (p : path) (fs : fsys) : option file :=
  match fs with
  | [] => None
  | (q, f) :: fs' => if decide (q = p) then Some f else fs_lookup p fs'
  end.

(** [p.exists()] *)
Definition fs_exists (p : path) (fs : fsys) : bool :=
  match fs_lookup p fs with Some _ => true | None => false end.

(** Create or replace the file at [p]; a new entry goes last. *)
Fixpoint fs_write (p : path) (f : file) (fs : fsys) : fsys :=
  match fs with
  | [] => [(p, f)]
  | (q, g) :: fs' =>
      if decide (q = p) then (p, f) :: fs' else (q, g) :: fs_write p f fs'
  end.

(** Remove the entry of [p]. *)
Definition fs_unlink (p : path) (fs : fsys) : fsys :=
  filter (fun e => e.1 <> p) fs.

(** [dir.glob(pattern)] for a pattern without a slash and without [**]:
    the entries of [dir] whose name matches.  (The one pattern of the
    source that can hold [**] is that of [candidate_backups], which
    sees to it.) *)
Definition fs_glob (dir : path) (pattern : string) (fs : fsys) : list path :=
  filter (fun q => in_dir dir q && Fnmatch.fnmatch (name q) pattern = true) fs.*1.

(** The content of the directory [dir]: its entries with their files. *)
Definition dir_entries (dir : path) (fs : fsys) : fsys :=
  filter (fun e => in_dir dir e.1 = true) fs.

(** [p.stat().st_mtime] for a listed entry. *)
Definition st_mtime (fs : fsys) (p : path) : Z :=
  match fs_lookup p fs with Some f => f_mtime f | None => 0%Z end.

(** The system calls that change the file system. *)
Inductive syscall :=
| SysCreate (p : path)                 (* open(p, O_CREAT|O_EXCL) *)
| SysWrite (p : path)                  (* open(p, 'w') and write: in place *)
| SysCopy (src dst : path)             (* copy the bytes and stat of src into dst: in place *)
| SysChmod (p : path) (mode : Z)
| SysChown (p : path) (uid gid : Z)
| SysRename (src dst : path)           (* rename(2): atomic *)
| SysUnlink (p : path).

(** The calls that change a file's permissions or owner. *)
Definition is_perm_change (c : syscall) : bool :=
  match c with
  | SysChmod _ _ | SysChown _ _ _ => true
  | _ => false
  end.

(** The calls that write into the file at [p] where it stands, rather
    than putting a finished file in its place. *)
Definition writes_in_place (p : path) (c : syscall) : bool :=
  match c with
  | SysWrite q | SysCopy _ q => bool_decide (q = p)
  | _ => false
  end.

(** The state the program runs in. *)
Record world := mkworld {
  w_fs : fsys;
  w_log : list syscall
}.

(** The sidecar record written by [create_backup]. *)
Record metadata := mkmeta {
  original_path : string;
  timestamp : string;
  hash : string;
  permissions : string;
  owner : string
}.

(** What the program takes from its libraries and its host.
    - [sha256_hexdigest]: [hashlib.sha256(data).hexdigest()].
    - [json_dumps], [json_loads]: the text [json.dump] writes for a
      sidecar record, and the record [json.load] reads back from a JSON
      object with these five string fields.  [None] stands for every
      other text, and the model then raises where the text is loaded.
      The source does so for a text that is no JSON; for a JSON object
      that lacks fields it raises only where it reads a missing one,
      so a theorem that says what a run does with a sidecar takes the
      sidecar to be such a record.
    - [getpwuid], [getpwnam]: the password database, [None] = [KeyError].
    - [mkstemp]: the path [NamedTemporaryFile] picks, in the default
      temporary directory.
    - [st_dev]: the device a path's directory entry lives on; [rename]
      fails across devices.
    - [creat_mode], [clock]: mode and mtime of a newly created file. *)
Record os_env := mkenv {
  sha256_hexdigest : string -> string;
  json_dumps : metadata -> string;
  json_loads : string -> option metadata;
  getuid : Z;
  getgid : Z;
  getpwuid : Z -> option string;
  getpwnam : string -> option Z;
  mkstemp : path;
  st_dev : path -> Z;
  creat_mode : Z;
  clock : Z
}.

(** *** The state-and-exception monad *)

Definition M (A : Type) : Type := world -> option A * world.

Definition ret {A} (a : A) : M A := fun w => (Some a, w).

Definition bind {A B} (m : M A) (k : A -> M B) : M B :=
  fun w => match m w with
           | (Some a, w') => k a w'
           | (None, w') => (None, w')
           end.

(** [raise ...] *)
Definition raise {A} : M A := fun w => (None, w).

(** [try: m except Exception: return dflt] *)
Definition try_except {A} (m : M A) (dflt : A) : M A :=
  fun w => match m w with
           | (None, w') => (Some dflt, w')
           | r => r
           end.

Definition get_fs : M fsys := fun w => (Some (w_fs w), w).

(** Replace the file system and log the call that did it. *)
Definition sys (c : syscall) (f : fsys -> fsys) : M unit :=
  fun w => (Some tt, {| w_fs := f (w_fs w); w_log := w_log w ++ [c] |}).

(** Unwrap a value whose absence is an exception. *)
Definition must {A} (o : option A) : M A :=
  match o with Some a => ret a | None => raise end.

End OS.

Declare Scope monad_scope.
Delimit Scope monad_scope with monad.
Notation "x <- m ;; k" := (OS.bind m (fun x => k))
  (at level 100, m at next level, right associativity) : monad_scope.
Notation "m ;;; k" := (OS.bind m (fun _ => k))
  (at level 100, k at level 200, right associativity) : monad_scope.

(** ** Library calls on the file system *)

Module Shutil.
Import PyStr PyPath OS.
Local Open Scope monad_scope.

(** [try: m1 except OSError: m2] *)
Definition or_else {A} (m1 m2 : M A) : M A :=
  fun w => match m1 w with
           | (None, w') => m2 w'
           | r => r
           end.

(** A field of the file at [p] when there is one, and [dflt] otherwise:
    writing into an existing file keeps its owner (and, for a plain write,
    its mode). *)
Definition kept {A} (fs : fsys) (p : path) (field : file -> A) (dflt : A) : A :=
  match fs_lookup p fs with
  | Some old => field old
  | None => dflt
  end.

(** [shutil.copy2(src, dst)]: the bytes, the mode and the times of [src]
    go into [dst], which is created when missing and overwritten in place
    otherwise (keeping its owner).  This is the call when nothing stands
    in its way: the caller may read [src], the directory of [dst] is there,
    and [dst] is missing or a file the caller owns and may write.  The
    model does not test these conditions (and so knows no copy that stops
    half way); the predicates of [Access] below state them, and the
    theorems that say a copy was made carry them as hypotheses. *)
Definition copy2 (E : os_env) (src dst : path) : M unit :=
  fs <- get_fs ;;
  f <- must (fs_lookup src fs) ;;
  if decide (src = dst) then raise
  else
    sys (SysCopy src dst)
        (fs_write dst {| f_data := f_data f; f_mode := f_mode f;
                         f_uid := kept fs dst f_uid (getuid E);
                         f_gid := kept fs dst f_gid (getgid E);
                         f_mtime := f_mtime f |}).

(** [open(p, 'w')] followed by writing [text]. *)
Definition write_text (E : os_env) (p : path) (text : string) : M unit :=
  fs <- get_fs ;;
  sys (SysWrite p)
      (fs_write p {| f_data := text;
                     f_mode := kept fs p f_mode (creat_mode E);
                     f_uid := kept fs p f_uid (getuid E);
                     f_gid := kept fs p f_gid (getgid E);
                     f_mtime := clock E |}).

(** [tempfile.NamedTemporaryFile(delete=False)]: a new, empty file of mode
    0600 at the path the host picks; the call fails when the path is
    taken. *)
Definition NamedTemporaryFile (E : os_env) : M path :=
  fs <- get_fs ;;
  let tmp := mkstemp E in
  if fs_exists tmp fs then raise
  else
    sys (SysCreate tmp)
        (fs_write tmp {| f_data := EmptyString; f_mode := 384;
                         f_uid := getuid E; f_gid := getgid E;
                         f_mtime := clock E |}) ;;;
    ret tmp.

(** [os.unlink(p)] *)
Definition unlink (p : path) : M unit :=
  fs <- get_fs ;;
  if fs_exists p fs then sys (SysUnlink p) (fs_unlink p) else raise.

(** A Python [int] that fits the C [int] a system call takes. *)
Definition fits_int (n : Z) : bool :=
  ((-2147483648 <=? n) && (n <=? 2147483647))%Z.

(** [os.chmod(p, mode)] on a file of the caller: [OverflowError] for a
    mode that is no C [int]; of the others the kernel keeps the twelve
    permission bits. *)
Definition chmod (p : path) (mode : Z) : M unit :=
  if negb (fits_int mode) then raise
  else
    fs <- get_fs ;;
    f <- must (fs_lookup p fs) ;;
    sys (SysChmod p mode)
        (fs_write p {| f_data := f_data f; f_mode := (mode mod 4096)%Z;
                       f_uid := f_uid f; f_gid := f_gid f;
                       f_mtime := f_mtime f |}).

(** What [chown(2)] leaves of the mode of a regular file (on Linux, for
    root as for everyone): the set-user-ID bit goes, and the set-group-ID
    bit goes when the group may execute. *)
Definition drop_setid (mode : Z) : Z :=
  let m := if Z.testbit mode 11 then (mode - 2048)%Z else mode in
  if Z.testbit m 10 && Z.testbit m 3 then (m - 1024)%Z else m.

(** [os.chown(p, uid, gid)] on a regular file, by root. *)
Definition chown (p : path) (uid gid : Z) : M unit :=
  fs <- get_fs ;;
  f <- must (fs_lookup p fs) ;;
  sys (SysChown p uid gid)
      (fs_write p {| f_data := f_data f; f_mode := drop_setid (f_mode f);
                     f_uid := uid; f_gid := gid; f_mtime := f_mtime f |}).

(** [os.rename(src, dst)]: the entry of [dst] becomes the file of [src] in
    one step; [OSError] when [src] is missing or the two paths are on
    different devices. *)
Definition rename (E : os_env) (src dst : path) : M unit :=
  fs <- get_fs ;;
  f <- must (fs_lookup src fs) ;;
  if decide (st_dev E src = st_dev E dst) then
    sys (SysRename src dst)
        (fun fs => if decide (src = dst) then fs
                   else fs_unlink src (fs_write dst f fs))
  else raise.

(** [shutil.move(src, dst)] for a regular file [src] and a [dst] that is
    not a directory: [os.rename], and when that raises [OSError],
    [copy2(src, dst)] followed by [os.unlink(src)].  On one device the
    rename is taken to succeed; across devices the fallback is the [copy2]
    above, with the conditions it leaves untested.  The theorems that say
    a restore succeeded are about the rename. *)
Definition move (E : os_env) (src dst : path) : M unit :=
  or_else (rename E src dst) (copy2 E src dst ;;; unlink src).

(** [oct(n)[-3:]] for [n >= 0o1000]: the last three octal digits. *)
Definition oct_digit (d : Z) : ascii := ascii_of_N (48 + Z.to_N d).

Definition oct_last3 (n : Z) : string :=
  String (oct_digit (n / 64 mod 8))
    (String (oct_digit (n / 8 mod 8))
       (String (oct_digit (n mod 8)) EmptyString)).

(** The value of an octal digit. *)
Definition oct_value (c : ascii) : option Z :=
  let n := N_of_ascii c in
  if ((48 <=? n) && (n <=? 55))%N then Some (Z.of_N n - 48)%Z else None.

(** The digits of an octal literal, with single underscores between them:
    the value read and the text left over, [None] for two underscores in
    a row, an underscore at the end, or no digit at all. *)
Fixpoint int_base8_aux (acc : Z) (digits : nat) (after_underscore : bool)
    (s : string) : option (Z * string) :=
  let stop :=
    if after_underscore then None
    else match digits with 0 => None | S _ => Some (acc, s) end in
  match s with
  | EmptyString => stop
  | String c s' =>
      match oct_value c with
      | Some d => int_base8_aux (8 * acc + d) (S digits) false s'
      | None =>
          if Ascii.eqb c "_" then
            if after_underscore then None
            else int_base8_aux acc digits true s'
          else stop
      end
  end.

(** The white space [int] skips around a literal: TAB..CR and SPACE, and
    NEL (0x85) and NBSP (0xA0), which it reads as spaces.  The separators
    FS..US, which [str.strip] removes, it does not skip. *)
Definition int_space (c : ascii) : bool :=
  let n := N_of_ascii c in
  ((9 <=? n) && (n <=? 13) || (n =? 32) || (n =? 133) || (n =? 160))%N.

Fixpoint skip_int_space (s : string) : string :=
  match s with
  | String c s' => if int_space c then skip_int_space s' else s
  | EmptyString => EmptyString
  end.

Fixpoint all_int_space (s : string) : bool :=
  match s with
  | String c s' => int_space c && all_int_space s'
  | EmptyString => true
  end.

(** [int(s, 8)], [None] being [ValueError]: white space around the
    literal, a sign, the prefix [0o] or [0O] with one underscore after it,
    then the digits. *)
Definition int_base8 (s : string) : option Z :=
  let s1 := skip_int_space s in
  let '(negative, s2) :=
    match s1 with
    | String "-" r => (true, r)
    | String "+" r => (false, r)
    | _ => (false, s1)
    end in
  let s3 :=
    match s2 with
    | String "0" (String o r) =>
        if Ascii.eqb o "o" || Ascii.eqb o "O" then
          match r with
          | String "_" r' => r'
          | _ => r
          end
        else s2
    | _ => s2
    end in
  match s3 with
  | String "_" _ => None
  | _ =>
      match int_base8_aux 0 0 false s3 with
      | Some (v, rest) =>
          if all_int_space rest then Some (if negative then - v else v)%Z
          else None
      | None => None
      end
  end.

(** [st_mode] of a regular file: [S_IFREG] plus the permission bits. *)
Definition st_mode (f : file) : Z := (32768 + f_mode f)%Z.

(** [max(l, key=key)] for a non-empty [l = best :: rest]: the first
    element whose key no later element exceeds. *)
Fixpoint py_max {A} (key : A -> Z) (best : A) (rest : list A) : A :=
  match rest with
  | [] => best
  | x :: rest' => py_max key (if (key best <? key x)%Z then x else best) rest'
  end.

(** [sorted(l, key=key, reverse=True)] on string keys: descending and
    stable. *)
Fixpoint insert_desc {A} (key : A -> string) (x : A) (l : list A) : list A :=
  match l with
  | [] => [x]
  | y :: l' =>
      if PyStr.le (key y) (key x) then x :: y :: l'
      else y :: insert_desc key x l'
  end.

Definition sorted_desc {A} (key : A -> string) (l : list A) : list A :=
  foldr (insert_desc key) [] l.

(** The orders a descending sort is judged by: no later element has a
    greater key, or every later element has a smaller key. *)
Definition desc {A} (key : A -> string) (a b : A) : Prop :=
  PyStr.le (key b) (key a).

Definition strictly_desc {A} (key : A -> string) (a b : A) : Prop :=
  PyStr.le (key b) (key a) /\ key b <> key a.

End Shutil.

(** ** What the caller is allowed

    The calls of [Shutil] are modelled as they go when the caller is let
    through.  The conditions below are sufficient for that on a POSIX
    system; the theorems that say a file was written, or read back, name
    the ones they need.  (Permissions on directories are not part of the
    model: the directories of the store and of the target are taken to
    let the caller create, replace and list entries.) *)

Module Access.
Import PyPath OS.

Definition is_superuser (E : os_env) : bool := (getuid E =? 0)%Z.

(** The caller is root, or owns the file and the file's mode has the
    owner's bit [bit] (8 for reading, 7 for writing). *)
Definition owner_may (E : os_env) (bit : Z) (f : file) : bool :=
  is_superuser E || ((f_uid f =? getuid E)%Z && Z.testbit (f_mode f) bit).

Definition may_read (E : os_env) (f : file) : bool := owner_may E 8 f.

(** Writing into an existing file and setting its mode and times, as
    [copy2] does, takes ownership as well as the write bit. *)
Definition may_overwrite (E : os_env) (f : file) : bool := owner_may E 7 f.

(** Nothing is at [p], or a file the caller may overwrite. *)
Definition free_or_writable (E : os_env) (fs : fsys) (p : path) : bool :=
  match fs_lookup p fs with
  | Some old => may_overwrite E old
  | None => true
  end.

(** Nothing is at [p], or a file the caller may overwrite and read
    again. *)
Definition free_or_own (E : os_env) (fs : fsys) (p : path) : bool :=
  match fs_lookup p fs with
  | Some old => may_overwrite E old && may_read E old
  | None => true
  end.

(** A file the caller creates can be read back by the caller: the
    process's mask leaves the owner's read bit. *)
Definition creates_readable (E : os_env) : bool :=
  is_superuser E || Z.testbit (creat_mode E) 8.

(** The temporary file and [p] are on one device, so that [shutil.move]
    is a rename. *)
Definition same_device (E : os_env) (p : path) : bool :=
  bool_decide (st_dev E (mkstemp E) = st_dev E p).

(** The categories whose directory the constructor of the manager
    makes. *)
Definition known_category (category : string) : bool :=
  bool_decide (category ∈ ["shell_configs"; "system_configs"; "logs"]).

End Access.

(** ** [BackupManager] *)

Module Backup.
Import PyStr PyPath OS Shutil.
Local Open Scope monad_scope.

Record BackupManager := mkmgr { backup_dir : path }.

(** [_calculate_file_hash]: the digest of the file's bytes (the source
    feeds them to the hash in blocks of 4096); raises when the file cannot
    be opened. *)
Definition _calculate_file_hash (E : os_env) (file_path : path) : M string :=
  fs <- get_fs ;;
  f <- must (fs_lookup file_path fs) ;;
  ret (sha256_hexdigest E (f_data f)).

(** The body of the [try] block of [create_backup]; [timestamp] is what
    [datetime.now().strftime('%Y%m%d_%H%M%S')] gives at the call. *)
Definition create_backup_body (E : os_env) (self : BackupManager)
    (file_path : path) (category : string) (timestamp : string)
    : M (option path) :=
  fs <- get_fs ;;
  if negb (fs_exists file_path fs) then ret None
  else
    let backup_name := name file_path +:+ "_" +:+ timestamp +:+ ".bak" in
    let backup_path := backup_dir self // category // backup_name in
    copy2 E file_path backup_path ;;;
    h <- _calculate_file_hash E file_path ;;
    fs1 <- get_fs ;;
    f <- must (fs_lookup file_path fs1) ;;
    pw_name <- must (getpwuid E (f_uid f)) ;;
    let metadata :=
      {| original_path := str file_path;
         timestamp := timestamp;
         hash := h;
         permissions := oct_last3 (st_mode f);
         owner := pw_name |} in
    metadata_path <- must (with_suffix backup_path ".meta") ;;
    write_text E metadata_path (json_dumps E metadata) ;;;
    ret (Some backup_path).

Definition create_backup (E : os_env) (self : BackupManager)
    (file_path : path) (category : string) (timestamp : string)
    : M (option path) :=
  try_except (create_backup_body E self file_path category timestamp) None.

(** The category default of [create_backup]. *)
Definition default_category : string := "shell_configs".

(** The directory a restore without a backup path searches. *)
Definition restore_category (original_path : path) : string :=
  if contains "rc" (name original_path) then "shell_configs"
  else "system_configs".

(** [list((self.backup_dir / category).glob(f"{original_path.name}_*.bak"))].
    For a pattern with [**] inside a name [glob] raises [ValueError]
    (in the Python releases that refuse such a pattern), which the
    [except] clause of [restore_backup] answers as it answers an empty
    list: with [False] and nothing done.  The search then has no
    candidate. *)
Definition candidate_backups (self : BackupManager) (original_path : path)
    (fs : fsys) : list path :=
  let pattern := name original_path +:+ "_*.bak" in
  if contains "**" pattern then []
  else fs_glob (backup_dir self // restore_category original_path) pattern fs.

(** The backup a restore without a backup path settles on; [None] when
    the search finds nothing. *)
Definition find_latest (self : BackupManager) (original_path : path)
    (fs : fsys) : option path :=
  match candidate_backups self original_path fs with
  | [] => None
  | b :: rest => Some (py_max (st_mtime fs) b rest)
  end.

(** The backup a restore works from: the one it is given, or else the one
    it finds. *)
Definition chosen_backup (self : BackupManager) (original_path : path)
    (backup_path : option path) (fs : fsys) : option path :=
  match backup_path with
  | Some b => Some b
  | None => find_latest self original_path fs
  end.

(** [with open(metadata_path, 'r') as f: metadata = json.load(f)] *)
Definition load_metadata (E : os_env) (metadata_path : path) : M metadata :=
  fs <- get_fs ;;
  f <- must (fs_lookup metadata_path fs) ;;
  must (json_loads E (f_data f)).

(** The body of the [try] block of [restore_backup]. *)
Definition restore_backup_body (E : os_env) (self : BackupManager)
    (original_path : path) (backup_path : option path) : M bool :=
  fs <- get_fs ;;
  match chosen_backup self original_path backup_path fs with
  | None => ret false
  | Some backup_path =>
      if negb (fs_exists backup_path fs) then ret false
      else
        (* Verify backup integrity *)
        metadata_path <- must (with_suffix backup_path ".meta") ;;
        intact <-
          (if fs_exists metadata_path fs then
             metadata <- load_metadata E metadata_path ;;
             current_hash <- _calculate_file_hash E backup_path ;;
             ret (String.eqb current_hash (hash metadata))
           else ret true) ;;
        if negb intact then ret false
        else
          (* Create a temporary copy first *)
          tmp <- NamedTemporaryFile E ;;
          copy2 E backup_path tmp ;;;
          (* Verify the temporary copy *)
          h_tmp <- _calculate_file_hash E tmp ;;
          h_bak <- _calculate_file_hash E backup_path ;;
          if negb (String.eqb h_tmp h_bak) then
            unlink tmp ;;; ret false
          else
            (* Restore permissions and ownership *)
            fs1 <- get_fs ;;
            (if fs_exists metadata_path fs1 then
               metadata <- load_metadata E metadata_path ;;
               mode <- must (int_base8 (permissions metadata)) ;;
               chmod tmp mode ;;;
               if (getuid E =? 0)%Z then
                 uid <- must (getpwnam E (owner metadata)) ;;
                 chown tmp uid (getgid E)
               else ret tt
             else ret tt) ;;;
            (* Atomic replace *)
            move E tmp original_path ;;;
            ret true
  end.

Definition restore_backup (E : os_env) (self : BackupManager)
    (original_path : path) (backup_path : option path) : M bool :=
  try_except (restore_backup_body E self original_path backup_path) false.

(** An entry of the list [list_backups] returns: the sidecar record with
    the two keys the listing adds. *)
Record backup_record := mkrec {
  meta : metadata;
  backup_path : string;
  size : nat
}.

(** [process_backup_dir] over the files a [glob("*.bak")] produced;
    [None] when a sidecar cannot be read. *)
Fixpoint process_backup_files (E : os_env) (fs : fsys)
    (original_path : option path) (files : list path)
    : option (list backup_record) :=
  match files with
  | [] => Some []
  | backup_file :: rest =>
      match with_suffix backup_file ".meta" with
      | None => None
      | Some metadata_path =>
          let here :=
            match fs_lookup metadata_path fs with
            | Some mf =>
                match json_loads E (f_data mf) with
                | Some metadata =>
                    let r :=
                      {| meta := metadata;
                         backup_path := str backup_file;
                         size := match fs_lookup backup_file fs with
                                 | Some bf => String.length (f_data bf)
                                 | None => 0
                                 end |} in
                    Some (match original_path with
                          | None => [r]
                          | Some p =>
                              if decide (parse (OS.original_path metadata) = p)
                              then [r] else []
                          end)
                | None => None
                end
            | None => Some []
            end in
          match here, process_backup_files E fs original_path rest with
          | Some l1, Some l2 => Some (l1 ++ l2)
          | _, _ => None
          end
      end
  end.

Definition process_backup_dir (E : os_env) (fs : fsys)
    (original_path : option path) (directory : path)
    : option (list backup_record) :=
  process_backup_files E fs original_path (fs_glob directory "*.bak" fs).

(** [list_backups]: both category directories, newest timestamp first;
    [None] when the call raises. *)
Definition list_backups (E : os_env) (self : BackupManager) (fs : fsys)
    (original_path : option path) : option (list backup_record) :=
  match process_backup_dir E fs original_path (backup_dir self // "shell_configs"),
        process_backup_dir E fs original_path (backup_dir self // "system_configs") with
  | Some l1, Some l2 =>
      Some (sorted_desc (fun x => timestamp (meta x)) (l1 ++ l2))
  | _, _ => None
  end.


End Backup.

(** ** [SandboxManager] *)

Module Sandbox.
Import PyStr PyPath.

Record CompletedProcess := mkproc {
  args : string;
  returncode : Z;
  stdout : string;
  stderr : string
}.

(** What the sandbox takes from its host.
    - [os_environ]: the environment of the parent process.
    - [os_path_exists]: [os.path.exists].
    - [home]: [Path.home()].
    - [resolve]: [Path.resolve()], [None] when it raises.
    - [user_name], [group_name]: the names of the process's user and group.
    - [mkdtemp]: the directory [tempfile.TemporaryDirectory()] creates.
    - [run_shell command env cwd]: exit code and raw output of the child
      that [asyncio.create_subprocess_shell] starts and [communicate]
      waits for.
    - [decode]: [bytes.decode()], [None] when it raises. *)
Record host := mkhost {
  os_environ : gmap string string;
  os_path_exists : string -> bool;
  home : path;
  resolve : path -> option path;
  user_name : string;
  group_name : string;
  mkdtemp : string;
  run_shell : string -> gmap string string -> string -> Z * string * string;
  decode : string -> option string
}.

Record SecurityContext := mkctx {
  user : string;
  group : string;
  permissions : Z;
  environment : gmap string string;
  allowed_paths : list path;
  restricted_commands : list string
}.

(** The set literal [allowed_vars], as the list of its elements. *)
Definition allowed_vars : list string :=
  [ "HOME"; "USER"; "SHELL"; "PATH"; "TERM"; "LANG";
    "LC_ALL"; "EDITOR"; "VISUAL"; "DISPLAY" ].

Definition safe_paths : list string :=
  [ "/usr/local/bin"; "/usr/bin"; "/bin";
    "/usr/local/sbin"; "/usr/sbin"; "/sbin" ].

(** The loop [for var in allowed_vars: if var in os.environ: ...]. *)
Definition forward_allowed (environ : gmap string string) (vars : list string)
    : gmap string string :=
  foldl (fun safe_env var =>
           match environ !! var with
           | Some v => <[var := v]> safe_env
           | None => safe_env
           end) ∅ vars.

Definition _get_safe_environment (H : host) : gmap string string :=
  let safe_env := forward_allowed (os_environ H) allowed_vars in
  <["PATH" := join ":" (List.filter (os_path_exists H) safe_paths)]> safe_env.

(** The set the method returns, as the list of its elements. *)
Definition _get_allowed_paths (H : host) : list path :=
  [ home H;
    home H // ".terminal_decorator";
    home H // ".config";
    home H // ".local" // "share";
    ["/"; "tmp"];
    ["/"; "var"; "tmp"] ].

(** The set the method returns, as the list of its elements. *)
Definition _get_restricted_commands : list string :=
  [ "rm -rf /"; "chmod -R 777"; "dd if=/dev/zero"; ":(){ :|:& };:";
    "> /dev/sda"; "mkfs"; "fdisk"; "mkswap";
    "sudo rm"; "sudo chmod"; "sudo chown" ].

Definition _create_security_context (H : host) : SecurityContext :=
  {| user := user_name H;
     group := group_name H;
     permissions := 448;
     environment := _get_safe_environment H;
     allowed_paths := _get_allowed_paths H;
     restricted_commands := _get_restricted_commands |}.

Record SandboxManager := mksandbox { context : SecurityContext }.

(** [SandboxManager.__init__] *)
Definition new (H : host) : SandboxManager :=
  {| context := _create_security_context H |}.

Definition is_path_allowed (H : host) (self : SandboxManager) (p : path) : bool :=
  match resolve H p with
  | Some p' =>
      existsb (fun allowed_path => startswith (str p') (str allowed_path))
              (allowed_paths (context self))
  | None => false
  end.

Definition is_command_safe (self : SandboxManager) (command : string) : bool :=
  let command := lower (strip command) in
  negb (existsb (fun restricted => contains restricted command)
                (restricted_commands (context self))).

Inductive exn :=
| SecurityError (msg : string)
| UnicodeDecodeError.

(** What a run does to the outside world, in order. *)
Inductive event :=
| EvMkdtemp (d : string)
| EvSpawn (command : string) (env : gmap string string) (cwd : string)
| EvRmtree (d : string).

Definition run_sandboxed (H : host) (self : SandboxManager) (command : string)
    : (exn + CompletedProcess) * list event :=
  if negb (is_command_safe self command) then
    (inl (SecurityError ("Command not allowed: " +:+ command)), [])
  else
    let sandbox_dir := mkdtemp H in
    let env := <["SANDBOX_DIR" := sandbox_dir]> (environment (context self)) in
    let '(code, out, err) := run_shell H command env sandbox_dir in
    let events :=
      [EvMkdtemp sandbox_dir; EvSpawn command env sandbox_dir; EvRmtree sandbox_dir] in
    match decode H out, decode H err with
    | Some out', Some err' =>
        (inr {| args := command; returncode := code;
                stdout := out'; stderr := err' |}, events)
    | _, _ => (inl UnicodeDecodeError, events)
    end.

(** The environments handed to child processes during a run. *)
Definition child_envs (evs : list event) : list (gmap string string) :=
  omap (fun e => match e with EvSpawn _ env _ => Some env | _ => None end) evs.

(** The number of child processes started during a run. *)
Definition spawned (evs : list event) : nat := length (child_envs evs).

End Sandbox.

(** ** Concrete hosts and states used as examples *)

Module Scenario.
Import PyPath OS Backup Sandbox.

(** A host whose parent environment holds [HOME] and a secret, with
    [/usr/bin] and [/bin] present, and no symbolic links. *)
Definition host0 : host :=
  {| os_environ := <["SECRET" := "hunter2"]> (<["HOME" := "/home/u"]> ∅);
     os_path_exists := fun s => String.eqb s "/bin" || String.eqb s "/usr/bin";
     home := ["/"; "home"; "u"];
     resolve := Some;
     user_name := "u";
     group_name := "u";
     mkdtemp := "/tmp/tmpabc";
     run_shell := fun _ _ _ => (0%Z, "hi", "");
     decode := Some |}.

(** A stand-in for the JSON codec: the five fields, one per line. *)
Definition newline : ascii := ascii_of_N 10.

Definition lines_dumps (m : metadata) : string :=
  PyStr.join (String newline EmptyString)
    [original_path m; timestamp m; hash m; OS.permissions m; owner m].

Definition lines_loads (s : string) : option metadata :=
  match PyStr.split newline s with
  | [a; b; c; d; e] => Some (mkmeta a b c d e)
  | _ => None
  end.

(** An unprivileged user [u] (uid 1000) on a machine with one device; the
    digest is a stand-in that keeps the bytes apart. *)
Definition env0 : os_env :=
  {| sha256_hexdigest := fun data => "sha256:" +:+ data;
     json_dumps := lines_dumps;
     json_loads := lines_loads;
     getuid := 1000;
     getgid := 1000;
     getpwuid := fun uid => if (uid =? 1000)%Z then Some "u" else None;
     getpwnam := fun n => if String.eqb n "u" then Some 1000%Z else None;
     mkstemp := ["/"; "tmp"; "tmpk3v9x2"];
     st_dev := fun _ => 0%Z;
     creat_mode := 420;
     clock := 1700000500 |}.

(** The same machine with [/tmp] on a device of its own. *)
Definition env_tmpfs : os_env :=
  {| sha256_hexdigest := sha256_hexdigest env0;
     json_dumps := lines_dumps;
     json_loads := lines_loads;
     getuid := 1000;
     getgid := 1000;
     getpwuid := getpwuid env0;
     getpwnam := getpwnam env0;
     mkstemp := ["/"; "tmp"; "tmpk3v9x2"];
     st_dev := fun p => match p with
                        | "/" :: "tmp" :: _ => 1%Z
                        | _ => 0%Z
                        end;
     creat_mode := 420;
     clock := 1700000500 |}.

Definition mgr0 : BackupManager :=
  {| backup_dir := ["/"; "home"; "u"; ".terminal_decorator"; "backups"] |}.

Definition bashrc : path := ["/"; "home"; "u"; ".bashrc"].
Definition config_yaml : path := ["/"; "home"; "u"; ".terminal_decorator"; "config.yaml"].

Definition file0 (data : string) (mtime : Z) : file :=
  {| f_data := data; f_mode := 420; f_uid := 1000; f_gid := 1000; f_mtime := mtime |}.

(** A home directory with a [.bashrc] and a [config.yaml], and an empty
    backup store. *)
Definition world0 : world :=
  {| w_fs := [ (bashrc, file0 "export X=1" 1700000000);
               (config_yaml, file0 "fps: 60" 1700000001) ];
     w_log := [] |}.

(** Scenario A: [.bashrc] is backed up at 2024-01-01 12:00:00 ... *)
Definition bashrc_bak : path :=
  backup_dir mgr0 // "shell_configs" // ".bashrc_20240101_120000.bak".

Definition bashrc_meta : path :=
  backup_dir mgr0 // "shell_configs" // ".bashrc_20240101_120000.meta".

Definition world_backed_up : world :=
  (create_backup env0 mgr0 bashrc default_category "20240101_120000" world0).2.

(** ... and then one byte of the stored copy is changed. *)
Definition world_tampered : world :=
  {| w_fs := fs_write bashrc_bak (file0 "export X=2" 1700000000)
                      (w_fs world_backed_up);
     w_log := w_log world_backed_up |}.

(** A stored copy that has lost its sidecar, and whose bytes are not those
    of any version of the target. *)
Definition world_no_sidecar : world :=
  {| w_fs := [ (bashrc, file0 "export X=1" 1700000000);
               (bashrc_bak, file0 "rm -rf ~" 1600000000) ];
     w_log := [] |}.

(** [.bashrc] is then edited and backed up again a day later. *)
Definition world_edited : world :=
  {| w_fs := fs_write bashrc (file0 "export X=2" 1700086400)
                      (w_fs world_backed_up);
     w_log := w_log world_backed_up |}.

Definition bashrc_bak2 : path :=
  backup_dir mgr0 // "shell_configs" // ".bashrc_20240102_120000.bak".

Definition world_two_backups : world :=
  (create_backup env0 mgr0 bashrc default_category "20240102_120000" world_edited).2.

(** [config.yaml] backed up under the default category. *)
Definition config_bak : path :=
  backup_dir mgr0 // "shell_configs" // "config.yaml_20240101_120000.bak".


Definition world_config_backed_up : world :=
  (create_backup env0 mgr0 config_yaml default_category "20240101_120000" world0).2.

End Scenario.

(** ** [SecurityManager] *)

Module Security.
Import PyStr PyPath OS Shutil Backup Sandbox.
Local Open Scope monad_scope.

Record SecurityManager := mksecurity {
  backup_manager : BackupManager;
  sandbox_manager : SandboxManager
}.

(** A positional argument of a decorated function: a [str], a [Path], or
    a value of another type. *)
Inductive arg :=
| ArgStr (s : string)
| ArgPath (p : path)
| ArgOther.

(** [Path(arg)], [None] being the [TypeError] for a value that is no path. *)
Definition arg_path (a : arg) : option path :=
  match a with
  | ArgStr s => Some (parse s)
  | ArgPath p => Some p
  | ArgOther => None
  end.

(** The loop over [args] in [wrapper]: false when it raises
    [SecurityError]. *)
Definition paths_allowed (H : host) (self : SecurityManager) (args : list arg) : bool :=
  forallb (fun a => match a with
                    | ArgStr _ | ArgPath _ =>
                        match arg_path a with
                        | Some p => is_path_allowed H (sandbox_manager self) p
                        | None => true
                        end
                    | ArgOther => true
                    end) args.

Definition mutating_names : list string :=
  ["write_file"; "modify_file"; "delete_file"].

(** The [wrapper] that [secure_file_operation(func)] returns, applied to
    the positional arguments [args]: [func_name] is [func.__name__] and
    [func] the decorated function, its keyword arguments included (the
    wrapper passes them on unread); [timestamp] is the clock reading
    [create_backup] takes.  The [except] clause logs and raises again. *)
Definition secure_file_operation {A} (H : host) (E : os_env)
    (self : SecurityManager) (func_name : string) (func : list arg -> M A)
    (timestamp : string) (args : list arg) : M A :=
  if negb (paths_allowed H self args) then raise
  else
    (if bool_decide (func_name ∈ mutating_names) then
       match args with
       | [] => raise
       | a0 :: _ =>
           p <- must (arg_path a0) ;;
           create_backup E (backup_manager self) p default_category timestamp ;;;
           ret tt
       end
     else ret tt) ;;;
    func args.

(** [secure_command_execution]: logs, runs, and raises again what
    [run_sandboxed] raises. *)
Definition secure_command_execution (H : host) (self : SecurityManager)
    (command : string) : (exn + CompletedProcess) * list event :=
  run_sandboxed H (sandbox_manager self) command.


End Security.

(** ** The callers in [terminal_decorator.py] *)

Module TerminalDecorator.
Import PyStr PyPath OS Shutil Backup.
Local Open Scope monad_scope.

(** [shell_config_path]: [environ] is [os.environ], [home] is
    [Path.home()]. *)
Definition shell_config_path (environ : gmap string string) (home : path) : path :=
  let shell := List.last (split "/" (default EmptyString (environ !! "SHELL")))
                         EmptyString in
  if String.eqb shell "zsh" then home // ".zshrc"
  else if String.eqb shell "bash" then home // ".bashrc"
  else home // ("." +:+ shell +:+ "rc").

(** [backup_shell_config] (the messages it prints are left out). *)
Definition backup_shell_config (E : os_env) (mgr : BackupManager)
    (environ : gmap string string) (home : path) (timestamp : string) : M bool :=
  try_except
    (let config_path := shell_config_path environ home in
     fs <- get_fs ;;
     if fs_exists config_path fs then
       backup_path <- create_backup E mgr config_path default_category timestamp ;;
       match backup_path with
       | Some _ => ret true
       | None => ret false
       end
     else ret false)
    false.

(** [restore_shell_config] *)
Definition restore_shell_config (E : os_env) (mgr : BackupManager)
    (environ : gmap string string) (home : path) (backup_path : option path)
    : M bool :=
  try_except
    (restore_backup E mgr (shell_config_path environ home) backup_path)
    false.

End TerminalDecorator.

(** ** The directories of the store *)

Module Dirs.
Import PyPath OS Backup.

(** What a path names: a directory or something else, with the [stat]
    fields the constructor of [BackupManager] changes. *)
Inductive kind := KDir | KOther.

Record node := mknode { n_kind : kind; n_mode : Z; n_uid : Z; n_gid : Z }.

(** The paths that exist. *)
Definition tree := list (path * node).

Fixpoint t_lookup (p : path) (t : tree) : option node :=
  match t with
  | [] => None
  | (q, n) :: t' => if decide (q = p) then Some n else t_lookup p t'
  end.

Fixpoint t_set (p : path) (n : node) (t : tree) : tree :=
  match t with
  | [] => [(p, n)]
  | (q, m) :: t' =>
      if decide (q = p) then (p, n) :: t' else (q, m) :: t_set p n t'
  end.

(** [p.is_dir()] *)
Definition is_dir (p : path) (t : tree) : bool :=
  match t_lookup p t with
  | Some n => match n_kind n with KDir => true | KOther => false end
  | None => false
  end.

(** [p.parent]; a root is its own parent. *)
Definition parent (p : path) : path :=
  match p with
  | [a] => if is_root a then p else []
  | _ => removelast p
  end.

(** The [OSError]s the constructor can meet. *)
Inductive oserror :=
| FileNotFoundError
| FileExistsError
| NotADirectoryError
| PermissionError.

(** A computation on the tree that returns or raises. *)
Definition DM (A : Type) : Type := tree -> (oserror + A) * tree.

Definition dret {A} (a : A) : DM A := fun t => (inr a, t).

Definition dbind {A B} (m : DM A) (k : A -> DM B) : DM B :=
  fun t => match m t with
           | (inr a, t') => k a t'
           | (inl e, t') => (inl e, t')
           end.

(** A directory as [os.mkdir(p, 0o777)] makes it under the mask [umask]. *)
Definition fresh_dir (E : os_env) (umask : Z) : node :=
  {| n_kind := KDir; n_mode := Z.ldiff 511 umask;
     n_uid := getuid E; n_gid := getgid E |}.

(** [os.mkdir(p, 0o777)].  (The permission to write into the parent is
    not modelled.) *)
Definition os_mkdir (E : os_env) (umask : Z) (p : path) : DM unit :=
  fun t =>
    match t_lookup p t with
    | Some _ => (inl FileExistsError, t)
    | None =>
        match t_lookup (parent p) t with
        | None => (inl FileNotFoundError, t)
        | Some d =>
            match n_kind d with
            | KOther => (inl NotADirectoryError, t)
            | KDir => (inr tt, t_set p (fresh_dir E umask) t)
            end
        end
    end.

(** [Path.mkdir(parents=..., exist_ok=...)]: on [FileNotFoundError] with
    [parents] it makes the parent and tries again, on another [OSError] it
    returns when [exist_ok] holds and the path is a directory.  [fuel]
    bounds the climb to the ancestors; the length of [p] is enough. *)
Fixpoint mkdir (fuel : nat) (E : os_env) (umask : Z) (p : path)
    (parents exist_ok : bool) : DM unit :=
  fun t =>
    match os_mkdir E umask p t with
    | (inr _, t') => (inr tt, t')
    | (inl FileNotFoundError, t') =>
        if negb parents || bool_decide (parent p = p)
        then (inl FileNotFoundError, t')
        else
          match fuel with
          | 0 => (inl FileNotFoundError, t')
          | S fuel' =>
              match mkdir fuel' E umask (parent p) true true t' with
              | (inr _, t'') => mkdir fuel' E umask p false exist_ok t''
              | (inl e, t'') => (inl e, t'')
              end
          end
    | (inl e, t') =>
        if negb exist_ok || negb (is_dir p t') then (inl e, t')
        else (inr tt, t')
    end.

(** Who may change the mode or the owner of a node: its owner and root.
    (The real and the effective user of the process are taken to be the
    same.) *)
Definition may_change (E : os_env) (n : node) : bool :=
  (n_uid n =? getuid E)%Z || (getuid E =? 0)%Z.

(** [p.chmod(mode)] *)
Definition chmod (E : os_env) (p : path) (mode : Z) : DM unit :=
  fun t =>
    match t_lookup p t with
    | None => (inl FileNotFoundError, t)
    | Some n =>
        if may_change E n then
          (inr tt, t_set p {| n_kind := n_kind n; n_mode := mode;
                              n_uid := n_uid n; n_gid := n_gid n |} t)
        else (inl PermissionError, t)
    end.

(** [os.chown(p, os.getuid(), os.getgid())] *)
Definition chown_self (E : os_env) (p : path) : DM unit :=
  fun t =>
    match t_lookup p t with
    | None => (inl FileNotFoundError, t)
    | Some n =>
        if may_change E n then
          (inr tt, t_set p {| n_kind := n_kind n; n_mode := n_mode n;
                              n_uid := getuid E; n_gid := getgid E |} t)
        else (inl PermissionError, t)
    end.

Definition _secure_directory (E : os_env) (p : path) : DM unit :=
  dbind (chmod E p 448) (fun _ => chown_self E p).

Definition subdirectories : list string :=
  ["shell_configs"; "system_configs"; "logs"].

Definition _setup_backup_structure (E : os_env) (umask : Z)
    (self : BackupManager) : DM unit :=
  dbind (mkdir 0 E umask (backup_dir self // "shell_configs") false true) (fun _ =>
  dbind (mkdir 0 E umask (backup_dir self // "system_configs") false true) (fun _ =>
  dbind (mkdir 0 E umask (backup_dir self // "logs") false true) (fun _ =>
  _secure_directory E (backup_dir self)))).

(** The directory [__init__] settles on: an empty string counts as no
    argument. *)
Definition init_backup_dir (home : path) (backup_dir : option string) : path :=
  match backup_dir with
  | Some s =>
      if String.eqb s EmptyString
      then home // ".terminal_decorator" // "backups"
      else parse s
  | None => home // ".terminal_decorator" // "backups"
  end.

(** [BackupManager.__init__] *)
Definition __init__ (E : os_env) (umask : Z) (home : path)
    (backup_dir : option string) : DM BackupManager :=
  let self := {| Backup.backup_dir := init_backup_dir home backup_dir |} in
  dbind (mkdir (length (Backup.backup_dir self)) E umask
               (Backup.backup_dir self) true true) (fun _ =>
  dbind (_setup_backup_structure E umask self) (fun _ =>
  dret self)).

(** The path and the directories above it, from the top. *)
Definition ancestors (p : path) : list path :=
  (fun k => take k p) <$> seq 1 (length p).

(** Nothing but a directory is in the way at [p]. *)
Definition absent_or_dir (t : tree) (p : path) : bool :=
  match t_lookup p t with
  | Some n => match n_kind n with KDir => true | KOther => false end
  | None => true
  end.

(** The caller may change [p] if it exists. *)
Definition absent_or_own (E : os_env) (t : tree) (p : path) : bool :=
  match t_lookup p t with
  | Some n => may_change E n
  | None => true
  end.

End Dirs.

(** ** Further scenarios *)

Module ScenarioMore.
Import PyPath OS Backup Sandbox Scenario.

(** A [.bashrc] whose owner (uid 4242) has no entry in the password
    database. *)
Definition world_orphan : world :=
  {| w_fs := [ (bashrc, {| f_data := "export X=1"; f_mode := 420;
                           f_uid := 4242; f_gid := 1000;
                           f_mtime := 1700000000 |}) ];
     w_log := [] |}.

(** A backup whose sidecar records the right digest and a permission
    string that is not octal. *)
Definition world_bad_permissions : world :=
  {| w_fs := [ (bashrc, file0 "export X=2" 1700000300);
               (bashrc_bak, file0 "export X=1" 1700000000);
               (bashrc_meta,
                file0 (lines_dumps (mkmeta "/home/u/.bashrc" "20240101_120000"
                                           "sha256:export X=1" "rw-" "u"))
                      1700000100) ];
     w_log := [] |}.

(** A backup of mode 0600 recorded in a sidecar that names another file,
    with a mode of 0755. *)
Definition world_foreign_record : world :=
  {| w_fs := [ (bashrc, file0 "export X=2" 1700000300);
               (bashrc_bak,
                {| f_data := "export X=1"; f_mode := 384; f_uid := 1000;
                   f_gid := 1000; f_mtime := 1700000000 |});
               (bashrc_meta,
                file0 (lines_dumps (mkmeta "/etc/passwd" "20240101_120000"
                                           "sha256:export X=1" "755" "u"))
                      1700000100) ];
     w_log := [] |}.

(** A [config.yaml] of mode 04755 (setuid). *)
Definition world_setuid : world :=
  {| w_fs := [ (config_yaml,
                {| f_data := "fps: 60"; f_mode := 2541; f_uid := 1000;
                   f_gid := 1000; f_mtime := 1700000001 |}) ];
     w_log := [] |}.

(** A [.bashrc] and an older [.bashrc_old] beside it, and an empty
    store. *)
Definition bashrc_old : path := ["/"; "home"; "u"; ".bashrc_old"].

Definition bashrc_old_bak : path :=
  backup_dir mgr0 // "shell_configs" // ".bashrc_old_20240101_120000.bak".

(** The directories of a machine where user [u] has not run the program
    yet ... *)
Definition tree0 : Dirs.tree :=
  [ (["/"], Dirs.mknode Dirs.KDir 493 0 0);
    (["/"; "home"], Dirs.mknode Dirs.KDir 493 0 0);
    (["/"; "home"; "u"], Dirs.mknode Dirs.KDir 493 1000 1000) ].

(** ... and of one where the store is there and belongs to root. *)
Definition tree_foreign : Dirs.tree :=
  [ (["/"], Dirs.mknode Dirs.KDir 493 0 0);
    (["/"; "home"], Dirs.mknode Dirs.KDir 493 0 0);
    (["/"; "home"; "u"], Dirs.mknode Dirs.KDir 493 1000 1000);
    (["/"; "home"; "u"; ".terminal_decorator"],
     Dirs.mknode Dirs.KDir 493 1000 1000);
    (backup_dir mgr0, Dirs.mknode Dirs.KDir 511 0 0) ].

Definition world_two_files : world :=
  {| w_fs := [ (bashrc, file0 "export X=1" 1700000000);
               (bashrc_old, file0 "export OLD=1" 1690000000) ];
     w_log := [] |}.

(** Scenario C: after the two backups of [.bashrc] of scenario A, the
    first one is restored by its path, and the file, now as it was at
    first, is backed up a third time, a day later. *)
Definition world_first_restored : world :=
  (restore_backup env0 mgr0 bashrc (Some bashrc_bak) world_two_backups).2.

Definition bashrc_bak3 : path :=
  backup_dir mgr0 // "shell_configs" // ".bashrc_20240103_120000.bak".

Definition world_three_backups : world :=
  (create_backup env0 mgr0 bashrc default_category "20240103_120000"
     world_first_restored).2.






(** Both of them backed up, a day apart. *)
Definition world_two_files_backed_up : world :=
  (create_backup env0 mgr0 bashrc_old default_category "20240102_120000"
     (create_backup env0 mgr0 bashrc default_category "20240101_120000"
        world_two_files).2).2.

End ScenarioMore.

(* ================================================================== *)
(** * Part II: lemmas and theorems *)
(* ================================================================== *)

(** ** Strings *)

Module PyStrFacts.
Import PyStr.

Lemma app_cons c (a b : string) : String c a +:+ b = String c (a +:+ b).
Proof. reflexivity. Qed.

Lemma app_nil_l (a : string) : EmptyString +:+ a = a.
Proof. reflexivity. Qed.

(** [String.append] is never unfolded by [simpl]; these two equations
    do its work. *)
Ltac app_simpl := rewrite ?app_cons, ?app_nil_l.
Ltac app_simpl_in H := rewrite ?app_cons, ?app_nil_l in H.

Lemma app_assoc (a b c : string) : (a +:+ b) +:+ c = a +:+ b +:+ c.
Proof. induction a; app_simpl; congruence. Qed.

Lemma app_nil_r (a : string) : a +:+ EmptyString = a.
Proof. induction a; app_simpl; congruence. Qed.

Lemma app_length (a b : string) :
  String.length (a +:+ b) = String.length a + String.length b.
Proof. induction a; app_simpl; simpl; congruence. Qed.

Lemma startswith_spec s p :
  startswith s p = true <-> exists post, s = p +:+ post.
Proof.
  revert s; induction p as [|a p IH]; intros s; simpl.
  - split; [intros _; by exists s | done].
  - destruct s as [|b s].
    + split; [done | intros [post H]; discriminate].
    + destruct (Ascii.eqb a b) eqn:E.
      * apply Ascii.eqb_eq in E as ->. rewrite IH.
        split; intros [post H]; exists post; app_simpl; [congruence|].
        app_simpl_in H. congruence.
      * apply Ascii.eqb_neq in E.
        split; [done | intros [post H]; app_simpl_in H; congruence].
Qed.

Lemma contains_spec sub s : contains sub s = true <-> Substring sub s.
Proof.
  unfold Substring. induction s as [|c s IH]; simpl.
  - rewrite orb_false_r, startswith_spec. split.
    + intros [post H]. by exists EmptyString, post.
    + intros [pre [post H]]. destruct pre; [by exists post | done].
  - rewrite orb_true_iff, startswith_spec, IH. split.
    + intros [[post H] | [pre [post H]]].
      * by exists EmptyString, post.
      * exists (String c pre), post. app_simpl. by rewrite H.
    + intros [pre [post H]]. destruct pre as [|c' pre]; app_simpl_in H.
      * left. by exists post.
      * right. exists pre, post. congruence.
Qed.

(** [strip] removes white space from both ends and nothing else. *)
Lemma lstrip_spec s :
  exists pre, s = pre +:+ lstrip s /\ all_space pre = true
              /\ forall c, first_char (lstrip s) = Some c -> isspace c = false.
Proof.
  induction s as [|c s (pre & Hs & Hpre & Hfirst)]; simpl.
  - by exists EmptyString.
  - destruct (isspace c) eqn:Hc.
    + exists (String c pre). app_simpl. simpl. rewrite Hc, Hpre, <- Hs. done.
    + exists EmptyString. repeat split. simpl. by intros ? [= <-].
Qed.

Lemma rstrip_spec s :
  exists post, s = rstrip s +:+ post /\ all_space post = true
               /\ (forall c, last_char (rstrip s) = Some c -> isspace c = false)
               /\ (forall c, first_char s = Some c -> isspace c = false ->
                     first_char (rstrip s) = Some c).
Proof.
  induction s as [|c s (post & Hs & Hpost & Hlast & _)]; simpl.
  - by exists EmptyString.
  - destruct (rstrip s) as [|c' r] eqn:Hr.
    + rewrite app_nil_l in Hs. subst post. destruct (isspace c) eqn:Hc.
      * exists (String c s). repeat split; simpl; [by rewrite Hc | done |].
        by intros ? [= <-] ?; congruence.
      * exists s. repeat split; simpl; [done | by intros ? [= <-] | done].
    + exists post. repeat split; [by rewrite app_cons, <- Hs | done | | done].
      intros c0. simpl. apply Hlast.
Qed.

Lemma strip_spec s :
  exists pre post,
    s = pre +:+ strip s +:+ post
    /\ all_space pre = true /\ all_space post = true
    /\ (forall c, first_char (strip s) = Some c -> isspace c = false)
    /\ (forall c, last_char (strip s) = Some c -> isspace c = false).
Proof.
  unfold strip.
  destruct (lstrip_spec s) as (pre & Hs & Hpre & Hfirst).
  destruct (rstrip_spec (lstrip s)) as (post & Ht & Hpost & Hlast & Hkeep).
  exists pre, post. split; [by rewrite <- Ht|]. repeat split; try done.
  intros c Hc. destruct (lstrip s) as [|c0 t] eqn:Hl; [done|].
  specialize (Hfirst c0 eq_refl). specialize (Hkeep c0 eq_refl Hfirst).
  congruence.
Qed.

(** [lower] works character by character. *)
Lemma lower_app a b : lower (a +:+ b) = lower a +:+ lower b.
Proof. induction a; app_simpl; simpl; app_simpl; congruence. Qed.

Lemma lower_length s : String.length (lower s) = String.length s.
Proof. induction s; simpl; congruence. Qed.

End PyStrFacts.

(** ** The primitives on small inputs *)

Module Examples.
Import PyStr PyPath Fnmatch.

Example strip_lower_example :
  lower (strip "  SUDO Chmod -R 777 / ") = "sudo chmod -r 777 /".
Proof. reflexivity. Qed.

Example contains_example :
  contains "rc" ".bashrc" = true /\ contains "rc" "config.yaml" = false.
Proof. split; reflexivity. Qed.

Example parse_example : parse "/home//u/./.zshrc" = ["/"; "home"; "u"; ".zshrc"].
Proof. reflexivity. Qed.

Example str_example : str (["/"; "home"; "u"] // ".local" // "share") = "/home/u/.local/share".
Proof. reflexivity. Qed.

Example with_suffix_example :
  with_suffix ["/"; "b"; ".zshrc_20240101_120000.bak"] ".meta"
    = Some ["/"; "b"; ".zshrc_20240101_120000.meta"]
  /\ with_suffix ["/"; "b"; ".bak"] ".meta" = Some ["/"; "b"; ".bak.meta"]
  /\ with_suffix ["/"] ".meta" = None.
Proof. repeat split; reflexivity. Qed.

Example fnmatch_example :
  fnmatch ".zshrc_20240101_120000.bak" ".zshrc_*.bak" = true
  /\ fnmatch ".zshrc_20240101_120000.meta" ".zshrc_*.bak" = false
  /\ fnmatch "a[b]rc_1.bak" "a[b]rc_*.bak" = false
  /\ fnmatch "abrc_1.bak" "a[b]rc_*.bak" = true
  /\ fnmatch "x" "[!a-c]" = true
  /\ fnmatch "a[" "a[" = true.
Proof. repeat split; reflexivity. Qed.

Example oct_example :
  Shutil.oct_last3 33188 = "644" /\ Shutil.int_base8 "644" = Some 420%Z.
Proof. split; reflexivity. Qed.

Example int_example :
  Shutil.int_base8 "0o600" = Some 384%Z
  /\ Shutil.int_base8 " 600 " = Some 384%Z
  /\ Shutil.int_base8 "+600" = Some 384%Z
  /\ Shutil.int_base8 "6_0_0" = Some 384%Z
  /\ Shutil.int_base8 "-17" = Some (-15)%Z
  /\ Shutil.int_base8 "6__0" = None
  /\ Shutil.int_base8 "688" = None
  /\ Shutil.int_base8 "rw-" = None.
Proof. repeat split; reflexivity. Qed.

Example root_example :
  PyPath.parse "//home/u" = ["//"; "home"; "u"]
  /\ PyPath.parse "///home/u" = ["/"; "home"; "u"]
  /\ PyPath.str ["//"; "home"; "u"] = "//home/u"
  /\ PyPath.name ["//"] = EmptyString.
Proof. repeat split; reflexivity. Qed.

Example chown_example :
  Shutil.drop_setid 2541 = 493%Z /\ Shutil.drop_setid 1517 = 493%Z
  /\ Shutil.drop_setid 1509 = 1509%Z /\ Shutil.drop_setid 932 = 932%Z.
Proof. repeat split; reflexivity. Qed.

End Examples.

(** ** The sandbox *)

Module SandboxFacts.
Import PyStr PyPath Sandbox PyStrFacts.

Lemma existsb_elem_of {A} (f : A -> bool) (l : list A) :
  existsb f l = true <-> exists x, x ∈ l /\ f x = true.
Proof.
  rewrite existsb_exists. split; intros [x [Hx Hf]]; exists x; split; try done;
    by apply list_elem_of_In.
Qed.

(** The denylist test is a substring test on the normalised text. *)
Lemma is_command_safe_false self command :
  is_command_safe self command = false <->
  exists restricted,
    restricted ∈ restricted_commands (context self) /\
    Substring restricted (lower (strip command)).
Proof.
  unfold is_command_safe. rewrite negb_false_iff, existsb_elem_of.
  split; intros [r [Hr Hc]]; exists r; split; try done; by apply contains_spec.
Qed.

(** What the forwarding loop leaves in the dictionary. *)
Lemma lookup_forward_acc (environ acc : gmap string string) vars k :
  foldl (fun safe_env var =>
           match environ !! var with
           | Some v => <[var := v]> safe_env
           | None => safe_env
           end) acc vars !! k
  = if decide (k ∈ vars) then
      match environ !! k with Some v => Some v | None => acc !! k end
    else acc !! k.
Proof.
  revert acc. induction vars as [|x vars IH]; intros acc.
  - destruct (decide (k ∈ [])) as [Hin|]; [by apply elem_of_nil in Hin | done].
  - change (foldl ?f acc (x :: vars)) with (foldl f (f acc x) vars).
    rewrite IH.
    destruct (decide (k = x)) as [->|Hne].
    + rewrite (decide_True (P := x ∈ x :: vars)) by left.
      destruct (environ !! x) as [v|] eqn:Ex.
      * rewrite lookup_insert_eq. by case_decide.
      * by case_decide.
    + assert (k ∈ x :: vars <-> k ∈ vars) as Hiff
        by (rewrite elem_of_cons; tauto).
      assert (forall v, <[x:=v]> acc !! k = acc !! k) as Hacc
        by (intros v; by rewrite lookup_insert_ne).
      destruct (decide (k ∈ vars)) as [Hin|Hnin].
      * rewrite (decide_True (P := k ∈ x :: vars)) by tauto.
        destruct (environ !! x); by rewrite ?Hacc.
      * rewrite (decide_False (P := k ∈ x :: vars)) by tauto.
        destruct (environ !! x); by rewrite ?Hacc.
Qed.

Lemma lookup_forward_allowed (environ : gmap string string) vars k :
  forward_allowed environ vars !! k
  = if decide (k ∈ vars) then environ !! k else None.
Proof.
  unfold forward_allowed. rewrite lookup_forward_acc, lookup_empty.
  destruct (decide (k ∈ vars)); [by destruct (environ !! k) | done].
Qed.

(** The only environment a run hands to a child. *)
Lemma child_envs_run H self command env :
  env ∈ child_envs (run_sandboxed H self command).2 ->
  env = <["SANDBOX_DIR" := mkdtemp H]> (environment (context self)).
Proof.
  unfold run_sandboxed.
  destruct (negb (is_command_safe self command)); simpl;
    [by intros ?%elem_of_nil|].
  destruct (run_shell H command _ (mkdtemp H)) as [[code out] err].
  destruct (decode H out), (decode H err); simpl;
    by intros ->%list_elem_of_singleton.
Qed.

(** The events of a run the policy lets through. *)
Lemma run_sandboxed_safe H self command :
  is_command_safe self command = true ->
  child_envs (run_sandboxed H self command).2
  = [<["SANDBOX_DIR" := mkdtemp H]> (environment (context self))].
Proof.
  intros Hsafe. unfold run_sandboxed. rewrite Hsafe. simpl.
  destruct (run_shell H command _ (mkdtemp H)) as [[code out] err].
  by destruct (decode H out), (decode H err).
Qed.

(** **** C8
    [is_command_safe] trims and lower-cases the command and answers false
    exactly when the normalised text contains an entry of the fixed
    denylist as a substring; it rejects ["rm -rf /"] and
    ["SUDO CHMOD -R 777 /"] and accepts ["ls -la"]. *)
Theorem C8_is_command_safe (H : host) (command : string) :
  (is_command_safe (new H) command = false <->
   exists restricted,
     restricted ∈ _get_restricted_commands /\
     Substring restricted (lower (strip command)))
  /\ is_command_safe (new H) "rm -rf /" = false
  /\ is_command_safe (new H) "SUDO CHMOD -R 777 /" = false
  /\ is_command_safe (new H) "ls -la" = true.
Proof.
  split; [apply is_command_safe_false | by vm_compute].
Qed.

(** **** C1
    A command the policy rejects makes [run_sandboxed] raise
    [SecurityError] at once: nothing has happened before, no temporary
    directory was made and no child process was started.  This is the case
    of ["sudo rm -rf /"] on every host. *)
Theorem C1_unsafe_command_not_run (H : host) (self : SandboxManager)
    (command : string) (Hunsafe : is_command_safe self command = false) :
  run_sandboxed H self command
    = (inl (SecurityError ("Command not allowed: " +:+ command)), [])
  /\ spawned (run_sandboxed H self command).2 = 0
  /\ forall H', run_sandboxed H' (new H') "sudo rm -rf /"
       = (inl (SecurityError "Command not allowed: sudo rm -rf /"), []).
Proof.
  unfold run_sandboxed. rewrite Hunsafe. simpl. done.
Qed.

Lemma C1_witness :
  run_sandboxed Scenario.host0 (new Scenario.host0) "SUDO chown root /etc"
    = (inl (SecurityError "Command not allowed: SUDO chown root /etc"), []).
Proof.
  apply (C1_unsafe_command_not_run Scenario.host0 (new Scenario.host0)
           "SUDO chown root /etc").
  reflexivity.
Defined.

(** **** C7 (as amended)
    The environment of a sandboxed child holds only variables of the
    allow-list and the variable [SANDBOX_DIR], which the sandbox sets to its
    temporary directory; [PATH] is always the fixed list of system
    directories, in order, cut down to those that exist and joined by
    colons; every other allow-listed variable is there exactly when the
    parent has it, with the parent's value. *)
Theorem C7_child_environment (H : host) (command : string)
    (env : gmap string string)
    (Hchild : env ∈ child_envs (run_sandboxed H (new H) command).2) :
  (forall var, is_Some (env !! var) -> var ∈ allowed_vars \/ var = "SANDBOX_DIR")
  /\ env !! "SANDBOX_DIR" = Some (mkdtemp H)
  /\ env !! "PATH" = Some (join ":" (List.filter (os_path_exists H) safe_paths))
  /\ (forall var, var ∈ allowed_vars -> var <> "PATH" ->
        env !! var = os_environ H !! var).
Proof.
  apply child_envs_run in Hchild as ->. simpl.
  unfold _get_safe_environment. repeat split.
  - intros var Hsome.
    destruct (decide (var = "SANDBOX_DIR")) as [->|Hsd]; [by right|left].
    rewrite lookup_insert_ne in Hsome by done.
    destruct (decide (var = "PATH")) as [->|Hp];
      [apply list_elem_of_In; simpl; tauto|].
    rewrite lookup_insert_ne, lookup_forward_allowed in Hsome by done.
    destruct (decide (var ∈ allowed_vars)); [done | by destruct Hsome].
  - by rewrite lookup_insert_eq.
  - rewrite lookup_insert_ne by done. by rewrite lookup_insert_eq.
  - intros var Hin Hp.
    assert (var <> "SANDBOX_DIR").
    { intros ->. apply list_elem_of_In in Hin. simpl in Hin.
      repeat destruct Hin as [Hin|Hin]; discriminate || done. }
    rewrite !lookup_insert_ne, lookup_forward_allowed by done.
    by rewrite decide_True.
Qed.

Lemma C7_witness :
  let env := <["SANDBOX_DIR" := "/tmp/tmpabc"]>
               (environment (context (new Scenario.host0))) in
  env ∈ child_envs (run_sandboxed Scenario.host0 (new Scenario.host0) "echo hi").2
  /\ (forall var, is_Some (env !! var) -> var ∈ allowed_vars \/ var = "SANDBOX_DIR")
  /\ env !! "SANDBOX_DIR" = Some "/tmp/tmpabc"
  /\ env !! "PATH" = Some "/usr/bin:/bin".
Proof.
  intros env.
  assert (Hchild :
    env ∈ child_envs (run_sandboxed Scenario.host0 (new Scenario.host0) "echo hi").2).
  { rewrite (run_sandboxed_safe Scenario.host0 (new Scenario.host0) "echo hi")
      by reflexivity.
    apply list_elem_of_here. }
  split; [exact Hchild|].
  destruct (C7_child_environment Scenario.host0 "echo hi" env Hchild)
    as (Hdom & Hsd & Hpath & _).
  split; [exact Hdom|]. split; [exact Hsd | exact Hpath].
Defined.

(** The claim as first stated fails: the child of ["echo hi"] on [host0]
    gets [SANDBOX_DIR], which is not on the allow-list. *)
Lemma C7_counterexample :
  ~ (forall env,
       env ∈ child_envs (run_sandboxed Scenario.host0 (new Scenario.host0) "echo hi").2 ->
       forall var, is_Some (env !! var) -> var ∈ allowed_vars).
Proof.
  intros Hall.
  assert (Hin : "SANDBOX_DIR" ∈ allowed_vars).
  { eapply Hall.
    - rewrite (run_sandboxed_safe Scenario.host0 (new Scenario.host0) "echo hi")
        by reflexivity.
      apply list_elem_of_here.
    - by rewrite lookup_insert_eq. }
  apply list_elem_of_In in Hin. simpl in Hin.
  repeat destruct Hin as [Hin|Hin]; discriminate || done.
Qed.

(** **** C6 (the code at the failing input)
    [/tmpx/evil] resolves to itself on [host0] and lies under no allowed
    root, yet [is_path_allowed] accepts it: the text ["/tmpx/evil"] starts
    with the text ["/tmp"]. *)
Theorem C6_string_prefix_sibling_allowed :
  resolve Scenario.host0 ["/"; "tmpx"; "evil"] = Some ["/"; "tmpx"; "evil"]
  /\ is_path_allowed Scenario.host0 (new Scenario.host0) ["/"; "tmpx"; "evil"] = true
  /\ forall root, root ∈ allowed_paths (context (new Scenario.host0)) ->
       ~ nested_under root ["/"; "tmpx"; "evil"].
Proof.
  split; [done|]. split; [done|].
  intros root Hroot [rest Hrest]. apply list_elem_of_In in Hroot.
  simpl in Hroot. unfold truediv in Hroot. simpl in Hroot.
  repeat destruct Hroot as [<-|Hroot]; try discriminate. done.
Qed.

End SandboxFacts.

(** ** The file system *)

Module OSFacts.
Import PyStr PyPath OS Shutil PyStrFacts.

Lemma fs_lookup_write_eq p f fs : fs_lookup p (fs_write p f fs) = Some f.
Proof.
  induction fs as [|[q g] fs IH]; simpl.
  - by rewrite decide_True.
  - destruct (decide (q = p)) as [->|Hne]; simpl.
    + by rewrite decide_True.
    + by rewrite decide_False.
Qed.

Lemma fs_lookup_write_ne p q f fs :
  q <> p -> fs_lookup q (fs_write p f fs) = fs_lookup q fs.
Proof.
  intros Hqp. induction fs as [|[r g] fs IH]; simpl.
  - by rewrite decide_False.
  - destruct (decide (r = p)) as [->|Hne]; simpl.
    + by rewrite !decide_False.
    + destruct (decide (r = q)); [done | apply IH].
Qed.

Lemma fs_lookup_unlink_eq p fs : fs_lookup p (fs_unlink p fs) = None.
Proof.
  unfold fs_unlink. induction fs as [|[q g] fs IH]; [done|].
  rewrite (filter_cons (fun e : path * file => e.1 <> p)). simpl.
  destruct (decide (q <> p)) as [Hne|Heq]; simpl.
  - by rewrite decide_False.
  - done.
Qed.

Lemma fs_lookup_unlink_ne p q fs :
  q <> p -> fs_lookup q (fs_unlink p fs) = fs_lookup q fs.
Proof.
  intros Hqp. unfold fs_unlink. induction fs as [|[r g] fs IH]; [done|].
  rewrite (filter_cons (fun e : path * file => e.1 <> p)). simpl.
  destruct (decide (r <> p)) as [Hne|Heq]; simpl.
  - destruct (decide (r = q)); [done | exact IH].
  - apply dec_stable in Heq as ->. rewrite decide_False by done. exact IH.
Qed.

Lemma fs_lookup_None p fs : fs_lookup p fs = None <-> p ∉ fs.*1.
Proof.
  induction fs as [|[q g] fs IH]; simpl.
  - split; [intros _; apply not_elem_of_nil | done].
  - rewrite not_elem_of_cons. destruct (decide (q = p)) as [->|Hne].
    + split; [done | by intros [? _]].
    + rewrite IH. split; [by intros ?; split | by intros [_ ?]].
Qed.

Lemma fs_lookup_Some_key p f fs : fs_lookup p fs = Some f -> p ∈ fs.*1.
Proof.
  intros Hl. destruct (decide (p ∈ fs.*1)) as [|Hn]; [done|].
  apply fs_lookup_None in Hn. congruence.
Qed.

(** Writing keeps the enumeration and puts a new name last. *)
Lemma fs_keys_write p f fs :
  (fs_write p f fs).*1 = if fs_exists p fs then fs.*1 else fs.*1 ++ [p].
Proof.
  unfold fs_exists. induction fs as [|[q g] fs IH]; csimpl; [done|].
  destruct (decide (q = p)) as [->|Hne]; csimpl; [done|].
  rewrite IH. by destruct (fs_lookup p fs).
Qed.

Lemma elem_of_fs_keys_write q p f fs :
  q ∈ (fs_write p f fs).*1 <-> q ∈ fs.*1 \/ q = p.
Proof.
  rewrite fs_keys_write. unfold fs_exists.
  destruct (fs_lookup p fs) as [g|] eqn:E.
  - apply fs_lookup_Some_key in E. split; [by left | by intros [?| ->]].
  - rewrite elem_of_app, list_elem_of_singleton. done.
Qed.

Lemma elem_of_fs_glob q dir pat fs :
  q ∈ fs_glob dir pat fs <->
  q ∈ fs.*1 /\ in_dir dir q = true /\ Fnmatch.fnmatch (name q) pat = true.
Proof.
  unfold fs_glob. rewrite list_elem_of_filter, andb_true_iff. tauto.
Qed.

Lemma fs_glob_nil dir pat fs :
  fs_glob dir pat fs = [] <->
  forall q, q ∈ fs.*1 -> in_dir dir q = true ->
            Fnmatch.fnmatch (name q) pat = true -> False.
Proof.
  split.
  - intros Hnil q Hq Hd Hm.
    assert (q ∈ fs_glob dir pat fs) as Hin by by apply elem_of_fs_glob.
    rewrite Hnil in Hin. by apply elem_of_nil in Hin.
  - intros Hno. destruct (fs_glob dir pat fs) as [|q l] eqn:E; [done|].
    assert (q ∈ fs_glob dir pat fs) as Hin by (rewrite E; left).
    apply elem_of_fs_glob in Hin as (Hq & Hd & Hm). by destruct (Hno q).
Qed.

(** [max] returns a listed element, ... *)
Lemma py_max_elem {A} (key : A -> Z) best rest :
  py_max key best rest ∈ best :: rest.
Proof.
  revert best. induction rest as [|x rest IH]; intros best; simpl; [left|].
  specialize (IH (if (key best <? key x)%Z then x else best)).
  apply elem_of_cons in IH as [->|IH].
  - destruct (key best <? key x)%Z; [right; left | left].
  - right. by right.
Qed.

(** ... none has a larger key, ... *)
Lemma py_max_ge {A} (key : A -> Z) best rest q :
  q ∈ best :: rest -> (key q <= key (py_max key best rest))%Z.
Proof.
  revert best q. induction rest as [|x rest IH]; intros best q Hq; simpl.
  - apply list_elem_of_singleton in Hq as ->. lia.
  - assert (Hb : (key best <= key (if (key best <? key x)%Z then x else best))%Z
                 /\ (key x <= key (if (key best <? key x)%Z then x else best))%Z).
    { destruct (Z.ltb_spec (key best) (key x)); lia. }
    apply elem_of_cons in Hq as [->|Hq].
    + etrans; [apply Hb|]. apply IH. left.
    + apply elem_of_cons in Hq as [->|Hq].
      * etrans; [apply Hb|]. apply IH. left.
      * apply IH. by right.
Qed.

(** ... and it is the element whose key exceeds all others, if any. *)
Lemma py_max_unique `{EqDecision A} (key : A -> Z) best rest b :
  b ∈ best :: rest ->
  (forall q, q ∈ best :: rest -> q <> b -> (key q < key b)%Z) ->
  py_max key best rest = b.
Proof.
  intros Hb Hlt.
  pose proof (py_max_elem key best rest) as Hin.
  pose proof (py_max_ge key best rest b Hb) as Hge.
  destruct (decide (py_max key best rest = b)) as [|Hne]; [done|].
  specialize (Hlt _ Hin Hne). lia.
Qed.

(** A directory listing and the files of its entries depend on the
    content of that directory only. *)
Lemma dir_entries_keys dir fs :
  (dir_entries dir fs).*1 = filter (fun q => in_dir dir q = true) fs.*1.
Proof.
  unfold dir_entries. induction fs as [|[q g] fs IH]; [done|].
  rewrite (filter_cons (fun e : path * file => in_dir dir e.1 = true)).
  rewrite fmap_cons.
  rewrite (filter_cons (fun q : path => in_dir dir q = true)).
  cbn [fst]. destruct (decide (in_dir dir q = true)); [|exact IH].
  rewrite fmap_cons. cbn [fst]. f_equal. exact IH.
Qed.

Lemma fs_glob_dir_entries dir pat fs :
  fs_glob dir pat (dir_entries dir fs) = fs_glob dir pat fs.
Proof.
  unfold fs_glob. rewrite dir_entries_keys, list_filter_filter.
  apply list_filter_iff. intros q. rewrite andb_true_iff. tauto.
Qed.

Lemma fs_lookup_dir_entries dir q fs :
  in_dir dir q = true -> fs_lookup q (dir_entries dir fs) = fs_lookup q fs.
Proof.
  intros Hq. unfold dir_entries. induction fs as [|[r g] fs IH]; [done|].
  rewrite (filter_cons (fun e : path * file => in_dir dir e.1 = true)).
  cbn [fst fs_lookup].
  destruct (decide (in_dir dir r = true)) as [Hd|Hd].
  - cbn [fs_lookup]. destruct (decide (r = q)); [done | exact IH].
  - rewrite decide_False by congruence. exact IH.
Qed.

Lemma py_max_ext {A} (key key' : A -> Z) best rest :
  (forall q, q ∈ best :: rest -> key q = key' q) ->
  py_max key best rest = py_max key' best rest.
Proof.
  revert best. induction rest as [|x rest IH]; intros best Hext; [done|].
  simpl. rewrite (Hext best) by left. rewrite (Hext x) by (right; left).
  apply IH. intros q Hq. apply Hext.
  apply elem_of_cons in Hq as [->|Hq]; [|by do 2 right].
  destruct (key' best <? key' x)%Z; [right; left | left].
Qed.

(** Reading back the three octal digits [create_backup] records. *)
Lemma oct_value_digit d : (0 <= d < 8)%Z -> oct_value (oct_digit d) = Some d.
Proof.
  intros Hd.
  assert (d = 0 \/ d = 1 \/ d = 2 \/ d = 3 \/ d = 4 \/ d = 5 \/ d = 6 \/ d = 7)%Z
    as Hcases by lia.
  repeat destruct Hcases as [->|Hcases]; try reflexivity. by subst.
Qed.

Lemma int_base8_digits a b c :
  (0 <= a < 8)%Z -> (0 <= b < 8)%Z -> (0 <= c < 8)%Z ->
  int_base8 (String (oct_digit a) (String (oct_digit b)
               (String (oct_digit c) EmptyString)))
  = Some (8 * (8 * (8 * 0 + a) + b) + c)%Z.
Proof.
  intros Ha Hb Hc.
  assert (a = 0 \/ a = 1 \/ a = 2 \/ a = 3 \/ a = 4 \/ a = 5 \/ a = 6 \/ a = 7)%Z
    as Ha' by lia.
  assert (b = 0 \/ b = 1 \/ b = 2 \/ b = 3 \/ b = 4 \/ b = 5 \/ b = 6 \/ b = 7)%Z
    as Hb' by lia.
  assert (c = 0 \/ c = 1 \/ c = 2 \/ c = 3 \/ c = 4 \/ c = 5 \/ c = 6 \/ c = 7)%Z
    as Hc' by lia.
  clear Ha Hb Hc.
  repeat destruct Ha' as [->|Ha']; try subst a;
    repeat destruct Hb' as [->|Hb']; try subst b;
    repeat destruct Hc' as [->|Hc']; try subst c; reflexivity.
Qed.

Lemma int_base8_oct_last3 n :
  int_base8 (oct_last3 n)
  = Some (8 * (8 * (8 * 0 + n / 64 mod 8) + n / 8 mod 8) + n mod 8)%Z.
Proof.
  unfold oct_last3. apply int_base8_digits; apply Z.mod_pos_bound; lia.
Qed.

(** The mode the three digits give fits a C [int]. *)
Lemma fits_int_mod n : fits_int (n mod 512) = true.
Proof.
  unfold fits_int. pose proof (Z.mod_pos_bound n 512 eq_refl).
  apply andb_true_iff. split; apply Z.leb_le; lia.
Qed.

End OSFacts.

(** ** Patterns *)

Module FnmatchFacts.
Import PyStr Fnmatch PyStrFacts.

Lemma last_char_app a b : b <> EmptyString -> last_char (a +:+ b) = last_char b.
Proof.
  intros Hb. induction a as [|c a IH]; [done|].
  app_simpl. simpl. rewrite IH. destruct (a +:+ b) eqn:E; [|done].
  destruct a; [by rewrite app_nil_l in E | by rewrite app_cons in E].
Qed.

(** An ordinary character translates to itself. *)
Lemma translate_aux_lit c fuel rest :
  negb (Ascii.eqb c "*" || Ascii.eqb c "?" || Ascii.eqb c "[") = true ->
  translate_aux (S fuel) (String c rest) = TLit c :: translate_aux fuel rest.
Proof.
  destruct c as [[] [] [] [] [] [] [] []]; intros Hc;
    first [ discriminate Hc | reflexivity ].
Qed.

Lemma translate_aux_lits n fuel rest :
  literal n = true ->
  translate_aux (String.length n + fuel) (n +:+ rest)
  = lits n ++ translate_aux fuel rest.
Proof.
  induction n as [|c n IH]; intros Hlit; [done|].
  simpl in Hlit. apply andb_true_iff in Hlit as [Hc Hn].
  app_simpl. change (String.length (String c n) + fuel)
    with (S (String.length n + fuel)).
  rewrite translate_aux_lit by done. simpl lits. by rewrite IH.
Qed.

(** The pattern a restore searches with, for a name without pattern
    characters. *)
Lemma translate_backup_pattern n :
  literal n = true ->
  translate (n +:+ "_*.bak")
  = lits n ++ [TLit "_"; TStar; TLit "."; TLit "b"; TLit "a"; TLit "k"].
Proof.
  intros Hlit. unfold translate. rewrite app_length.
  change (S (String.length n + String.length "_*.bak"))
    with (S (String.length n + 6)).
  rewrite <- Nat.add_succ_r. by rewrite translate_aux_lits.
Qed.

Lemma matches_lits_app n ts s :
  matches (lits n ++ ts) (n +:+ s) = matches ts s.
Proof.
  induction n as [|c n IH]; [done|].
  app_simpl. simpl. by rewrite Ascii.eqb_refl, IH.
Qed.

Lemma matches_lits_inv n ts s :
  matches (lits n ++ ts) s = true ->
  exists s', s = n +:+ s' /\ matches ts s' = true.
Proof.
  revert s. induction n as [|c n IH]; intros s Hm.
  - by exists s.
  - simpl in Hm. destruct s as [|c' s]; [done|].
    apply andb_true_iff in Hm as [Hc Hm]. apply Ascii.eqb_eq in Hc as <-.
    destruct (IH _ Hm) as (s' & -> & Hs'). by exists s'.
Qed.

Lemma matches_star_skip ts a s :
  matches ts s = true -> matches (TStar :: ts) (a +:+ s) = true.
Proof.
  intros Hm. induction a as [|c a IH].
  - rewrite app_nil_l. destruct s; simpl; by rewrite Hm.
  - rewrite app_cons. simpl. simpl in IH. rewrite IH. apply orb_true_r.
Qed.

Lemma matches_star_inv ts s :
  matches (TStar :: ts) s = true ->
  exists a r, s = a +:+ r /\ matches ts r = true.
Proof.
  induction s as [|c s IH]; simpl; intros Hm.
  - rewrite orb_false_r in Hm. by exists EmptyString, EmptyString.
  - apply orb_true_iff in Hm as [Hm|Hm].
    + by exists EmptyString, (String c s).
    + destruct (IH Hm) as (a & r & -> & Hr). by exists (String c a), r.
Qed.

(** The name [create_backup] gives a backup matches the pattern
    [restore_backup] searches with. *)
Lemma fnmatch_backup_name n ts :
  literal n = true ->
  fnmatch (n +:+ "_" +:+ ts +:+ ".bak") (n +:+ "_*.bak") = true.
Proof.
  intros Hlit. unfold fnmatch. rewrite translate_backup_pattern by done.
  rewrite matches_lits_app.
  change ("_" +:+ ts +:+ ".bak") with (String "_" (ts +:+ ".bak")).
  change (matches (TLit "_" :: ?l) (String "_" ?s)) with (true && matches l s).
  by apply matches_star_skip.
Qed.

(** What matches that pattern ends in [".bak"]. *)
Lemma fnmatch_backup_pattern_inv n s :
  literal n = true ->
  fnmatch s (n +:+ "_*.bak") = true ->
  last_char s = Some "k"%char.
Proof.
  intros Hlit. unfold fnmatch. rewrite translate_backup_pattern by done.
  intros (s1 & -> & Hm)%matches_lits_inv.
  destruct s1 as [|c s1]; [done|]. simpl in Hm.
  apply andb_true_iff in Hm as [_ Hm].
  apply (matches_star_inv [TLit "."; TLit "b"; TLit "a"; TLit "k"]) in Hm
    as (a & r & -> & Hr).
  apply (matches_lits_inv ".bak" []) in Hr as (s' & -> & Hs').
  simpl in Hs'. apply String.eqb_eq in Hs' as ->.
  rewrite last_char_app by done.
  change (String c (a +:+ ".bak" +:+ "")) with (String c a +:+ ".bak").
  by rewrite last_char_app.
Qed.

(** *** The search pattern of any name *)

(** A translation that ends in an ordinary character accepts only texts
    that end in it. *)
Lemma matches_last ts k s :
  matches (ts ++ [TLit k]) s = true -> last_char s = Some k.
Proof.
  revert s. induction ts as [|t ts IH]; intros s.
  - destruct s as [|c s]; [done|]. simpl.
    intros [Hc Hs]%andb_true_iff. apply Ascii.eqb_eq in Hc as ->.
    by apply String.eqb_eq in Hs as ->.
  - assert (Hcons : forall c s',
              last_char s' = Some k -> last_char (String c s') = Some k).
    { intros c s' Hs'. by destruct s'. }
    destruct t.
    + induction s as [|c s IHs]; simpl; intros Hm.
      * rewrite orb_false_r in Hm. exact (IH EmptyString Hm).
      * apply orb_true_iff in Hm as [Hm|Hm]; [exact (IH _ Hm)|].
        exact (Hcons _ _ (IHs Hm)).
    + destruct s as [|c0 s]; [done|]. cbn [matches app]. intros Hm.
      exact (Hcons _ _ (IH _ Hm)).
    + destruct s as [|c0 s]; [done|]. cbn [matches app].
      intros [_ Hm]%andb_true_iff. exact (Hcons _ _ (IH _ Hm)).
    + destruct s as [|c0 s]; [done|]. cbn [matches app].
      intros [_ Hm]%andb_true_iff. exact (Hcons _ _ (IH _ Hm)).
Qed.

(** A bracket expression opened in the name is closed in the name: the
    text [_*.bak] that follows it holds no [']']. *)
Lemma until_close_suffix x body after :
  until_close (x +:+ "_*.bak") = Some (body, after) ->
  exists x', after = x' +:+ "_*.bak" /\ String.length x' < String.length x.
Proof.
  revert body after. induction x as [|c x IH]; intros body after Hu.
  - by vm_compute in Hu.
  - rewrite app_cons in Hu. cbn [until_close] in Hu.
    destruct (Ascii.eqb c "]").
    + injection Hu as <- <-. exists x. simpl. split; [done | lia].
    + destruct (until_close (x +:+ "_*.bak")) as [[b a]|] eqn:Hx; [|done].
      injection Hu as <- <-.
      destruct (IH _ _ eq_refl) as (x' & -> & Hlen).
      exists x'. simpl. split; [done | lia].
Qed.

Lemma split_class_suffix x neg body after :
  split_class (x +:+ "_*.bak") = Some (neg, body, after) ->
  exists x', after = x' +:+ "_*.bak" /\ String.length x' < String.length x.
Proof.
  assert (Hend : forall y (c' : string -> string -> bool * string * string),
            match until_close (y +:+ "_*.bak") with
            | Some (b, a) => Some (c' b a)
            | None => None
            end = Some (neg, body, after) ->
            (forall b a, (c' b a).2 = a) ->
            exists x', after = x' +:+ "_*.bak"
                       /\ String.length x' < String.length y).
  { intros y c' Hm Hc'.
    destruct (until_close (y +:+ "_*.bak")) as [[b a]|] eqn:Hy; [|done].
    injection Hm as Hm. apply (f_equal snd) in Hm. rewrite Hc' in Hm.
    cbn in Hm. subst a. by eapply until_close_suffix. }
  intros Hs. destruct x as [|c x]; [by vm_compute in Hs|].
  rewrite app_cons in Hs.
  destruct (Ascii.eqb_spec c "!") as [->|Hbang].
  - (* ['!'] first *)
    destruct x as [|d x]; [by vm_compute in Hs|].
    rewrite app_cons in Hs.
    destruct (Ascii.eqb_spec d "]") as [->|Hd].
    + cbn in Hs.
      destruct (Hend x (fun b a => (true, String "]" b, a)) Hs)
        as (x' & -> & Hlen); [done|].
      exists x'. simpl. split; [done | lia].
    + assert (Hs' : match until_close (String d x +:+ "_*.bak") with
                    | Some (b, a) => Some (true, b, a)
                    | None => None
                    end = Some (neg, body, after)).
      { rewrite app_cons. revert Hs. clear -Hd.
        by destruct d as [[] [] [] [] [] [] [] []]. }
      destruct (Hend (String d x) (fun b a => (true, b, a)) Hs')
        as (x' & -> & Hlen); [done|].
      exists x'. simpl in *. split; [done | lia].
  - destruct (Ascii.eqb_spec c "]") as [->|Hc].
    + cbn in Hs.
      destruct (Hend x (fun b a => (false, String "]" b, a)) Hs)
        as (x' & -> & Hlen); [done|].
      exists x'. simpl. split; [done | lia].
    + assert (Hs' : match until_close (String c x +:+ "_*.bak") with
                    | Some (b, a) => Some (false, b, a)
                    | None => None
                    end = Some (neg, body, after)).
      { rewrite app_cons. revert Hs. clear -Hc Hbang.
        by destruct c as [[] [] [] [] [] [] [] []]. }
      destruct (Hend (String c x) (fun b a => (false, b, a)) Hs')
        as (x' & -> & Hlen); [done|].
      exists x'. simpl in *. split; [done | lia].
Qed.

(** Whatever the name holds, the pattern [<name>_*.bak] translates to a
    list that ends in the character [k]. *)
Lemma translate_aux_suffix len :
  forall x fuel,
    String.length x <= len -> String.length x + 6 <= fuel ->
    exists ts, translate_aux fuel (x +:+ "_*.bak") = ts ++ [TLit "k"].
Proof.
  induction len as [|len IH]; intros x fuel Hlen Hfuel.
  - destruct x; [|simpl in Hlen; lia]. rewrite app_nil_l.
    do 6 (destruct fuel as [|fuel]; [simpl in Hfuel; lia|]).
    exists [TLit "_"; TStar; TLit "."; TLit "b"; TLit "a"].
      by destruct fuel.
  - destruct x as [|c x].
    { rewrite app_nil_l.
      do 6 (destruct fuel as [|fuel]; [simpl in Hfuel; lia|]).
      exists [TLit "_"; TStar; TLit "."; TLit "b"; TLit "a"].
      by destruct fuel. }
    destruct fuel as [|fuel]; [simpl in Hfuel; lia|].
    simpl in Hlen, Hfuel. rewrite app_cons.
    destruct (IH x fuel) as [ts Hts]; [lia | lia |].
    destruct (Ascii.eqb_spec c "*") as [->|Hstar].
    { cbn [translate_aux]. rewrite Hts.
      destruct ts as [|[] ts].
      + by exists [TStar].
      + by exists (TStar :: ts).
      + by exists (TStar :: TAny :: ts).
      + by exists (TStar :: TLit c :: ts).
      + by exists (TStar :: TSet neg ranges :: ts). }
    destruct (Ascii.eqb_spec c "?") as [->|Hany].
    { cbn [translate_aux]. rewrite Hts. by exists (TAny :: ts). }
    destruct (Ascii.eqb_spec c "[") as [->|Hset].
    { cbn [translate_aux].
      destruct (split_class (x +:+ "_*.bak")) as [[[neg body] after]|] eqn:Hsc.
      + apply split_class_suffix in Hsc as (x' & -> & Hx').
        destruct (IH x' fuel) as [ts' Hts']; [lia | lia |].
        rewrite Hts'. by eexists (_ :: ts').
      + rewrite Hts. by exists (TLit "[" :: ts). }
    rewrite translate_aux_lit.
    + rewrite Hts. by exists (TLit c :: ts).
    + apply negb_true_iff. rewrite !orb_false_iff.
      by repeat split; apply Ascii.eqb_neq.
Qed.

(** What the search pattern of a name matches ends in [".bak"]'s last
    character: the sidecars, which end in [".meta"], are never among the
    candidates. *)
Lemma fnmatch_pattern_last n s :
  fnmatch s (n +:+ "_*.bak") = true -> last_char s = Some "k"%char.
Proof.
  unfold fnmatch, translate.
  destruct (translate_aux_suffix (String.length n) n
              (S (String.length (n +:+ "_*.bak")))) as [ts ->]; [lia | |].
  - rewrite app_length. simpl. lia.
  - apply matches_last.
Qed.

(** Two stars in a row are in the pattern only when they are in the
    name. *)
Lemma contains_stars_pattern n :
  contains "**" n = false -> contains "**" (n +:+ "_*.bak") = false.
Proof.
  induction n as [|c n IH]; [done|]. rewrite app_cons.
  cbn [contains]. intros [Hs Hn]%orb_false_iff.
  rewrite (IH Hn), orb_false_r.
  revert Hs. cbn [startswith].
  destruct (Ascii.eqb "*" c); [|done].
  destruct n as [|d n]; [done|]. rewrite app_cons. cbn [startswith].
  by destruct (Ascii.eqb "*" d).
Qed.

Lemma literal_no_stars n : literal n = true -> contains "**" n = false.
Proof.
  induction n as [|c n IH]; [done|]. cbn [literal contains].
  intros [Hc Hn]%andb_true_iff. rewrite (IH Hn), orb_false_r.
  cbn [startswith]. destruct (Ascii.eqb_spec "*" c) as [<-|]; [done|done].
Qed.

End FnmatchFacts.

(** ** Paths *)

Module PyPathFacts.
Import PyStr PyPath PyStrFacts.

Lemma is_root_false c : c <> "/" -> c <> "//" -> is_root c = false.
Proof.
  intros H1 H2. unfold is_root.
  destruct (String.eqb_spec c "/"); [done|].
  by destruct (String.eqb_spec c "//").
Qed.

Lemma name_truediv d c : c <> "/" -> c <> "//" -> name (d // c) = c.
Proof.
  intros H1 H2. unfold name, truediv. rewrite last_last.
  by rewrite is_root_false.
Qed.

Lemma in_dir_truediv d c : c <> "/" -> c <> "//" -> in_dir d (d // c) = true.
Proof.
  intros H1 H2. unfold in_dir. rewrite name_truediv by done.
  by apply bool_decide_eq_true.
Qed.

(** An entry belongs to one directory only. *)
Lemma in_dir_inj d d' q : in_dir d q = true -> in_dir d' q = true -> d = d'.
Proof.
  unfold in_dir, truediv. intros H1%bool_decide_eq_true H2%bool_decide_eq_true.
  rewrite H1 in H2 at 1. by apply app_inj_tail in H2 as [? _].
Qed.

(** A path and its sidecar are entries of the same directory. *)
Lemma with_suffix_sibling d c sfx mp :
  with_suffix (d // c) sfx = Some mp -> exists x, mp = d // x.
Proof.
  unfold with_suffix, truediv. destruct (String.eqb _ _); [done|].
  rewrite removelast_last. intros [= <-]. eauto.
Qed.

Lemma in_dir_child d d' x : in_dir d' (d // x) = true -> d' = d.
Proof.
  unfold in_dir, truediv. intros H%bool_decide_eq_true.
  by apply app_inj_tail in H as [? _].
Qed.

Lemma length_not_slash c : String.length c <> 1 -> c <> "/".
Proof. by intros Hl ->. Qed.

Lemma length_not_slashes c : String.length c <> 2 -> c <> "//".
Proof. by intros Hl ->. Qed.

(** A name of three characters or more is no root. *)
Lemma name_truediv_long d c : 2 < String.length c -> name (d // c) = c.
Proof.
  intros Hl. apply name_truediv; [apply length_not_slash | apply length_not_slashes]; lia.
Qed.

Lemma in_dir_truediv_long d c : 2 < String.length c -> in_dir d (d // c) = true.
Proof.
  intros Hl. apply in_dir_truediv; [apply length_not_slash | apply length_not_slashes]; lia.
Qed.

Lemma rfind_dot_bak stem :
  rfind "." (stem +:+ ".bak") = Some (String.length stem).
Proof.
  induction stem as [|c stem IH]; [done|].
  app_simpl. simpl. by rewrite IH.
Qed.

Lemma drop_app_length a b : drop (String.length a) (a +:+ b) = b.
Proof. induction a; app_simpl; simpl; [by destruct b | done]. Qed.

Lemma take_app_length a b : take (String.length a) (a +:+ b) = a.
Proof.
  induction a as [|c a IH]; app_simpl; simpl; [by destruct b | by rewrite IH].
Qed.

(** The sidecar of [<stem>.bak] is [<stem>.meta]. *)
Lemma with_suffix_bak d stem :
  stem <> EmptyString ->
  with_suffix (d // (stem +:+ ".bak")) ".meta" = Some (d // (stem +:+ ".meta")).
Proof.
  intros Hstem.
  assert (Hlen : String.length (stem +:+ ".bak") = String.length stem + 4)
    by by rewrite app_length.
  assert (Hpos : 0 < String.length stem) by (destruct stem; [done | simpl; lia]).
  assert (Hname : name (d // (stem +:+ ".bak")) = stem +:+ ".bak").
  { apply name_truediv_long. lia. }
  unfold with_suffix, suffix. rewrite Hname, rfind_dot_bak.
  destruct (String.eqb_spec (stem +:+ ".bak") EmptyString) as [Heq|_].
  { rewrite Heq in Hlen. simpl in Hlen. lia. }
  rewrite Hlen.
  replace (0 <? String.length stem) with true by (symmetry; by apply Nat.ltb_lt).
  replace (String.length stem <? String.length stem + 4 - 1) with true
    by (symmetry; apply Nat.ltb_lt; lia).
  simpl andb. cbv iota. rewrite drop_app_length.
  replace (String.length stem + 4 - String.length ".bak") with (String.length stem)
    by (simpl; lia).
  rewrite take_app_length. unfold truediv. by rewrite removelast_last.
Qed.

End PyPathFacts.

(** ** Sorting *)

Module SortFacts.
Import PyStr Shutil.

Section sorted_desc.
Context {A : Type} (key : A -> string).

Lemma insert_desc_perm x l : insert_desc key x l ≡ₚ x :: l.
Proof.
  induction l as [|y l IH]; simpl; [done|].
  destruct (le (key y) (key x)); [done|].
  rewrite IH. apply Permutation_swap.
Qed.


Lemma insert_desc_sorted x l :
  StronglySorted (desc key) l -> StronglySorted (desc key) (insert_desc key x l).
Proof.
  induction l as [|y l IH]; intros Hs.
  - by repeat constructor.
  - apply StronglySorted_cons in Hs as [Hy Hl].
    change (insert_desc key x (y :: l))
      with (if String.leb (key y) (key x) then x :: y :: l
            else y :: insert_desc key x l).
    destruct (String.leb (key y) (key x)) eqn:Hle.
    + apply StronglySorted_cons. split; [|by apply StronglySorted_cons].
      assert (Hxy : desc key x y) by (unfold desc, le; by rewrite Hle).
      constructor; [done|].
      eapply Forall_impl; [exact Hy|]. intros z Hz.
      exact (transitivity (R := String.le) Hz Hxy).
    + apply StronglySorted_cons. split; [|by apply IH].
      rewrite insert_desc_perm. constructor; [|done].
      unfold desc, le. destruct (String.leb_total (key x) (key y)) as [H|H].
      * by rewrite H.
      * congruence.
Qed.

Lemma sorted_desc_sorted l : StronglySorted (desc key) (sorted_desc key l).
Proof.
  unfold sorted_desc. induction l as [|x l IH]; simpl; [constructor|].
  by apply insert_desc_sorted.
Qed.


End sorted_desc.

End SortFacts.

(** ** Backup and restore *)

Module BackupFacts.
Import PyStr PyPath OS Shutil Backup PyStrFacts FnmatchFacts PyPathFacts OSFacts SortFacts.

(** One step of symbolic execution in [M]. *)
#[local] Arguments fs_lookup : simpl never.
#[local] Arguments fs_write : simpl never.
#[local] Arguments fs_unlink : simpl never.
#[local] Arguments fs_glob : simpl never.
#[local] Arguments with_suffix : simpl never.
#[local] Arguments int_base8 : simpl never.
#[local] Arguments fits_int : simpl never.
#[local] Arguments oct_last3 : simpl never.
#[local] Arguments String.eqb : simpl never.
#[local] Arguments Z.eqb : simpl never.
#[local] Arguments name : simpl never.
#[local] Arguments str : simpl never.
#[local] Arguments truediv : simpl never.
#[local] Arguments app : simpl never.

Lemma w_fs_mk fs log : w_fs (mkworld fs log) = fs.
Proof. reflexivity. Qed.

Lemma w_log_mk fs log : w_log (mkworld fs log) = log.
Proof. reflexivity. Qed.

Ltac mstep :=
  unfold load_metadata, _calculate_file_hash, NamedTemporaryFile, write_text,
    copy2, chmod, chown, move, rename, unlink, fs_exists;
  unfold bind, get_fs, must, ret, raise, sys, try_except, or_else;
  simpl; rewrite ?w_fs_mk, ?w_log_mk.

(** Looking a path up after writes and removals elsewhere. *)
Ltac fs_simpl :=
  repeat first
    [ rewrite fs_lookup_write_eq
    | rewrite fs_lookup_write_ne by congruence
    | rewrite fs_lookup_unlink_ne by congruence ].

(** Symbolic execution: unfold the monad, resolve the look-ups and the
    comparisons the hypotheses settle, and go on while this changes the
    goal. *)
Ltac run :=
  repeat progress
    (mstep; fs_simpl;
     repeat match goal with
       | H : fs_lookup ?p ?fs = _ |- context [fs_lookup ?p ?fs] => rewrite H
       | H : json_loads ?E ?d = _ |- context [json_loads ?E ?d] => rewrite H
       | H : with_suffix ?p ?x = _ |- context [with_suffix ?p ?x] => rewrite H
       | H : int_base8 ?x = _ |- context [int_base8 ?x] => rewrite H
       | H : getpwnam ?E ?x = _ |- context [getpwnam ?E ?x] => rewrite H
       | H : getpwuid ?E ?x = _ |- context [getpwuid ?E ?x] => rewrite H
       | H : String.eqb ?x ?y = _ |- context [String.eqb ?x ?y] => rewrite H
       | H : Z.eqb ?x ?y = _ |- context [Z.eqb ?x ?y] => rewrite H
       | H : fits_int ?x = _ |- context [fits_int ?x] => rewrite H
       | |- context [String.eqb ?x ?x] => rewrite (String.eqb_refl x)
       | |- context [decide (?a = ?b)] =>
           first [ rewrite (decide_False (P := a = b)) by congruence
                 | rewrite (decide_True (P := a = b)) by congruence ]
       end).

(** **** C2
    When the bytes of the backup a restore works from no longer hash to the
    digest recorded in its sidecar, [restore_backup] returns [False] and
    the state is exactly what it was: no file, the target included, has
    been touched and no system call that changes the file system was made.
    This holds for a backup passed explicitly and for the one the search
    finds. *)
Theorem C2_restore_fails_closed_on_tamper (E : os_env) (self : BackupManager)
    (original_path : path) (backup_path : option path) (w : world)
    (b metadata_path : path) (bf mf : file) (recorded : metadata)
    (Hchosen : chosen_backup self original_path backup_path (w_fs w) = Some b)
    (Hbackup : fs_lookup b (w_fs w) = Some bf)
    (Hsuffix : with_suffix b ".meta" = Some metadata_path)
    (Hsidecar : fs_lookup metadata_path (w_fs w) = Some mf)
    (Hrecord : json_loads E (f_data mf) = Some recorded)
    (Htampered : sha256_hexdigest E (f_data bf) <> hash recorded) :
  restore_backup E self original_path backup_path w = (Some false, w).
Proof.
  unfold restore_backup, restore_backup_body. mstep.
  rewrite Hchosen. unfold fs_exists. rewrite Hbackup. mstep.
  rewrite Hsuffix. mstep. rewrite Hsidecar.
  unfold load_metadata, _calculate_file_hash. mstep.
  rewrite Hsidecar. mstep. rewrite Hrecord. mstep. rewrite Hbackup. mstep.
  apply String.eqb_neq in Htampered. rewrite Htampered. by mstep.
Qed.

(** The end of a successful run: name the final state and read the target
    and the log off it. *)
Ltac restore_done :=
  eexists _, _, _; split; [reflexivity|];
  rewrite w_fs_mk, w_log_mk; fs_simpl;
  split; [reflexivity|]; split; [reflexivity|];
  split; [by rewrite <- !(assoc_L (++))|];
  intros ?; first [ congruence | split; [reflexivity | by repeat constructor] ].

(** A restore whose checks pass runs to the end: the target then holds the
    bytes and the mode bits staged from the backup, and without a sidecar
    no call has changed permissions or ownership. *)
Lemma restore_runs (E : os_env) (self : BackupManager)
    (original_path : path) (backup_path : option path) (w : world)
    (b metadata_path : path) (bf : file) :
  chosen_backup self original_path backup_path (w_fs w) = Some b ->
  fs_lookup b (w_fs w) = Some bf ->
  with_suffix b ".meta" = Some metadata_path ->
  fs_lookup (mkstemp E) (w_fs w) = None ->
  mkstemp E <> original_path ->
  mkstemp E <> metadata_path ->
  (fs_lookup metadata_path (w_fs w) = None \/
   exists mf recorded mode,
     fs_lookup metadata_path (w_fs w) = Some mf /\
     json_loads E (f_data mf) = Some recorded /\
     sha256_hexdigest E (f_data bf) = hash recorded /\
     int_base8 (permissions recorded) = Some mode /\
     fits_int mode = true /\
     (getuid E = 0%Z -> is_Some (getpwnam E (owner recorded)))) ->
  exists w' f' evs,
    restore_backup E self original_path backup_path w = (Some true, w') /\
    fs_lookup original_path (w_fs w') = Some f' /\
    f_data f' = f_data bf /\
    w_log w' = w_log w ++ evs /\
    (fs_lookup metadata_path (w_fs w) = None ->
     f_mode f' = f_mode bf /\ Forall (fun c => is_perm_change c = false) evs).
Proof.
  intros Hchosen Hbackup Hsuffix Htmp Htp Htm Hmeta.
  assert (Hbt : b <> mkstemp E) by congruence.
  unfold restore_backup, restore_backup_body. mstep.
  rewrite Hchosen.
  destruct Hmeta
    as [Hnone | (mf & recorded & mode & Hmf & Hrec & Hhash & Hmode & Hfits & Hroot)].
  - run.
    destruct (decide (st_dev E (mkstemp E) = st_dev E original_path)) as [Hdev|Hdev];
      run; restore_done.
  - apply String.eqb_eq in Hhash. run.
    destruct (getuid E =? 0)%Z eqn:Huid.
    + destruct (Hroot (proj1 (Z.eqb_eq _ _) Huid)) as [uid Hpw]. run.
      destruct (decide (st_dev E (mkstemp E) = st_dev E original_path)) as [Hdev|Hdev];
        run; restore_done.
    + run.
      destruct (decide (st_dev E (mkstemp E) = st_dev E original_path)) as [Hdev|Hdev];
        run; restore_done.
Qed.

Lemma C2_witness :
  fs_lookup Scenario.bashrc (w_fs Scenario.world_tampered)
    = Some (Scenario.file0 "export X=1" 1700000000)
  /\ restore_backup Scenario.env0 Scenario.mgr0 Scenario.bashrc None
       Scenario.world_tampered
     = (Some false, Scenario.world_tampered).
Proof.
  split; [by vm_compute|].
  apply (C2_restore_fails_closed_on_tamper Scenario.env0 Scenario.mgr0
           Scenario.bashrc None Scenario.world_tampered
           Scenario.bashrc_bak Scenario.bashrc_meta
           (Scenario.file0 "export X=2" 1700000000)
           {| f_data := Scenario.lines_dumps
                          (mkmeta "/home/u/.bashrc" "20240101_120000"
                                  "sha256:export X=1" "644" "u");
              f_mode := 420; f_uid := 1000; f_gid := 1000;
              f_mtime := 1700000500 |}
           (mkmeta "/home/u/.bashrc" "20240101_120000"
                   "sha256:export X=1" "644" "u"));
    try (vm_compute; reflexivity).
  vm_compute. discriminate.
Defined.

(** **** C9
    When the backup a restore works from has no sidecar, the restore
    neither compares the stored bytes with a recorded digest nor changes
    permissions or ownership: whatever the bytes of the stored copy are, it
    returns [True], the target then holds those bytes with the mode bits of
    the copy, and the calls it made contain no [chmod] and no [chown]. *)
Theorem C9_restore_without_sidecar (E : os_env) (self : BackupManager)
    (original_path : path) (backup_path : option path) (w : world)
    (b metadata_path : path) (bf : file)
    (Hchosen : chosen_backup self original_path backup_path (w_fs w) = Some b)
    (Hbackup : fs_lookup b (w_fs w) = Some bf)
    (Hsuffix : with_suffix b ".meta" = Some metadata_path)
    (Habsent : fs_lookup metadata_path (w_fs w) = None)
    (Hfresh : fs_lookup (mkstemp E) (w_fs w) = None)
    (Htmp_target : mkstemp E <> original_path)
    (Htmp_sidecar : mkstemp E <> metadata_path) :
  exists w' f' evs,
    restore_backup E self original_path backup_path w = (Some true, w') /\
    fs_lookup original_path (w_fs w') = Some f' /\
    f_data f' = f_data bf /\
    f_mode f' = f_mode bf /\
    w_log w' = w_log w ++ evs /\
    Forall (fun c => is_perm_change c = false) evs.
Proof.
  destruct (restore_runs E self original_path backup_path w b metadata_path bf)
    as (w' & f' & evs & Hrun & Hf & Hdata & Hlog & Hperm); auto.
  destruct (Hperm Habsent) as [Hmode Hevs].
  by exists w', f', evs.
Qed.

Lemma C9_witness :
  exists w' f' evs,
    restore_backup Scenario.env0 Scenario.mgr0 Scenario.bashrc None
      Scenario.world_no_sidecar = (Some true, w') /\
    fs_lookup Scenario.bashrc (w_fs w') = Some f' /\
    f_data f' = "rm -rf ~" /\
    f_mode f' = 420%Z /\
    w_log w' = w_log Scenario.world_no_sidecar ++ evs /\
    Forall (fun c => is_perm_change c = false) evs.
Proof.
  apply (C9_restore_without_sidecar Scenario.env0 Scenario.mgr0 Scenario.bashrc
           None Scenario.world_no_sidecar Scenario.bashrc_bak
           Scenario.bashrc_meta (Scenario.file0 "rm -rf ~" 1600000000));
    by vm_compute.
Defined.

(** **** C4 (the code at the failing input)
    With [/tmp] on a device of its own, restoring [/home/u/.bashrc] from
    its backup succeeds, yet no [rename] is made: the staged file, created
    under [/tmp], is copied into the target where it stands and then
    removed. *)
Theorem C4_cross_device_restore_writes_in_place :
  let w := (create_backup Scenario.env_tmpfs Scenario.mgr0 Scenario.bashrc
              default_category "20240101_120000" Scenario.world0).2 in
  let tmp := mkstemp Scenario.env_tmpfs in
  st_dev Scenario.env_tmpfs tmp <> st_dev Scenario.env_tmpfs Scenario.bashrc
  /\ exists w',
       restore_backup Scenario.env_tmpfs Scenario.mgr0 Scenario.bashrc None w
         = (Some true, w')
       /\ w_log w' = w_log w ++ [ SysCreate tmp;
                                  SysCopy Scenario.bashrc_bak tmp;
                                  SysChmod tmp 420;
                                  SysCopy tmp Scenario.bashrc;
                                  SysUnlink tmp ]
       /\ existsb (writes_in_place Scenario.bashrc) (w_log w') = true.
Proof.
  split; [by vm_compute|].
  eexists. split; [vm_compute; reflexivity|]. by vm_compute.
Qed.

(** What a successful [create_backup] has done. *)
Lemma create_backup_inv E self p category ts w b w1 :
  create_backup E self p category ts w = (Some (Some b), w1) ->
  b = backup_dir self // category // (name p +:+ "_" +:+ ts +:+ ".bak")
  /\ exists bfile mp mfile,
       with_suffix b ".meta" = Some mp
       /\ w_fs w1 = fs_write mp mfile (fs_write b bfile (w_fs w)).
Proof.
  unfold create_backup, create_backup_body. mstep.
  destruct (fs_lookup p (w_fs w)) as [f|] eqn:Hp; run; [|done].
  destruct (decide (p = backup_dir self // category //
                          (name p +:+ "_" +:+ ts +:+ ".bak"))) as [Heq|Hne];
    run; [done|].
  destruct (getpwuid E (f_uid f)) as [pw|]; run; [|done].
  destruct (with_suffix _ ".meta") as [mp|] eqn:Hmp; run; [|done].
  intros [= <- <-]. split; [done|]. rewrite w_fs_mk. eauto.
Qed.


(** The candidates of a search are entries of its one directory whose
    names match the pattern, and there are none when [glob] refuses the
    pattern. *)
Lemma elem_of_candidate_backups self original_path fs q :
  q ∈ candidate_backups self original_path fs <->
  contains "**" (name original_path +:+ "_*.bak") = false
  /\ q ∈ fs.*1
  /\ in_dir (backup_dir self // restore_category original_path) q = true
  /\ Fnmatch.fnmatch (name q) (name original_path +:+ "_*.bak") = true.
Proof.
  unfold candidate_backups.
  destruct (contains "**" (name original_path +:+ "_*.bak")).
  - split; [by intros ?%elem_of_nil | by intros [? _]].
  - rewrite elem_of_fs_glob. tauto.
Qed.

(** The search reads one directory. *)
Lemma find_latest_dir_entries self original_path fs :
  find_latest self original_path
    (dir_entries (backup_dir self // restore_category original_path) fs)
  = find_latest self original_path fs.
Proof.
  unfold find_latest, candidate_backups.
  destruct (contains "**" (name original_path +:+ "_*.bak")); [done|].
  rewrite fs_glob_dir_entries.
  destruct (fs_glob _ _ fs) as [|b rest] eqn:Hglob; [done|].
  f_equal. apply py_max_ext. intros q Hq. rewrite <- Hglob in Hq.
  apply elem_of_fs_glob in Hq as (_ & Hdir & _).
  unfold st_mtime. by rewrite fs_lookup_dir_entries.
Qed.


(** What [create_backup] does to an existing file that is not its own
    backup. *)
Lemma create_backup_runs E self p category ts w f pw b mp :
  fs_lookup p (w_fs w) = Some f ->
  getpwuid E (f_uid f) = Some pw ->
  b = backup_dir self // category // (name p +:+ "_" +:+ ts +:+ ".bak") ->
  p <> b ->
  with_suffix b ".meta" = Some mp ->
  exists bfile mfile log1,
    create_backup E self p category ts w
      = (Some (Some b),
         {| w_fs := fs_write mp mfile (fs_write b bfile (w_fs w));
            w_log := log1 |})
    /\ f_data bfile = f_data f
    /\ f_mtime bfile = f_mtime f
    /\ f_data mfile
       = json_dumps E {| original_path := str p;
                         timestamp := ts;
                         hash := sha256_hexdigest E (f_data f);
                         permissions := oct_last3 (st_mode f);
                         owner := pw |}.
Proof.
  intros Hp Hpw -> Hne Hmp.
  unfold create_backup, create_backup_body. run.
  eexists _, _, _. split; [reflexivity|]. done.
Qed.

(** [st_mtime] of a path that two file systems agree on. *)
Lemma st_mtime_ext fs fs' q :
  fs_lookup q fs' = fs_lookup q fs -> st_mtime fs' q = st_mtime fs q.
Proof. unfold st_mtime. by intros ->. Qed.

(** *** Listing *)

Lemma with_suffix_is_Some q sfx :
  name q <> EmptyString -> is_Some (with_suffix q sfx).
Proof.
  intros Hn. unfold with_suffix.
  destruct (String.eqb_spec (name q) EmptyString); [done | eauto].
Qed.





End BackupFacts.

(** ** More on the command policy *)

Module CommandPolicyFacts.
Import PyStr PyPath Sandbox PyStrFacts SandboxFacts.

Lemma Substring_trans a b c : Substring a b -> Substring b c -> Substring a c.
Proof.
  intros (p1 & q1 & ->) (p2 & q2 & ->).
  exists (p2 +:+ p1), (q1 +:+ q2). by rewrite !app_assoc.
Qed.

Lemma Substring_lower a b : Substring a b -> Substring (lower a) (lower b).
Proof. intros (p & q & ->). exists (lower p), (lower q). by rewrite !lower_app. Qed.

(** *** Lower-casing *)

Lemma lower_char_not_R c : lower_char c <> "R"%char.
Proof. destruct c as [[] [] [] [] [] [] [] []]; by vm_compute. Qed.

Lemma lower_char_idem c : lower_char (lower_char c) = lower_char c.
Proof. destruct c as [[] [] [] [] [] [] [] []]; by vm_compute. Qed.

Lemma isspace_lower_char c : isspace (lower_char c) = isspace c.
Proof. destruct c as [[] [] [] [] [] [] [] []]; by vm_compute. Qed.

Lemma lower_idem s : lower (lower s) = lower s.
Proof. induction s; simpl; [done|]. by rewrite lower_char_idem, IHs. Qed.

Lemma lower_no_R s pre post : lower s <> pre +:+ String "R" post.
Proof.
  revert pre. induction s as [|c s IH]; intros pre Heq; simpl in Heq.
  - by destruct pre.
  - destruct pre as [|d pre]; app_simpl_in Heq; injection Heq as Hc Hs.
    + by apply lower_char_not_R in Hc.
    + by apply IH in Hs.
Qed.

Lemma lstrip_lower s : lstrip (lower s) = lower (lstrip s).
Proof.
  induction s as [|c s IH]; simpl; [done|].
  rewrite isspace_lower_char. by destruct (isspace c).
Qed.

Lemma rstrip_lower s : rstrip (lower s) = lower (rstrip s).
Proof.
  induction s as [|c s IH]; simpl; [done|]. rewrite IH, isspace_lower_char.
  destruct (rstrip s); simpl; [by destruct (isspace c) | done].
Qed.

Lemma strip_lower s : strip (lower s) = lower (strip s).
Proof. unfold strip. by rewrite lstrip_lower, rstrip_lower. Qed.

(** *** White space around a command *)

Lemma lstrip_all_space s : all_space s = true -> lstrip s = EmptyString.
Proof.
  induction s as [|c s IH]; simpl; [done|].
  intros [Hc Hs]%andb_true_iff. rewrite Hc. auto.
Qed.

Lemma rstrip_all_space s : all_space s = true -> rstrip s = EmptyString.
Proof.
  induction s as [|c s IH]; simpl; [done|].
  intros [Hc Hs]%andb_true_iff. by rewrite IH, Hc.
Qed.

Lemma lstrip_app_space pre s : all_space pre = true -> lstrip (pre +:+ s) = lstrip s.
Proof.
  induction pre as [|c pre IH]; [done|]. cbn [all_space].
  intros [Hc Hs]%andb_true_iff. rewrite app_cons. cbn [lstrip]. rewrite Hc. auto.
Qed.

Lemma rstrip_app_space s post : all_space post = true -> rstrip (s +:+ post) = rstrip s.
Proof.
  intros Hpost. induction s as [|c s IH].
  - rewrite app_nil_l. by apply rstrip_all_space.
  - rewrite app_cons. simpl. by rewrite IH.
Qed.

Lemma strip_app_space_r s post :
  all_space post = true -> strip (s +:+ post) = strip s.
Proof.
  intros Hpost. unfold strip. induction s as [|c s IH].
  - rewrite app_nil_l. by rewrite lstrip_all_space.
  - rewrite app_cons. simpl. destruct (isspace c); [exact IH|].
    rewrite <- app_cons. by apply rstrip_app_space.
Qed.

Lemma strip_padded pre s post :
  all_space pre = true -> all_space post = true ->
  strip (pre +:+ s +:+ post) = strip s.
Proof.
  intros Hpre Hpost. unfold strip at 1. rewrite lstrip_app_space by done.
  by apply strip_app_space_r.
Qed.

(** *** What stripping keeps *)

Lemma lstrip_keeps u t v c :
  first_char t = Some c -> isspace c = false ->
  exists u', lstrip (u +:+ t +:+ v) = u' +:+ t +:+ v.
Proof.
  intros Hfirst Hc. induction u as [|d u IH].
  - exists EmptyString. rewrite !app_nil_l.
    destruct t as [|c' t]; [done|]. injection Hfirst as ->.
    rewrite app_cons. simpl. by rewrite Hc.
  - rewrite app_cons. simpl. destruct (isspace d); [exact IH|].
    exists (String d u). by rewrite app_cons.
Qed.

Lemma rstrip_keeps w v c :
  last_char w = Some c -> isspace c = false ->
  exists v', rstrip (w +:+ v) = w +:+ v'.
Proof.
  revert c. induction w as [|d w IH]; intros c Hlast Hc; [done|].
  rewrite app_cons. simpl. destruct w as [|d' w].
  - simpl in Hlast. injection Hlast as ->. rewrite app_nil_l.
    destruct (rstrip v) as [|e r]; [rewrite Hc; by exists EmptyString|].
    by exists (String e r).
  - destruct (IH c Hlast Hc) as [v' Hv']. rewrite Hv'.
    rewrite app_cons. exists v'. by rewrite !app_cons.
Qed.

Lemma last_char_app_r a b : b <> EmptyString -> last_char (a +:+ b) = last_char b.
Proof.
  intros Hb. induction a as [|c a IH]; [done|].
  rewrite app_cons. simpl. rewrite IH. destruct (a +:+ b) eqn:E; [|done].
  destruct a; [by rewrite app_nil_l in E | by rewrite app_cons in E].
Qed.

Lemma last_char_None s : last_char s = None -> s = EmptyString.
Proof.
  induction s as [|c s IH]; [done|]. simpl.
  destruct s; [done|]. intros H. by apply IH in H.
Qed.

(** The stripped form of a text is found in the stripped form of any text
    around it. *)
Lemma strip_Substring pre s post :
  Substring (strip s) (strip (pre +:+ s +:+ post)).
Proof.
  destruct (strip_spec s) as (a & b & Hs & _ & _ & Hfirst & Hlast).
  destruct (strip s) as [|c t] eqn:Ht.
  { exists EmptyString, (strip (pre +:+ s +:+ post)). by rewrite !app_nil_l. }
  assert (Hwhole : pre +:+ s +:+ post
                   = (pre +:+ a) +:+ String c t +:+ (b +:+ post)).
  { rewrite Hs at 1. by rewrite !app_assoc. }
  rewrite Hwhole. unfold strip.
  destruct (lstrip_keeps (pre +:+ a) (String c t) (b +:+ post) c)
    as [u' Hu']; [done | by apply Hfirst |]. rewrite Hu'.
  destruct (last_char (String c t)) as [e|] eqn:He;
    [|by apply last_char_None in He].
  destruct (rstrip_keeps (u' +:+ String c t) (b +:+ post) e) as [v' Hv'].
  { by rewrite last_char_app_r. }
  { by apply Hlast. }
  rewrite <- app_assoc, Hv'. exists u', v'. by rewrite app_assoc.
Qed.

(** **** X1
    The command is lower-cased before matching, and the denylist entry
    ["chmod -R 777"] has a capital [R]: it matches no command.  The verdict
    is the one of the ten other entries, and ["chmod -R 777 /"] is
    accepted. *)
Theorem X1_uppercase_entry_never_matches (H : host) (command : string) :
  contains "chmod -R 777" (lower (strip command)) = false
  /\ (is_command_safe (new H) command = false <->
      exists restricted,
        restricted ∈ _get_restricted_commands /\ restricted <> "chmod -R 777"
        /\ Substring restricted (lower (strip command)))
  /\ is_command_safe (new H) "chmod -R 777 /" = true.
Proof.
  assert (Hdead : forall t, contains "chmod -R 777" (lower t) = false).
  { intros t. destruct (contains _ _) eqn:Hc; [|done].
    apply contains_spec in Hc as (pre & post & Heq). exfalso.
    apply (lower_no_R t (pre +:+ "chmod -") (" 777" +:+ post)).
    rewrite Heq. by rewrite !app_assoc. }
  split; [apply Hdead|]. split; [|by vm_compute].
  rewrite is_command_safe_false. split.
  - intros (r & Hr & Hsub). exists r. split; [done|]. split; [|done].
    intros ->. apply contains_spec in Hsub. by rewrite Hdead in Hsub.
  - intros (r & Hr & _ & Hsub). by exists r.
Qed.

(** **** X2
    The verdict looks at the command through [strip] and [lower] only:
    white space around a command and the case of its letters do not change
    it. *)
Theorem X2_verdict_ignores_case_and_padding (self : SandboxManager)
    (command pre post : string)
    (Hpre : all_space pre = true) (Hpost : all_space post = true) :
  is_command_safe self (pre +:+ command +:+ post) = is_command_safe self command
  /\ is_command_safe self (lower command) = is_command_safe self command.
Proof.
  unfold is_command_safe. split.
  - by rewrite strip_padded.
  - by rewrite strip_lower, lower_idem.
Qed.

Lemma X2_witness :
  is_command_safe (new Scenario.host0) ("  " +:+ "Sudo RM x" +:+ " ")
    = is_command_safe (new Scenario.host0) "Sudo RM x"
  /\ is_command_safe (new Scenario.host0) (lower "Sudo RM x")
     = is_command_safe (new Scenario.host0) "Sudo RM x".
Proof.
  apply (X2_verdict_ignores_case_and_padding (new Scenario.host0)
           "Sudo RM x" "  " " "); reflexivity.
Defined.

(** **** X3
    A rejected command stays rejected inside any longer command line:
    putting text before or after it cannot make it pass (and a harmless
    line that quotes a denied text is rejected too). *)
Theorem X3_unsafe_inside_longer_command (self : SandboxManager)
    (command pre post : string)
    (Hunsafe : is_command_safe self command = false) :
  is_command_safe self (pre +:+ command +:+ post) = false.
Proof.
  apply is_command_safe_false in Hunsafe as (r & Hr & Hsub).
  apply is_command_safe_false. exists r. split; [done|].
  eapply Substring_trans; [exact Hsub|].
  apply Substring_lower, strip_Substring.
Qed.

Lemma X3_witness :
  is_command_safe (new Scenario.host0) ("echo " +:+ " MKFS " +:+ "is a tool") = false.
Proof.
  apply (X3_unsafe_inside_longer_command (new Scenario.host0)
           " MKFS " "echo " "is a tool").
  reflexivity.
Defined.

End CommandPolicyFacts.

(** ** More on the path policy *)

Module PathPolicyFacts.
Import PyStr PyPath Sandbox PyStrFacts SandboxFacts.

Lemma join_app_ex sep l rest :
  exists t, join sep (l ++ rest) = join sep l +:+ t.
Proof.
  induction l as [|x l IH].
  - by exists (join sep rest).
  - destruct l as [|y l].
    + destruct rest as [|r rest].
      * exists EmptyString. simpl. by rewrite app_nil_r.
      * by exists (sep +:+ join sep (r :: rest)).
    + destruct IH as [t Ht]. exists t.
      change (join sep ((x :: y :: l) ++ rest))
        with (x +:+ sep +:+ join sep ((y :: l) ++ rest)).
      change (join sep (x :: y :: l)) with (x +:+ sep +:+ join sep (y :: l)).
      by rewrite Ht, !app_assoc.
Qed.

(** The text of a path starts with the text of each path it lies under. *)
Lemma str_app_ex p rest : p <> [] -> exists t, str (p ++ rest) = str p +:+ t.
Proof.
  destruct p as [|a p]; [done|]. intros _.
  change ((a :: p) ++ rest) with (a :: (p ++ rest)). unfold str.
  destruct (is_root a).
  - destruct (join_app_ex "/" p rest) as [t Ht]. exists t.
    by rewrite Ht, app_assoc.
  - apply (join_app_ex "/" (a :: p) rest).
Qed.

Lemma startswith_weaken s a b :
  startswith s a = true -> (exists t, a = b +:+ t) -> startswith s b = true.
Proof.
  intros [post ->]%startswith_spec [t ->]. apply startswith_spec.
  exists (t +:+ post). by rewrite app_assoc.
Qed.

Lemma startswith_under root rest :
  root <> [] -> startswith (str (root ++ rest)) (str root) = true.
Proof. intros Hroot. apply startswith_spec. by apply str_app_ex. Qed.

(** A prefix test against a root below [home] implies the one against
    [home]. *)
Lemma startswith_home_child s home c :
  startswith c "." = true ->
  startswith s (str (home // c)) = true -> startswith s (str home) = true.
Proof.
  intros Hdot Hs. eapply startswith_weaken; [exact Hs|].
  destruct home as [|a home].
  - unfold truediv. simpl app. unfold str.
    apply startswith_spec in Hdot as [t ->].
    rewrite app_cons, app_nil_l. simpl. exists t. by rewrite app_cons, app_nil_l.
  - by apply str_app_ex.
Qed.

(** **** X4
    [is_path_allowed] is a test on the text of the resolved path: it
    answers true exactly when that text starts with the text of the home
    directory, with ["/tmp"] or with ["/var/tmp"] (the three roots below
    the home directory add nothing), and false when the path cannot be
    resolved. *)
Theorem X4_is_path_allowed_three_prefixes (H : host) (p : path) :
  is_path_allowed H (new H) p
  = match resolve H p with
    | Some p' =>
        startswith (str p') (str (home H))
        || startswith (str p') "/tmp"
        || startswith (str p') "/var/tmp"
    | None => false
    end.
Proof.
  unfold is_path_allowed. destruct (resolve H p) as [p'|]; [|done].
  cbn [new context _create_security_context allowed_paths _get_allowed_paths existsb].
  change (str ["/"; "tmp"]) with "/tmp".
  change (str ["/"; "var"; "tmp"]) with "/var/tmp".
  rewrite orb_false_r.
  destruct (startswith (str p') (str (home H))) eqn:Hhome; [done|].
  assert (Hchild : forall c, startswith c "." = true ->
            startswith (str p') (str (home H // c)) = false).
  { intros c Hc. destruct (startswith _ (str (home H // c))) eqn:Hs; [|done].
    apply startswith_home_child in Hs; [congruence | done]. }
  rewrite !Hchild by done.
  destruct (startswith (str p') (str (home H // ".local" // "share"))) eqn:Hs;
    [|done].
  exfalso. apply (startswith_weaken _ _ (str (home H // ".local"))) in Hs.
  - by rewrite Hchild in Hs.
  - apply (str_app_ex (home H // ".local") ["share"]).
    unfold truediv. by destruct (home H).
Qed.

(** **** X5
    With a home directory that is not the empty path, every path that
    resolves to an allowed root, or to a path below one, is allowed. *)
Theorem X5_nested_path_allowed (H : host) (p p' root : path)
    (Hresolve : resolve H p = Some p')
    (Hroot : root ∈ allowed_paths (context (new H)))
    (Hhome : home H <> [])
    (Hnested : nested_under root p') :
  is_path_allowed H (new H) p = true.
Proof.
  unfold is_path_allowed. rewrite Hresolve.
  apply existsb_elem_of. exists root. split; [done|].
  destruct Hnested as [rest ->]. apply startswith_under.
  apply list_elem_of_In in Hroot. simpl in Hroot. unfold truediv in Hroot.
  destruct Hroot as [<-|[<-|[<-|[<-|[<-|[<-|[]]]]]]]; try done;
    by destruct (home H).
Qed.

Lemma X5_witness :
  is_path_allowed Scenario.host0 (new Scenario.host0)
    ["/"; "home"; "u"; ".config"; "app"; "settings.ini"] = true.
Proof.
  apply (X5_nested_path_allowed Scenario.host0 _
           ["/"; "home"; "u"; ".config"; "app"; "settings.ini"]
           ["/"; "home"; "u"; ".config"]).
  - reflexivity.
  - apply list_elem_of_In. simpl. tauto.
  - discriminate.
  - by exists ["app"; "settings.ini"].
Defined.

End PathPolicyFacts.

(** ** More on backup and restore *)

Module BackupExtra.
Import PyStr PyPath OS Shutil Backup.
Import PyStrFacts FnmatchFacts PyPathFacts OSFacts SortFacts BackupFacts.

#[local] Arguments fs_lookup : simpl never.
#[local] Arguments fs_write : simpl never.
#[local] Arguments fs_unlink : simpl never.
#[local] Arguments fs_glob : simpl never.
#[local] Arguments with_suffix : simpl never.
#[local] Arguments int_base8 : simpl never.
#[local] Arguments fits_int : simpl never.
#[local] Arguments oct_last3 : simpl never.
#[local] Arguments String.eqb : simpl never.
#[local] Arguments Z.eqb : simpl never.
#[local] Arguments name : simpl never.
#[local] Arguments str : simpl never.
#[local] Arguments truediv : simpl never.
#[local] Arguments app : simpl never.

(** Case analysis on the next test the program makes. *)
Ltac branch :=
  match goal with
  | |- context [match chosen_backup ?a ?b ?c ?d with _ => _ end] =>
      destruct (chosen_backup a b c d) eqn:?
  | |- context [fs_lookup ?p (fs_write ?q _ _)] =>
      destruct (decide (p = q)); [subst|]
  | |- context [match fs_lookup ?p ?fs with _ => _ end] =>
      destruct (fs_lookup p fs) eqn:?
  | |- context [match with_suffix ?p ?x with _ => _ end] =>
      destruct (with_suffix p x) eqn:?
  | |- context [match json_loads ?E ?d with _ => _ end] =>
      destruct (json_loads E d) eqn:?
  | |- context [match int_base8 ?x with _ => _ end] =>
      destruct (int_base8 x) eqn:?
  | |- context [if negb (fits_int ?x) then _ else _] =>
      destruct (fits_int x) eqn:?
  | |- context [match getpwnam ?E ?x with _ => _ end] =>
      destruct (getpwnam E x) eqn:?
  | |- context [match getpwuid ?E ?x with _ => _ end] =>
      destruct (getpwuid E x) eqn:?
  | |- context [if negb (String.eqb ?a ?b) then _ else _] =>
      destruct (String.eqb a b) eqn:?
  | |- context [if String.eqb ?a ?b then _ else _] =>
      destruct (String.eqb a b) eqn:?
  | |- context [if Z.eqb ?a ?b then _ else _] =>
      destruct (Z.eqb a b) eqn:?
  | |- context [if decide (?a = ?b) then _ else _] =>
      destruct (decide (a = b))
  | |- context [match decide (?a = ?b) with _ => _ end] =>
      destruct (decide (a = b))
  end.

(** *** The name of a backup *)

Section backup_name.
Context (self : BackupManager) (file_path : path) (category ts : string).

Local Abbreviation stem := (name file_path +:+ "_" +:+ ts).
Local Abbreviation b :=
  (backup_dir self // category // (name file_path +:+ "_" +:+ ts +:+ ".bak")).
Local Abbreviation mp := (backup_dir self // category // (stem +:+ ".meta")).

Lemma backup_name_stem :
  name file_path +:+ "_" +:+ ts +:+ ".bak" = stem +:+ ".bak".
Proof. by rewrite !PyStrFacts.app_assoc. Qed.

Lemma backup_stem_nonempty : stem <> EmptyString.
Proof. destruct (name file_path); by rewrite ?app_nil_l, ?app_cons. Qed.

Lemma backup_name_of : name b = stem +:+ ".bak".
Proof.
  rewrite backup_name_stem. apply name_truediv_long.
  rewrite app_length. simpl. lia.
Qed.

(** A file is never its own backup. *)
Lemma backup_path_not_source : file_path <> b.
Proof.
  intros Heq. apply (f_equal name) in Heq. rewrite backup_name_of in Heq.
  apply (f_equal String.length) in Heq. rewrite !app_length in Heq. simpl in Heq. lia.
Qed.

Lemma backup_sidecar_path : with_suffix b ".meta" = Some mp.
Proof.
  rewrite backup_name_stem.
  apply with_suffix_bak, backup_stem_nonempty.
Qed.

Lemma backup_not_sidecar : b <> mp.
Proof.
  unfold truediv. intros [_ Heq]%app_inj_tail.
  rewrite backup_name_stem in Heq. apply (f_equal last_char) in Heq.
  rewrite !last_char_app in Heq by done. discriminate.
Qed.

Lemma sidecar_name_of : name mp = stem +:+ ".meta".
Proof.
  apply name_truediv_long.
  rewrite app_length. simpl. lia.
Qed.

End backup_name.

(** *** [create_backup] *)

(** What [create_backup] leaves alone, whatever it returns. *)
Lemma create_backup_frame E self file_path category ts w q :
  q <> backup_dir self // category
         // (name file_path +:+ "_" +:+ ts +:+ ".bak") ->
  q <> backup_dir self // category
         // ((name file_path +:+ "_" +:+ ts) +:+ ".meta") ->
  fs_lookup q (w_fs (create_backup E self file_path category ts w).2)
  = fs_lookup q (w_fs w).
Proof.
  intros Hqb Hqm. unfold create_backup, create_backup_body. run.
  rewrite (backup_sidecar_path self file_path category ts).
  repeat (branch; run); try done; by fs_simpl.
Qed.


(** **** X6
    Called with one of the three categories the store has a directory
    for, [create_backup] changes nothing but the backup file and its
    sidecar: whatever it returns, every other path holds after the call
    what it held before; and for a file that does not exist it returns
    [None] and leaves the state as it is. *)
Theorem X6_create_backup_touches_only_store (E : os_env) (self : BackupManager)
    (file_path : path) (category ts : string) (w : world)
    (Hcategory : Access.known_category category = true) :
  (fs_lookup file_path (w_fs w) = None ->
   create_backup E self file_path category ts w = (Some None, w))
  /\ (forall q,
        q <> backup_dir self // category
               // (name file_path +:+ "_" +:+ ts +:+ ".bak") ->
        q <> backup_dir self // category
               // ((name file_path +:+ "_" +:+ ts) +:+ ".meta") ->
        fs_lookup q (w_fs (create_backup E self file_path category ts w).2)
        = fs_lookup q (w_fs w)).
Proof.
  split.
  - intros Hnone. unfold create_backup, create_backup_body. by run.
  - intros q Hqb Hqm. by apply create_backup_frame.
Qed.

Lemma X6_witness :
  create_backup Scenario.env0 Scenario.mgr0 ["/"; "home"; "u"; ".profile"]
    default_category "20240101_120000" Scenario.world0
  = (Some None, Scenario.world0)
  /\ fs_lookup Scenario.config_yaml
       (w_fs (create_backup Scenario.env0 Scenario.mgr0 Scenario.bashrc
                default_category "20240101_120000" Scenario.world0).2)
     = fs_lookup Scenario.config_yaml (w_fs Scenario.world0).
Proof.
  split.
  - apply (X6_create_backup_touches_only_store Scenario.env0 Scenario.mgr0
             ["/"; "home"; "u"; ".profile"] default_category "20240101_120000"
             Scenario.world0); reflexivity.
  - apply (X6_create_backup_touches_only_store Scenario.env0 Scenario.mgr0
             Scenario.bashrc default_category "20240101_120000"
             Scenario.world0); by vm_compute.
Defined.



(** **** X8
    Take one of the three categories the store has a directory for, and an
    existing file the caller may read and whose owner is known; let the
    two names the backup will use be free, or held by files the caller
    may overwrite.  Then [create_backup] returns the path
    [<store>/<category>/<name>_<timestamp>.bak]; the file stored there has
    the bytes, the mode bits and the modification time of the source (not
    the time of the backup), and the sidecar next to it holds the record
    with the source's path, the timestamp, the digest of those bytes, the
    last three octal digits of the mode and the owner's name.  The calls
    made are one copy and one write. *)
Theorem X8_create_backup_stores_copy_and_record (E : os_env)
    (self : BackupManager) (file_path : path) (category ts : string)
    (w : world) (f : file) (pw_name : string)
    (b := backup_dir self // category
            // (name file_path +:+ "_" +:+ ts +:+ ".bak"))
    (mp := backup_dir self // category
             // ((name file_path +:+ "_" +:+ ts) +:+ ".meta"))
    (Hcategory : Access.known_category category = true)
    (Hfile : fs_lookup file_path (w_fs w) = Some f)
    (Hread : Access.may_read E f = true)
    (Hslot : Access.free_or_writable E (w_fs w) b = true)
    (Hslotm : Access.free_or_writable E (w_fs w) mp = true)
    (Howner : getpwuid E (f_uid f) = Some pw_name) :
  exists w' bfile mfile,
    create_backup E self file_path category ts w = (Some (Some b), w')
    /\ fs_lookup b (w_fs w') = Some bfile
    /\ f_data bfile = f_data f /\ f_mode bfile = f_mode f
    /\ f_mtime bfile = f_mtime f
    /\ fs_lookup mp (w_fs w') = Some mfile
    /\ f_data mfile
       = json_dumps E {| original_path := str file_path;
                         timestamp := ts;
                         hash := sha256_hexdigest E (f_data bfile);
                         permissions := oct_last3 (st_mode f);
                         owner := pw_name |}
    /\ w_log w' = w_log w ++ [SysCopy file_path b; SysWrite mp].
Proof.
  pose proof (backup_path_not_source self file_path category ts) as Hpb.
  pose proof (backup_not_sidecar self file_path category ts) as Hbm.
  pose proof (backup_sidecar_path self file_path category ts) as Hmp.
  unfold create_backup, create_backup_body. run.
  eexists _, _, _. split; [reflexivity|]. rewrite w_fs_mk, w_log_mk.
  unfold b, mp. fs_simpl.
  split; [reflexivity|]. do 3 (split; [reflexivity|]).
  split; [reflexivity|]. split; [reflexivity|].
  by rewrite <- (assoc_L (++)).
Qed.

Lemma X8_witness :
  exists w' bfile mfile,
    create_backup Scenario.env0 Scenario.mgr0 Scenario.bashrc default_category
      "20240101_120000" Scenario.world0 = (Some (Some Scenario.bashrc_bak), w')
    /\ fs_lookup Scenario.bashrc_bak (w_fs w') = Some bfile
    /\ f_data bfile = "export X=1" /\ f_mode bfile = 420%Z
    /\ f_mtime bfile = 1700000000%Z
    /\ fs_lookup Scenario.bashrc_meta (w_fs w') = Some mfile
    /\ f_data mfile
       = Scenario.lines_dumps (mkmeta "/home/u/.bashrc" "20240101_120000"
                                      "sha256:export X=1" "644" "u").
Proof.
  destruct (X8_create_backup_stores_copy_and_record Scenario.env0 Scenario.mgr0
              Scenario.bashrc default_category "20240101_120000"
              Scenario.world0 (Scenario.file0 "export X=1" 1700000000) "u")
    as (w' & bfile & mfile & Hrun & Hb & Hdata & Hmode & Hmtime & Hm & Hmd & _);
    [reflexivity | reflexivity | reflexivity | reflexivity | reflexivity
    | reflexivity |].
  exists w', bfile, mfile. split; [exact Hrun|]. split; [exact Hb|].
  split; [exact Hdata|]. split; [exact Hmode|]. split; [exact Hmtime|].
  split; [exact Hm|]. rewrite Hmd, Hdata. reflexivity.
Defined.

(** *** [restore_backup] *)

(** **** X9
    Where the last step of a restore is a rename, which replaces the
    target in one step or not at all (the temporary directory is on the
    device of the target, and the caller may replace entries of the
    target's directory), a restore that returns [False] has changed no
    file but, at most, the temporary file it works in: the target and
    every other path hold what they held before the call.  The steps
    before the rename write to the temporary file only. *)
Theorem X9_restore_failure_touches_only_temp (E : os_env) (self : BackupManager)
    (original_path : path) (backup_path : option path) (w w' : world)
    (Hdev : Access.same_device E original_path = true)
    (Hfailed : restore_backup E self original_path backup_path w = (Some false, w'))
    (q : path) (Hq : q <> mkstemp E) :
  fs_lookup q (w_fs w') = fs_lookup q (w_fs w).
Proof.
  apply bool_decide_eq_true in Hdev.
  revert Hfailed. unfold restore_backup, restore_backup_body.
  run. repeat (branch; run).
  all: intros Heq; first [ discriminate Heq | injection Heq as <-; rewrite ?w_fs_mk; by fs_simpl ].
Qed.

Lemma X9_witness :
  fs_lookup Scenario.bashrc
    (w_fs (restore_backup Scenario.env0 Scenario.mgr0 Scenario.bashrc None
             ScenarioMore.world_bad_permissions).2)
  = fs_lookup Scenario.bashrc (w_fs ScenarioMore.world_bad_permissions).
Proof.
  apply (X9_restore_failure_touches_only_temp Scenario.env0 Scenario.mgr0
           Scenario.bashrc None ScenarioMore.world_bad_permissions);
    by vm_compute.
Defined.

(** **** X11
    When the backup and its sidecar can be read, the digest check passes,
    and the permission string of the sidecar is not an octal literal
    [int(s, 8)] accepts (or stands for a number [os.chmod] refuses),
    [restore_backup] returns [False] after it has staged the copy: the
    temporary file stays behind, holding the bytes of the backup, and no
    call removes it. *)
Theorem X11_restore_leaves_temp_behind (E : os_env) (self : BackupManager)
    (original_path : path) (backup_path : option path) (w : world)
    (b metadata_path : path) (bf mf : file) (recorded : metadata)
    (Hchosen : chosen_backup self original_path backup_path (w_fs w) = Some b)
    (Hbackup : fs_lookup b (w_fs w) = Some bf)
    (Hsuffix : with_suffix b ".meta" = Some metadata_path)
    (Hsidecar : fs_lookup metadata_path (w_fs w) = Some mf)
    (Hrecord : json_loads E (f_data mf) = Some recorded)
    (Hread : Access.may_read E bf = true)
    (Hreadm : Access.may_read E mf = true)
    (Hintact : sha256_hexdigest E (f_data bf) = hash recorded)
    (Hmode : forall mode, int_base8 (permissions recorded) = Some mode ->
               fits_int mode = false)
    (Hfresh : fs_lookup (mkstemp E) (w_fs w) = None) :
  exists w' tf,
    restore_backup E self original_path backup_path w = (Some false, w')
    /\ fs_lookup (mkstemp E) (w_fs w') = Some tf
    /\ f_data tf = f_data bf
    /\ w_log w' = w_log w ++ [SysCreate (mkstemp E); SysCopy b (mkstemp E)].
Proof.
  assert (Hbt : b <> mkstemp E) by congruence.
  assert (Hmt : metadata_path <> mkstemp E) by congruence.
  apply String.eqb_eq in Hintact.
  unfold restore_backup, restore_backup_body. run. rewrite Hchosen. run.
  destruct (int_base8 (permissions recorded)) as [mode|] eqn:Hm;
    [pose proof (Hmode mode eq_refl) as Hfits|]; run;
    (eexists _, _; split; [reflexivity|]; rewrite w_fs_mk, w_log_mk; fs_simpl;
     split; [reflexivity|]; split; [reflexivity|];
     by rewrite <- !(assoc_L (++))).
Qed.

Lemma X11_witness :
  exists w' tf,
    restore_backup Scenario.env0 Scenario.mgr0 Scenario.bashrc None
      ScenarioMore.world_bad_permissions = (Some false, w')
    /\ fs_lookup (mkstemp Scenario.env0) (w_fs w') = Some tf
    /\ f_data tf = "export X=1".
Proof.
  destruct (X11_restore_leaves_temp_behind Scenario.env0 Scenario.mgr0
              Scenario.bashrc None ScenarioMore.world_bad_permissions
              Scenario.bashrc_bak Scenario.bashrc_meta
              (Scenario.file0 "export X=1" 1700000000)
              (Scenario.file0
                 (Scenario.lines_dumps
                    (mkmeta "/home/u/.bashrc" "20240101_120000"
                            "sha256:export X=1" "rw-" "u")) 1700000100)
              (mkmeta "/home/u/.bashrc" "20240101_120000"
                      "sha256:export X=1" "rw-" "u"))
    as (w' & tf & Hrun & Htf & Hdata & _).
  - by vm_compute.
  - by vm_compute.
  - by vm_compute.
  - by vm_compute.
  - by vm_compute.
  - by vm_compute.
  - by vm_compute.
  - by vm_compute.
  - intros mode Hmode. by vm_compute in Hmode.
  - by vm_compute.
  - exists w', tf. split; [exact Hrun|]. split; [exact Htf|]. exact Hdata.
Defined.

(** A mode without set-ID bits is left as it is by [chown]. *)
Lemma drop_setid_small x : (0 <= x < 1024)%Z -> drop_setid x = x.
Proof.
  intros Hx. unfold drop_setid.
  assert (H11 : Z.testbit x 11 = false).
  { apply Z.testbit_false; [lia|]. rewrite Z.div_small; [done | lia]. }
  assert (H10 : Z.testbit x 10 = false).
  { apply Z.testbit_false; [lia|]. rewrite Z.div_small; [done | lia]. }
  by rewrite H11, H10.
Qed.

(** The mode a restore leaves on the target when the sidecar records the
    three octal digits of [m]: the twelve permission bits [chmod] keeps,
    less the set-ID bits that the [chown] of a restore run by root drops,
    are the nine bits recorded. *)
Lemma restored_mode_low E m :
  (if Access.is_superuser E then drop_setid ((m mod 512) mod 4096)
   else (m mod 512) mod 4096)%Z = (m mod 512)%Z.
Proof.
  assert (Hm : (0 <= m mod 512 < 512)%Z) by (apply Z.mod_pos_bound; lia).
  rewrite (Z.mod_small (m mod 512) 4096) by lia.
  destruct (Access.is_superuser E); [|done]. apply drop_setid_small. lia.
Qed.

(** A restore whose sidecar is sound, run to its end on one device. *)
Lemma restore_sidecar_runs (E : os_env) (self : BackupManager)
    (original_path : path) (backup_path : option path) (w : world)
    (b metadata_path : path) (bf mf : file) (recorded : metadata) (mode : Z)
    (Hchosen : chosen_backup self original_path backup_path (w_fs w) = Some b)
    (Hbackup : fs_lookup b (w_fs w) = Some bf)
    (Hsuffix : with_suffix b ".meta" = Some metadata_path)
    (Hsidecar : fs_lookup metadata_path (w_fs w) = Some mf)
    (Hrecord : json_loads E (f_data mf) = Some recorded)
    (Hintact : sha256_hexdigest E (f_data bf) = hash recorded)
    (Hmode : int_base8 (permissions recorded) = Some mode)
    (Hfits : fits_int mode = true)
    (Hroot : getuid E = 0%Z -> is_Some (getpwnam E (owner recorded)))
    (Hfresh : fs_lookup (mkstemp E) (w_fs w) = None)
    (Htmp : mkstemp E <> original_path)
    (Hdev : Access.same_device E original_path = true) :
  exists w' f',
    restore_backup E self original_path backup_path w = (Some true, w')
    /\ fs_lookup original_path (w_fs w') = Some f'
    /\ f_data f' = f_data bf
    /\ f_mode f' = (if Access.is_superuser E then drop_setid (mode mod 4096)
                    else mode mod 4096)%Z
    /\ f_mtime f' = f_mtime bf
    /\ fs_lookup (mkstemp E) (w_fs w') = None
    /\ forall q, q <> original_path -> q <> mkstemp E ->
         fs_lookup q (w_fs w') = fs_lookup q (w_fs w).
Proof.
  assert (Hbt : b <> mkstemp E) by congruence.
  assert (Hmt : metadata_path <> mkstemp E) by congruence.
  apply String.eqb_eq in Hintact. apply bool_decide_eq_true in Hdev.
  unfold Access.is_superuser.
  unfold restore_backup, restore_backup_body. run. rewrite Hchosen. run.
  destruct (getuid E =? 0)%Z eqn:Huid;
    [destruct (Hroot (proj1 (Z.eqb_eq _ _) Huid)) as [uid Hpw]|];
    run;
    (eexists _, _; (split; [reflexivity|]); rewrite w_fs_mk; fs_simpl;
     (split; [reflexivity|]); do 3 (split; [reflexivity|]);
     (split; [by rewrite fs_lookup_unlink_eq | by intros q Hqo Hqt; fs_simpl])).
Qed.

(** **** X12
    A restore from a readable backup with a readable, sound sidecar, with
    the temporary directory on the device of the target: the target is
    replaced by a file with the bytes and the modification time of the
    backup and with the mode the sidecar records (not the mode of the
    stored copy): of the number recorded, which must be one [os.chmod]
    takes, the twelve permission bits, less the set-ID bits that the
    [chown] of a restore run by root drops.  The temporary file is gone
    and no other path has changed.  The path the sidecar names as the
    original plays no part: the record of any file is accepted. *)
Theorem X12_restore_applies_sidecar_record (E : os_env) (self : BackupManager)
    (original_path : path) (backup_path : option path) (w : world)
    (b metadata_path : path) (bf mf : file) (recorded : metadata) (mode : Z)
    (Hchosen : chosen_backup self original_path backup_path (w_fs w) = Some b)
    (Hbackup : fs_lookup b (w_fs w) = Some bf)
    (Hsuffix : with_suffix b ".meta" = Some metadata_path)
    (Hsidecar : fs_lookup metadata_path (w_fs w) = Some mf)
    (Hread : Access.may_read E bf = true)
    (Hreadm : Access.may_read E mf = true)
    (Hrecord : json_loads E (f_data mf) = Some recorded)
    (Hintact : sha256_hexdigest E (f_data bf) = hash recorded)
    (Hmode : int_base8 (permissions recorded) = Some mode)
    (Hfits : fits_int mode = true)
    (Hroot : getuid E = 0%Z -> is_Some (getpwnam E (owner recorded)))
    (Hfresh : fs_lookup (mkstemp E) (w_fs w) = None)
    (Htmp : mkstemp E <> original_path)
    (Hdev : Access.same_device E original_path = true) :
  exists w' f',
    restore_backup E self original_path backup_path w = (Some true, w')
    /\ fs_lookup original_path (w_fs w') = Some f'
    /\ f_data f' = f_data bf
    /\ f_mode f' = (if Access.is_superuser E then drop_setid (mode mod 4096)
                    else mode mod 4096)%Z
    /\ f_mtime f' = f_mtime bf
    /\ fs_lookup (mkstemp E) (w_fs w') = None
    /\ forall q, q <> original_path -> q <> mkstemp E ->
         fs_lookup q (w_fs w') = fs_lookup q (w_fs w).
Proof. by apply (restore_sidecar_runs E self original_path backup_path w b metadata_path bf mf recorded). Qed.

Lemma X12_witness :
  exists w' f',
    restore_backup Scenario.env0 Scenario.mgr0 Scenario.bashrc None
      ScenarioMore.world_foreign_record = (Some true, w')
    /\ fs_lookup Scenario.bashrc (w_fs w') = Some f'
    /\ f_data f' = "export X=1" /\ f_mode f' = 493%Z
    /\ f_mtime f' = 1700000000%Z.
Proof.
  destruct (X12_restore_applies_sidecar_record Scenario.env0 Scenario.mgr0
              Scenario.bashrc None ScenarioMore.world_foreign_record
              Scenario.bashrc_bak Scenario.bashrc_meta
              {| f_data := "export X=1"; f_mode := 384; f_uid := 1000;
                 f_gid := 1000; f_mtime := 1700000000 |}
              (Scenario.file0
                 (Scenario.lines_dumps
                    (mkmeta "/etc/passwd" "20240101_120000"
                            "sha256:export X=1" "755" "u")) 1700000100)
              (mkmeta "/etc/passwd" "20240101_120000"
                      "sha256:export X=1" "755" "u") 493)
    as (w' & f' & Hrun & Hf & Hdata & Hmodef & Hmtime & _).
  - by vm_compute.
  - by vm_compute.
  - by vm_compute.
  - by vm_compute.
  - by vm_compute.
  - by vm_compute.
  - by vm_compute.
  - by vm_compute.
  - by vm_compute.
  - by vm_compute.
  - by vm_compute.
  - by vm_compute.
  - by vm_compute.
  - by vm_compute.
  - exists w', f'. split; [exact Hrun|]. split; [exact Hf|].
    split; [exact Hdata|]. split; [exact Hmodef|]. exact Hmtime.
Defined.

(** *** Backup and restore together *)

Lemma oct_last3_mode m :
  int_base8 (oct_last3 (32768 + m)) = Some (m mod 512)%Z.
Proof.
  rewrite int_base8_oct_last3. f_equal.
  Z.div_mod_to_equations. lia.
Qed.

(** **** X13
    Take one of the three categories the store has a directory for, a
    file the caller may read, and a caller who may write the two files of
    the backup and read them back; let the temporary directory be on the
    device of the file.  Then [create_backup] followed by
    [restore_backup] with the path it returned brings back, for a file of
    any name, the bytes and the modification time the file had, and of its
    mode the permission bits below 0o1000: the sidecar records three octal
    digits, so the setuid, setgid and sticky bits are dropped.  The file
    may have been changed or removed in between. *)
Theorem X13_round_trip_by_path (E : os_env) (self : BackupManager)
    (file_path : path) (category ts : string) (w : world) (f : file)
    (pw_name : string) (changed : option file)
    (b := backup_dir self // category
            // (name file_path +:+ "_" +:+ ts +:+ ".bak"))
    (mp := backup_dir self // category
             // ((name file_path +:+ "_" +:+ ts) +:+ ".meta"))
    (recorded := {| original_path := str file_path;
                    timestamp := ts;
                    hash := sha256_hexdigest E (f_data f);
                    permissions := oct_last3 (st_mode f);
                    owner := pw_name |})
    (Hcategory : Access.known_category category = true)
    (Hfile : fs_lookup file_path (w_fs w) = Some f)
    (Hread : Access.may_read E f = true)
    (Hslot : Access.free_or_writable E (w_fs w) b = true)
    (Hslotm : Access.free_or_own E (w_fs w) mp = true)
    (Hcreat : Access.creates_readable E = true)
    (Hdev : Access.same_device E file_path = true)
    (Hpw : getpwuid E (f_uid f) = Some pw_name)
    (Hroot : getuid E = 0%Z -> is_Some (getpwnam E pw_name))
    (Hjson : json_loads E (json_dumps E recorded) = Some recorded)
    (Hfresh : fs_lookup (mkstemp E) (w_fs w) = None)
    (Htmp : mkstemp E <> file_path /\ mkstemp E <> b /\ mkstemp E <> mp) :
  exists w1 w2 f',
    create_backup E self file_path category ts w = (Some (Some b), w1)
    /\ restore_backup E self file_path (Some b)
         {| w_fs := match changed with
                    | Some g => fs_write file_path g (w_fs w1)
                    | None => fs_unlink file_path (w_fs w1)
                    end;
            w_log := w_log w1 |} = (Some true, w2)
    /\ fs_lookup file_path (w_fs w2) = Some f'
    /\ f_data f' = f_data f
    /\ f_mode f' = (f_mode f mod 512)%Z
    /\ f_mtime f' = f_mtime f.
Proof.
  destruct Htmp as (Htp & Htb & Htm).
  assert (Hpb : file_path <> b) by apply backup_path_not_source.
  assert (Hbm : b <> mp) by apply backup_not_sidecar.
  assert (Hmp : with_suffix b ".meta" = Some mp) by apply backup_sidecar_path.
  assert (Hpm : file_path <> mp).
  { intros Heq. apply (f_equal name) in Heq. unfold mp in Heq.
    rewrite sidecar_name_of in Heq.
    apply (f_equal String.length) in Heq. rewrite !app_length in Heq.
    simpl in Heq. lia. }
  destruct (create_backup_runs E self file_path category ts w f pw_name
              b mp Hfile Hpw eq_refl Hpb Hmp)
    as (bfile & mfile & log1 & Hcreate & Hbdata & Hbmtime & Hmdata).
  set (w1 := {| w_fs := fs_write mp mfile (fs_write b bfile (w_fs w));
                w_log := log1 |}) in *.
  set (w1' := {| w_fs := match changed with
                         | Some g => fs_write file_path g (w_fs w1)
                         | None => fs_unlink file_path (w_fs w1)
                         end;
                 w_log := w_log w1 |}).
  assert (Hany : forall q, q <> file_path ->
            fs_lookup q (w_fs w1') = fs_lookup q (w_fs w1)).
  { intros q Hq. unfold w1'. rewrite w_fs_mk. destruct changed; by fs_simpl. }
  destruct (restore_sidecar_runs E self file_path (Some b) w1' b mp bfile mfile
              recorded (f_mode f mod 512)%Z)
    as (w2 & f' & Hrestore & Hf' & Hdata & Hmode & Hmtime & _); try done.
  - rewrite Hany by done. unfold w1. rewrite w_fs_mk. by fs_simpl.
  - rewrite Hany by done. unfold w1. rewrite w_fs_mk. by fs_simpl.
  - by rewrite Hmdata.
  - by rewrite Hbdata.
  - unfold recorded, st_mode. cbn [permissions]. apply oct_last3_mode.
  - apply fits_int_mod.
  - rewrite Hany by done. unfold w1. rewrite w_fs_mk. by fs_simpl.
  - exists w1, w2, f'. split; [exact Hcreate|]. split; [exact Hrestore|].
    split; [exact Hf'|]. rewrite restored_mode_low in Hmode.
    by rewrite Hdata, Hmtime.
Qed.

Lemma X13_witness :
  exists w1 w2 f',
    create_backup Scenario.env0 Scenario.mgr0 Scenario.config_yaml
      default_category "20240101_120000" ScenarioMore.world_setuid
      = (Some (Some Scenario.config_bak), w1)
    /\ restore_backup Scenario.env0 Scenario.mgr0 Scenario.config_yaml
         (Some Scenario.config_bak)
         {| w_fs := fs_unlink Scenario.config_yaml (w_fs w1);
            w_log := w_log w1 |} = (Some true, w2)
    /\ fs_lookup Scenario.config_yaml (w_fs w2) = Some f'
    /\ f_data f' = "fps: 60"
    /\ f_mode f' = 493%Z
    /\ f_mtime f' = 1700000001%Z.
Proof.
  destruct (X13_round_trip_by_path Scenario.env0 Scenario.mgr0
              Scenario.config_yaml default_category "20240101_120000"
              ScenarioMore.world_setuid
              {| f_data := "fps: 60"; f_mode := 2541; f_uid := 1000;
                 f_gid := 1000; f_mtime := 1700000001 |} "u" None)
    as (w1 & w2 & f' & Hcreate & Hrestore & Hf & Hdata & Hmode & Hmtime).
  - by vm_compute.
  - by vm_compute.
  - by vm_compute.
  - by vm_compute.
  - by vm_compute.
  - by vm_compute.
  - by vm_compute.
  - by vm_compute.
  - by vm_compute.
  - by vm_compute.
  - by vm_compute.
  - by vm_compute.
  - exists w1, w2, f'. split; [exact Hcreate|]. split; [exact Hrestore|].
    split; [exact Hf|]. split; [exact Hdata|]. split; [exact Hmode|].
    exact Hmtime.
Defined.

(** **** X14
    The name of a backup is fixed by the file's name and the second of the
    call, so a backup taken when one of that name is stored (the same file
    within the second, or a file of the same name in another directory)
    replaces it, when the caller may read the file and overwrite the
    stored copy and its sidecar: the store has the names it had, and the
    copy under that name holds the bytes of the file now backed up.  (A
    stored copy has the mode of its source, so that of a read-only file
    cannot be overwritten by another user than root.) *)
Theorem X14_same_name_backup_overwrites (E : os_env) (self : BackupManager)
    (file_path : path) (category ts : string) (w : world) (f old oldm : file)
    (pw_name : string)
    (b := backup_dir self // category
            // (name file_path +:+ "_" +:+ ts +:+ ".bak"))
    (mp := backup_dir self // category
             // ((name file_path +:+ "_" +:+ ts) +:+ ".meta"))
    (Hcategory : Access.known_category category = true)
    (Hfile : fs_lookup file_path (w_fs w) = Some f)
    (Hread : Access.may_read E f = true)
    (Howner : getpwuid E (f_uid f) = Some pw_name)
    (Hold : fs_lookup b (w_fs w) = Some old)
    (Hwrite : Access.may_overwrite E old = true)
    (Holdm : fs_lookup mp (w_fs w) = Some oldm)
    (Hwritem : Access.may_overwrite E oldm = true) :
  exists w' bfile,
    create_backup E self file_path category ts w = (Some (Some b), w')
    /\ (w_fs w').*1 = (w_fs w).*1
    /\ fs_lookup b (w_fs w') = Some bfile
    /\ f_data bfile = f_data f.
Proof.
  assert (Hpb : file_path <> b) by apply backup_path_not_source.
  assert (Hbm : b <> mp) by apply backup_not_sidecar.
  assert (Hmp : with_suffix b ".meta" = Some mp) by apply backup_sidecar_path.
  destruct (create_backup_runs E self file_path category ts w f pw_name
              b mp Hfile Howner eq_refl Hpb Hmp)
    as (bfile & mfile & log1 & Hcreate & Hbdata & _).
  eexists _, bfile. split; [exact Hcreate|]. rewrite w_fs_mk.
  split; [|split; [by fs_simpl | done]].
  rewrite !fs_keys_write. unfold fs_exists. fs_simpl.
  by rewrite Holdm, Hold.
Qed.

Lemma X14_witness :
  exists w' bfile,
    create_backup Scenario.env0 Scenario.mgr0 Scenario.bashrc default_category
      "20240101_120000" Scenario.world_edited
      = (Some (Some Scenario.bashrc_bak), w')
    /\ (w_fs w').*1 = (w_fs Scenario.world_edited).*1
    /\ fs_lookup Scenario.bashrc_bak (w_fs w') = Some bfile
    /\ f_data bfile = "export X=2".
Proof.
  destruct (X14_same_name_backup_overwrites Scenario.env0 Scenario.mgr0
              Scenario.bashrc default_category "20240101_120000"
              Scenario.world_edited
              (Scenario.file0 "export X=2" 1700086400)
              (Scenario.file0 "export X=1" 1700000000)
              {| f_data := Scenario.lines_dumps
                             (mkmeta "/home/u/.bashrc" "20240101_120000"
                                     "sha256:export X=1" "644" "u");
                 f_mode := 420; f_uid := 1000; f_gid := 1000;
                 f_mtime := 1700000500 |} "u")
    as (w' & bfile & Hrun & Hkeys & Hb & Hdata).
  - by vm_compute.
  - by vm_compute.
  - by vm_compute.
  - by vm_compute.
  - by vm_compute.
  - by vm_compute.
  - by vm_compute.
  - by vm_compute.
  - exists w', bfile. split; [exact Hrun|]. split; [exact Hkeys|].
    split; [exact Hb | exact Hdata].
Defined.

(** *** The search of a restore after a backup *)

(** After a backup of [other] into the directory a restore of
    [original_path] searches, under a name its pattern matches, the search
    settles on that backup when the file backed up is newer than the other
    candidates. *)
Lemma search_settles_on_new_backup E self original_path other ts w f pw w1
    (b := backup_dir self // restore_category original_path
            // (name other +:+ "_" +:+ ts +:+ ".bak")) :
  fs_lookup other (w_fs w) = Some f ->
  getpwuid E (f_uid f) = Some pw ->
  contains "**" (name original_path +:+ "_*.bak") = false ->
  Fnmatch.fnmatch (name other +:+ "_" +:+ ts +:+ ".bak")
                  (name original_path +:+ "_*.bak") = true ->
  (forall q, q ∈ candidate_backups self original_path (w_fs w) ->
     q <> b -> (st_mtime (w_fs w) q < f_mtime f)%Z) ->
  create_backup E self other (restore_category original_path) ts w
    = (Some (Some b), w1) ->
  chosen_backup self original_path None (w_fs w1) = Some b
  /\ exists bfile mfile,
       fs_lookup b (w_fs w1) = Some bfile
       /\ f_data bfile = f_data f /\ f_mtime bfile = f_mtime f
       /\ fs_lookup (backup_dir self // restore_category original_path
                       // ((name other +:+ "_" +:+ ts) +:+ ".meta")) (w_fs w1)
          = Some mfile
       /\ f_data mfile
          = json_dumps E {| original_path := str other;
                            timestamp := ts;
                            hash := sha256_hexdigest E (f_data f);
                            permissions := oct_last3 (st_mode f);
                            owner := pw |}
       /\ forall q, q <> b ->
            q <> backup_dir self // restore_category original_path
                   // ((name other +:+ "_" +:+ ts) +:+ ".meta") ->
            fs_lookup q (w_fs w1) = fs_lookup q (w_fs w).
Proof.
  intros Hfile Hpw Hglob Hmatch Hnewest Hcreate.
  set (mp := backup_dir self // restore_category original_path
               // ((name other +:+ "_" +:+ ts) +:+ ".meta")).
  assert (Hpb : other <> b) by apply backup_path_not_source.
  assert (Hbm : b <> mp) by apply backup_not_sidecar.
  assert (Hmp : with_suffix b ".meta" = Some mp) by apply backup_sidecar_path.
  assert (Hname_b : name b = name other +:+ "_" +:+ ts +:+ ".bak").
  { unfold b. rewrite backup_name_of. symmetry. apply backup_name_stem. }
  assert (Hname_mp : name mp = (name other +:+ "_" +:+ ts) +:+ ".meta")
    by apply sidecar_name_of.
  destruct (create_backup_runs E self other (restore_category original_path) ts
              w f pw b mp Hfile Hpw eq_refl Hpb Hmp)
    as (bfile & mfile & log1 & Hcreate' & Hbdata & Hbmtime & Hmdata).
  rewrite Hcreate' in Hcreate. injection Hcreate as <-. rewrite w_fs_mk.
  assert (Hb1 : fs_lookup b (fs_write mp mfile (fs_write b bfile (w_fs w)))
                = Some bfile) by by fs_simpl.
  split; [|exists bfile, mfile; repeat split; try done;
           [by fs_simpl | by intros q ? ?; fs_simpl]].
  unfold chosen_backup, find_latest.
  set (fs1 := fs_write mp mfile (fs_write b bfile (w_fs w))) in *.
  assert (Hin : b ∈ candidate_backups self original_path fs1).
  { apply elem_of_candidate_backups. split; [done|]. split; [|split].
    - by eapply fs_lookup_Some_key.
    - unfold b. apply in_dir_truediv_long.
      rewrite !app_length. simpl. lia.
    - by rewrite Hname_b. }
  destruct (candidate_backups self original_path fs1) as [|x rest] eqn:Hcands;
    [by apply elem_of_nil in Hin|].
  f_equal. apply py_max_unique; [done|].
  intros q Hq Hqb. rewrite <- Hcands in Hq.
  apply elem_of_candidate_backups in Hq as (_ & Hkey & Hdir & Hm).
  assert (Hqm : q <> mp).
  { intros ->. apply fnmatch_pattern_last in Hm.
    rewrite Hname_mp, last_char_app in Hm by done. discriminate. }
  unfold st_mtime at 2. rewrite Hb1, Hbmtime.
  rewrite (st_mtime_ext (w_fs w)) by (unfold fs1; by fs_simpl).
  apply Hnewest; [|done]. apply elem_of_candidate_backups.
  split; [done|]. split; [|done]. unfold fs1 in Hkey.
  apply elem_of_fs_keys_write in Hkey as [Hkey|]; [|done].
  by apply elem_of_fs_keys_write in Hkey as [Hkey|].
Qed.

(** **** X17
    The pattern [<name>_*.bak] of a restore without a backup path also
    matches the backups of every file whose name is [<name>_<more>]
    ([<name>] holding no pattern character): with such a backup the
    newest entry of the directory, restoring the one file puts the bytes
    of the other in its place, and the digest check passes, for the
    sidecar is that of the other file.  The restore succeeds where the
    caller may read the other file and write and read back the two files
    of its backup, with the temporary directory on the device of the
    target. *)
Theorem X17_restore_takes_backup_of_other_file (E : os_env)
    (self : BackupManager) (original_path other : path) (more ts : string)
    (w : world) (f : file) (pw_name : string)
    (b := backup_dir self // restore_category original_path
            // (name other +:+ "_" +:+ ts +:+ ".bak"))
    (mp := backup_dir self // restore_category original_path
             // ((name other +:+ "_" +:+ ts) +:+ ".meta"))
    (recorded := {| original_path := str other;
                    timestamp := ts;
                    hash := sha256_hexdigest E (f_data f);
                    permissions := oct_last3 (st_mode f);
                    owner := pw_name |})
    (Hname : name other = name original_path +:+ "_" +:+ more)
    (Hliteral : Fnmatch.literal (name original_path) = true)
    (Hfile : fs_lookup other (w_fs w) = Some f)
    (Hread : Access.may_read E f = true)
    (Hslot : Access.free_or_writable E (w_fs w) b = true)
    (Hslotm : Access.free_or_own E (w_fs w) mp = true)
    (Hcreat : Access.creates_readable E = true)
    (Hdev : Access.same_device E original_path = true)
    (Hpw : getpwuid E (f_uid f) = Some pw_name)
    (Hroot : getuid E = 0%Z -> is_Some (getpwnam E pw_name))
    (Hjson : json_loads E (json_dumps E recorded) = Some recorded)
    (Hnewest : forall q, q ∈ candidate_backups self original_path (w_fs w) ->
                 q <> b -> (st_mtime (w_fs w) q < f_mtime f)%Z)
    (Hfresh : fs_lookup (mkstemp E) (w_fs w) = None)
    (Htmp : mkstemp E <> original_path /\ mkstemp E <> b /\ mkstemp E <> mp) :
  exists w1 w2 f',
    create_backup E self other (restore_category original_path) ts w
      = (Some (Some b), w1)
    /\ restore_backup E self original_path None w1 = (Some true, w2)
    /\ fs_lookup original_path (w_fs w2) = Some f'
    /\ f_data f' = f_data f.
Proof.
  destruct Htmp as (Htp & Htb & Htm).
  assert (Hpb : other <> b) by apply backup_path_not_source.
  assert (Hmp : with_suffix b ".meta" = Some mp) by apply backup_sidecar_path.
  destruct (create_backup_runs E self other (restore_category original_path) ts
              w f pw_name b mp Hfile Hpw eq_refl Hpb Hmp)
    as (bfile0 & mfile0 & log1 & Hcreate & _).
  assert (Hmatch : Fnmatch.fnmatch (name other +:+ "_" +:+ ts +:+ ".bak")
                      (name original_path +:+ "_*.bak") = true).
  { rewrite Hname.
    replace (((name original_path +:+ "_" +:+ more) +:+ "_" +:+ ts +:+ ".bak"))
      with (name original_path +:+ "_" +:+ (more +:+ "_" +:+ ts) +:+ ".bak")
      by by rewrite !PyStrFacts.app_assoc.
    by apply fnmatch_backup_name. }
  destruct (search_settles_on_new_backup E self original_path other ts w f
              pw_name _ Hfile Hpw
              (contains_stars_pattern _ (literal_no_stars _ Hliteral))
              Hmatch Hnewest Hcreate)
    as (Hchosen & bfile & mfile & Hb1 & Hbdata & Hbmtime & Hm1 & Hmdata & Hframe).
  destruct (restore_sidecar_runs E self original_path None _ b mp bfile mfile
              recorded (f_mode f mod 512)%Z Hchosen Hb1 Hmp Hm1)
    as (w2 & f' & Hrestore & Hf' & Hdata & _); try done.
  - by rewrite Hmdata.
  - by rewrite Hbdata.
  - unfold recorded, st_mode. cbn [permissions]. apply oct_last3_mode.
  - apply fits_int_mod.
  - by rewrite Hframe.
  - eexists _, w2, f'. split; [exact Hcreate|]. split; [exact Hrestore|].
    split; [exact Hf'|]. by rewrite Hdata.
Qed.

Lemma X17_witness :
  exists w1 w2 f',
    create_backup Scenario.env0 Scenario.mgr0 ScenarioMore.bashrc_old
      "shell_configs" "20240101_120000" ScenarioMore.world_two_files
      = (Some (Some ScenarioMore.bashrc_old_bak), w1)
    /\ restore_backup Scenario.env0 Scenario.mgr0 Scenario.bashrc None w1
       = (Some true, w2)
    /\ fs_lookup Scenario.bashrc (w_fs w2) = Some f'
    /\ f_data f' = "export OLD=1".
Proof.
  destruct (X17_restore_takes_backup_of_other_file Scenario.env0 Scenario.mgr0
              Scenario.bashrc ScenarioMore.bashrc_old "old" "20240101_120000"
              ScenarioMore.world_two_files
              (Scenario.file0 "export OLD=1" 1690000000) "u")
    as (w1 & w2 & f' & Hcreate & Hrestore & Hf & Hdata).
  - by vm_compute.
  - by vm_compute.
  - by vm_compute.
  - by vm_compute.
  - by vm_compute.
  - by vm_compute.
  - by vm_compute.
  - by vm_compute.
  - by vm_compute.
  - by vm_compute.
  - by vm_compute.
  - intros q Hq. vm_compute in Hq. by apply elem_of_nil in Hq.
  - by vm_compute.
  - by vm_compute.
  - exists w1, w2, f'. split; [exact Hcreate|]. split; [exact Hrestore|].
    split; [exact Hf | exact Hdata].
Defined.

(** *** [list_backups] *)

(** The order on strings is transitive. *)
Lemma le_trans a b c : le a b = true -> le b c = true -> le a c = true.
Proof.
  unfold le, String.leb. revert b c.
  induction a as [|x a IH]; intros [|y b] [|z c]; cbn [String.compare]; try done.
  unfold Ascii.compare.
  destruct (N.compare_spec (N_of_ascii x) (N_of_ascii y)) as [Hxy|Hxy|Hxy];
    destruct (N.compare_spec (N_of_ascii y) (N_of_ascii z)) as [Hyz|Hyz|Hyz];
    try done.
  - rewrite Hxy, Hyz, N.compare_refl. apply IH.
  - intros _ _. rewrite Hxy. by rewrite (proj2 (N.compare_lt_iff _ _) Hyz).
  - intros _ _. rewrite <- Hyz. by rewrite (proj2 (N.compare_lt_iff _ _) Hxy).
  - intros _ _.
    by rewrite (proj2 (N.compare_lt_iff _ _) (N.lt_trans _ _ _ Hxy Hyz)).
Qed.

Section sorted_filter.
Context {A : Type} (key : A -> string) (P : A -> Prop) `{!forall x, Decision (P x)}.

(** Inserting into a sorted list and filtering, in either order. *)
Lemma insert_desc_filter x l :
  StronglySorted (desc key) l ->
  filter P (insert_desc key x l)
  = if decide (P x) then insert_desc key x (filter P l) else filter P l.
Proof.
  induction l as [|y l IH]; intros Hs.
  - cbn [insert_desc]. rewrite filter_cons, filter_nil. by destruct (decide (P x)).
  - apply StronglySorted_cons in Hs as [Hy Hl]. specialize (IH Hl).
    cbn [insert_desc]. destruct (le (key y) (key x)) eqn:Hle.
    + rewrite filter_cons. destruct (decide (P x)) as [Hx|Hx]; [|done].
      destruct (filter P (y :: l)) as [|z l'] eqn:Hf; [done|].
      cbn [insert_desc].
      assert (Hz : z ∈ y :: l).
      { apply (list_elem_of_filter P). rewrite Hf. left. }
      assert (Hzy : le (key z) (key y) = true).
      { apply elem_of_cons in Hz as [->|Hz].
        - unfold le. destruct (String.leb_total (key y) (key y)); done.
        - rewrite Forall_forall in Hy. apply Is_true_true. by apply Hy. }
      by rewrite (le_trans _ _ _ Hzy Hle).
    + rewrite !(filter_cons _ y). destruct (decide (P y)) as [Hpy|Hpy].
      * rewrite IH. destruct (decide (P x)); [|done].
        cbn [insert_desc]. by rewrite Hle.
      * exact IH.
Qed.

Lemma sorted_desc_filter l :
  filter P (sorted_desc key l) = sorted_desc key (filter P l).
Proof.
  unfold sorted_desc. induction l as [|x l IH]; [done|].
  cbn [foldr]. rewrite insert_desc_filter by apply sorted_desc_sorted.
  rewrite filter_cons. destruct (decide (P x)); [|exact IH].
  cbn [foldr]. by rewrite <- IH.
Qed.

End sorted_filter.

(** The records kept for a path are those of the whole listing that name
    it. *)
Lemma process_backup_files_filter E fs p files :
  process_backup_files E fs (Some p) files
  = filter (fun r => parse (original_path (meta r)) = p)
      <$> process_backup_files E fs None files.
Proof.
  induction files as [|q files IH]; [done|].
  cbn [process_backup_files].
  destruct (with_suffix q ".meta") as [mq|]; [|done].
  rewrite IH.
  destruct (fs_lookup mq fs) as [mf|].
  - destruct (json_loads E (f_data mf)) as [md|]; [|done].
    destruct (process_backup_files E fs None files) as [l2|]; [|done].
    cbn [fmap option_fmap option_map]. f_equal.
    rewrite filter_app, filter_cons, filter_nil. cbn [meta].
    by destruct (decide (parse (original_path md) = p)).
  - destruct (process_backup_files E fs None files) as [l2|]; [|done].
    done.
Qed.

(** **** X15
    When every sidecar of the two listed directories is a complete record
    (so that the listing without a path returns), the listing for a path
    returns as well, and its records are those of the whole listing whose
    recorded original path is, as a path, that path, in the order they
    have there. *)
Theorem X15_list_for_path_filters_listing (E : os_env) (self : BackupManager)
    (fs : fsys) (p : path) (recs : list backup_record)
    (Hall : list_backups E self fs None = Some recs) :
  list_backups E self fs (Some p)
  = Some (filter (fun r => parse (original_path (meta r)) = p) recs).
Proof.
  revert Hall. unfold list_backups, process_backup_dir.
  rewrite !process_backup_files_filter.
  destruct (process_backup_files E fs None
              (fs_glob (backup_dir self // "shell_configs") "*.bak" fs)) as [l1|];
    [|done].
  destruct (process_backup_files E fs None
              (fs_glob (backup_dir self // "system_configs") "*.bak" fs)) as [l2|];
    [|done].
  intros [= <-]. cbn [fmap option_fmap option_map]. f_equal.
  by rewrite (sorted_desc_filter (fun x => timestamp (meta x))), filter_app.
Qed.

Lemma X15_witness :
  exists r2 r1,
    list_backups Scenario.env0 Scenario.mgr0
      (w_fs ScenarioMore.world_two_files_backed_up) None = Some [r2; r1]
    /\ list_backups Scenario.env0 Scenario.mgr0
         (w_fs ScenarioMore.world_two_files_backed_up) (Some Scenario.bashrc)
       = Some [r1]
    /\ backup_path r1 = str Scenario.bashrc_bak.
Proof.
  eexists _, _. split; [by vm_compute|].
  split; [|by vm_compute].
  by rewrite (X15_list_for_path_filters_listing Scenario.env0 Scenario.mgr0
                (w_fs ScenarioMore.world_two_files_backed_up) Scenario.bashrc
                _ eq_refl).
Defined.


(** The listing reads the entries of its two directories and nothing
    else. *)
Lemma fs_glob_write_outside d pat q0 g fs :
  in_dir d q0 = false -> fs_glob d pat (fs_write q0 g fs) = fs_glob d pat fs.
Proof.
  intros Hout. unfold fs_glob. rewrite fs_keys_write.
  destruct (fs_exists q0 fs); [done|].
  rewrite filter_app, filter_cons, filter_nil, Hout.
  rewrite decide_False by done. apply List.app_nil_r.
Qed.

(** The sidecar of an entry of a directory is an entry of it whose name
    ends in [".meta"]. *)
Lemma sidecar_in_dir d q mq :
  in_dir d q = true -> with_suffix q ".meta" = Some mq ->
  exists st, mq = d // (st +:+ ".meta") /\ name mq = st +:+ ".meta".
Proof.
  intros Hd%bool_decide_eq_true. unfold with_suffix.
  destruct (String.eqb _ _); [done|]. intros [= <-].
  eexists. rewrite Hd at 1. unfold truediv at 1. rewrite removelast_last.
  split; [reflexivity|]. apply name_truediv_long.
  rewrite app_length. simpl. lia.
Qed.

Lemma process_backup_files_ext E fs fs' original_path d files :
  (forall q, q ∈ files -> in_dir d q = true) ->
  (forall q, in_dir d q = true -> fs_lookup q fs' = fs_lookup q fs) ->
  process_backup_files E fs' original_path files
  = process_backup_files E fs original_path files.
Proof.
  intros Hdir Hext. induction files as [|q files IH]; [done|].
  cbn [process_backup_files]. rewrite IH by (intros q' Hq'; apply Hdir; by right).
  destruct (with_suffix q ".meta") as [mq|] eqn:Hmq; [|done].
  assert (Hq : in_dir d q = true) by (apply Hdir; left).
  destruct (sidecar_in_dir d q mq Hq Hmq) as (st & -> & _).
  rewrite (Hext (d // _)).
  2: { apply in_dir_truediv_long. rewrite app_length. simpl. lia. }
  by rewrite (Hext q).
Qed.

Lemma list_backups_write_outside E self q0 g fs original_path :
  in_dir (backup_dir self // "shell_configs") q0 = false ->
  in_dir (backup_dir self // "system_configs") q0 = false ->
  list_backups E self (fs_write q0 g fs) original_path
  = list_backups E self fs original_path.
Proof.
  intros H1 H2. unfold list_backups, process_backup_dir.
  rewrite !fs_glob_write_outside by done.
  rewrite (process_backup_files_ext E fs (fs_write q0 g fs) original_path
             (backup_dir self // "shell_configs")).
  - rewrite (process_backup_files_ext E fs (fs_write q0 g fs) original_path
               (backup_dir self // "system_configs")); [done | |].
    + by intros q (_ & Hd & _)%elem_of_fs_glob.
    + intros q Hq. rewrite fs_lookup_write_ne; [done|]. intros ->. congruence.
  - by intros q (_ & Hd & _)%elem_of_fs_glob.
  - intros q Hq. rewrite fs_lookup_write_ne; [done|]. intros ->. congruence.
Qed.

(** **** X22
    [list_backups] reads the two directories [shell_configs] and
    [system_configs] only: a backup made under the category [logs], whose
    directory the manager also creates, changes the result of no listing,
    so it is never listed (and never taken into account by anything that
    goes through the listing). *)
Theorem X22_logs_backups_never_listed (E : os_env) (self : BackupManager)
    (file_path : path) (ts : string) (w : world) (original_path : option path) :
  list_backups E self
    (w_fs (create_backup E self file_path "logs" ts w).2) original_path
  = list_backups E self (w_fs w) original_path.
Proof.
  assert (Hout : forall cat' x, cat' <> "logs" ->
            in_dir (backup_dir self // cat') (backup_dir self // "logs" // x)
            = false).
  { intros cat' x Hne. apply not_true_iff_false. intros Hd%in_dir_child.
    unfold truediv in Hd. by apply app_inj_tail in Hd as [_ ?]. }
  unfold create_backup, create_backup_body. run.
  rewrite (backup_sidecar_path self file_path "logs" ts).
  repeat (branch; run); try done;
    by rewrite ?list_backups_write_outside by (apply Hout; congruence).
Qed.

End BackupExtra.

(** ** Backup, search and restore *)

Module RestoreFacts.
Import PyStr PyPath OS Shutil Backup.
Import PyStrFacts FnmatchFacts PyPathFacts OSFacts SortFacts BackupFacts BackupExtra.

#[local] Arguments fs_lookup : simpl never.
#[local] Arguments fs_write : simpl never.
#[local] Arguments fs_unlink : simpl never.
#[local] Arguments fs_glob : simpl never.
#[local] Arguments with_suffix : simpl never.
#[local] Arguments int_base8 : simpl never.
#[local] Arguments fits_int : simpl never.
#[local] Arguments oct_last3 : simpl never.
#[local] Arguments String.eqb : simpl never.
#[local] Arguments Z.eqb : simpl never.
#[local] Arguments name : simpl never.
#[local] Arguments str : simpl never.
#[local] Arguments truediv : simpl never.
#[local] Arguments app : simpl never.




(** What matches the search pattern has a name, and so a sidecar path. *)
Lemma candidate_has_sidecar_path n b :
  Fnmatch.fnmatch (name b) (n +:+ "_*.bak") = true ->
  is_Some (with_suffix b ".meta").
Proof.
  intros Hm. apply with_suffix_is_Some. intros Hn. rewrite Hn in Hm.
  by apply fnmatch_pattern_last in Hm.
Qed.

(** **** C3 (as amended)
    Take an existing file whose name contains ["rc"] and holds no [**],
    and whose backup name [<name>_<timestamp>.bak] matches the pattern
    [<name>_*.bak] of the search (as it does for every name without
    pattern characters); let its owner be known to the password database
    and the file be newer than every backup of that name already stored.
    Let the caller be allowed what the two calls need: to read the file,
    to write the two files of the backup and read them back, and let the
    temporary directory be on the device of the file.  Then
    [create_backup] under the default category followed at once by
    [restore_backup] without a backup path succeeds, and the file then
    holds the bytes it held, whose digest is the one recorded at backup
    time. *)
Theorem C3_backup_restore_round_trip (E : os_env) (self : BackupManager)
    (file_path : path) (ts : string) (w : world) (f : file) (pw_name : string)
    (b := backup_dir self // default_category
            // (name file_path +:+ "_" +:+ ts +:+ ".bak"))
    (mp := backup_dir self // default_category
             // ((name file_path +:+ "_" +:+ ts) +:+ ".meta"))
    (recorded := {| original_path := str file_path;
                    timestamp := ts;
                    hash := sha256_hexdigest E (f_data f);
                    permissions := oct_last3 (st_mode f);
                    owner := pw_name |})
    (Hfile : fs_lookup file_path (w_fs w) = Some f)
    (Hrc : contains "rc" (name file_path) = true)
    (Hglob : contains "**" (name file_path) = false)
    (Hmatch : Fnmatch.fnmatch (name file_path +:+ "_" +:+ ts +:+ ".bak")
                              (name file_path +:+ "_*.bak") = true)
    (Hread : Access.may_read E f = true)
    (Hslot : Access.free_or_writable E (w_fs w) b = true)
    (Hslotm : Access.free_or_own E (w_fs w) mp = true)
    (Hcreat : Access.creates_readable E = true)
    (Hdev : Access.same_device E file_path = true)
    (Hpw : getpwuid E (f_uid f) = Some pw_name)
    (Hroot : getuid E = 0%Z -> is_Some (getpwnam E pw_name))
    (Hjson : json_loads E (json_dumps E recorded) = Some recorded)
    (Hnewest : forall q, q ∈ candidate_backups self file_path (w_fs w) ->
                 q <> b -> (st_mtime (w_fs w) q < f_mtime f)%Z)
    (Hfresh : fs_lookup (mkstemp E) (w_fs w) = None)
    (Htmp : mkstemp E <> file_path /\ mkstemp E <> b /\ mkstemp E <> mp) :
  exists w1 w2 f',
    create_backup E self file_path default_category ts w = (Some (Some b), w1)
    /\ restore_backup E self file_path None w1 = (Some true, w2)
    /\ fs_lookup file_path (w_fs w2) = Some f'
    /\ f_data f' = f_data f
    /\ sha256_hexdigest E (f_data f') = hash recorded.
Proof.
  destruct Htmp as (Htp & Htb & Htm).
  assert (Hcat : restore_category file_path = default_category)
    by (unfold restore_category; by rewrite Hrc).
  assert (Hpb : file_path <> b) by apply backup_path_not_source.
  assert (Hmp : with_suffix b ".meta" = Some mp) by apply backup_sidecar_path.
  destruct (create_backup_runs E self file_path default_category ts
              w f pw_name b mp Hfile Hpw eq_refl Hpb Hmp)
    as (bfile0 & mfile0 & log1 & Hcreate & _).
  revert Hcreate Hnewest. unfold b, mp in *. rewrite <- Hcat.
  intros Hcreate Hnewest.
  destruct (search_settles_on_new_backup E self file_path file_path ts w f
              pw_name _ Hfile Hpw (contains_stars_pattern _ Hglob) Hmatch
              Hnewest Hcreate)
    as (Hchosen & bfile & mfile & Hb1 & Hbdata & Hbmtime & Hm1 & Hmdata & Hframe).
  rewrite <- Hcat in Hmp, Htb, Htm.
  destruct (restore_sidecar_runs E self file_path None _ _ _ bfile mfile
              recorded (f_mode f mod 512)%Z Hchosen Hb1 Hmp Hm1)
    as (w2 & f' & Hrestore & Hf' & Hdata & _); try done.
  - by rewrite Hmdata.
  - by rewrite Hbdata.
  - unfold recorded, st_mode. cbn [permissions]. apply oct_last3_mode.
  - apply fits_int_mod.
  - by rewrite Hframe.
  - eexists _, w2, f'. split; [exact Hcreate|]. split; [exact Hrestore|].
    split; [exact Hf'|]. by rewrite Hdata, Hbdata.
Qed.

Lemma C3_witness :
  exists w1 w2 f',
    create_backup Scenario.env0 Scenario.mgr0 Scenario.bashrc default_category
      "20240101_120000" Scenario.world0 = (Some (Some Scenario.bashrc_bak), w1)
    /\ restore_backup Scenario.env0 Scenario.mgr0 Scenario.bashrc None w1
       = (Some true, w2)
    /\ fs_lookup Scenario.bashrc (w_fs w2) = Some f'
    /\ f_data f' = "export X=1"
    /\ sha256_hexdigest Scenario.env0 (f_data f') = "sha256:export X=1".
Proof.
  destruct (C3_backup_restore_round_trip Scenario.env0 Scenario.mgr0
              Scenario.bashrc "20240101_120000" Scenario.world0
              (Scenario.file0 "export X=1" 1700000000) "u")
    as (w1 & w2 & f' & Hcreate & Hrestore & Hlookup & Hdata & Hhash).
  - by vm_compute.
  - by vm_compute.
  - by vm_compute.
  - by vm_compute.
  - by vm_compute.
  - by vm_compute.
  - by vm_compute.
  - by vm_compute.
  - by vm_compute.
  - by vm_compute.
  - by vm_compute.
  - by vm_compute.
  - intros q Hq. vm_compute in Hq. by apply elem_of_nil in Hq.
  - by vm_compute.
  - by vm_compute.
  - exists w1, w2, f'. split; [exact Hcreate|]. split; [exact Hrestore|].
    split; [exact Hlookup|]. split; [exact Hdata | exact Hhash].
Defined.

(** The claim as first stated fails: [config.yaml] exists and can be read,
    it is backed up under the default category, and the restore that
    follows returns [False]. *)
Lemma C3_counterexample :
  fs_lookup Scenario.config_yaml (w_fs Scenario.world0)
    = Some (Scenario.file0 "fps: 60" 1700000001)
  /\ Access.may_read Scenario.env0 (Scenario.file0 "fps: 60" 1700000001) = true
  /\ create_backup Scenario.env0 Scenario.mgr0 Scenario.config_yaml
       default_category "20240101_120000" Scenario.world0
     = (Some (Some Scenario.config_bak), Scenario.world_config_backed_up)
  /\ restore_backup Scenario.env0 Scenario.mgr0 Scenario.config_yaml None
       Scenario.world_config_backed_up
     = (Some false, Scenario.world_config_backed_up).
Proof. by vm_compute. Qed.

(** **** C5 (a fault of the code)
    [.bashrc] is backed up, edited and backed up again; then the first
    backup is restored by its path, and the file is backed up a third
    time: three backups at strictly increasing timestamps.
    [list_backups] returns their records newest timestamp first, so the
    record at index 0 is that of the third backup, which holds the bytes
    [export X=1].  A restore without a backup path returns [True] and
    puts [export X=2] in the file: it has taken the second backup, whose
    file has the latest modification time, for [copy2] gives a stored copy
    the modification time of its source and not the time of the backup.
    The source's comment on this search reads "Find the most recent
    backup". *)
Theorem C5_restore_takes_older_backup :
  let E := Scenario.env0 in
  let self := Scenario.mgr0 in
  let p := Scenario.bashrc in
  let b1 := Scenario.bashrc_bak in
  let b2 := Scenario.bashrc_bak2 in
  let b3 := ScenarioMore.bashrc_bak3 in
  let w := ScenarioMore.world_three_backups in
  (* the three backups and the restore between them *)
  create_backup E self p default_category "20240101_120000" Scenario.world0
    = (Some (Some b1), Scenario.world_backed_up)
  /\ create_backup E self p default_category "20240102_120000"
       Scenario.world_edited
     = (Some (Some b2), Scenario.world_two_backups)
  /\ restore_backup E self p (Some b1) Scenario.world_two_backups
     = (Some true, ScenarioMore.world_first_restored)
  /\ create_backup E self p default_category "20240103_120000"
       ScenarioMore.world_first_restored
     = (Some (Some b3), w)
  (* the listing: newest timestamp first *)
  /\ (exists r3 r2 r1,
        list_backups E self (w_fs w) (Some p) = Some [r3; r2; r1]
        /\ StronglySorted (strictly_desc (fun r => timestamp (meta r)))
             [r3; r2; r1]
        /\ timestamp (meta r3) = "20240103_120000"
        /\ timestamp (meta r2) = "20240102_120000"
        /\ timestamp (meta r1) = "20240101_120000"
        /\ backup_path r3 = str b3 /\ backup_path r2 = str b2
        /\ backup_path r1 = str b1)
  /\ f_data <$> fs_lookup b3 (w_fs w) = Some "export X=1"
  /\ f_data <$> fs_lookup b2 (w_fs w) = Some "export X=2"
  (* the search of the restore: latest modification time *)
  /\ candidate_backups self p (w_fs w) = [b1; b2; b3]
  /\ st_mtime (w_fs w) <$> [b1; b2; b3]
     = [1700000000; 1700086400; 1700000000]%Z
  /\ chosen_backup self p None (w_fs w) = Some b2
  /\ exists w',
       restore_backup E self p None w = (Some true, w')
       /\ f_data <$> fs_lookup p (w_fs w') = Some "export X=2".
Proof.
  cbv zeta.
  split; [by vm_compute|]. split; [by vm_compute|].
  split; [by vm_compute|]. split; [by vm_compute|].
  split.
  { eexists _, _, _. split; [by vm_compute|].
    split; [|by vm_compute].
    repeat constructor; by vm_compute. }
  split; [by vm_compute|]. split; [by vm_compute|].
  split; [by vm_compute|]. split; [by vm_compute|].
  split; [by vm_compute|].
  eexists. split; by vm_compute.
Qed.






End RestoreFacts.

(** ** The security manager and its callers *)

Module SecurityExtra.
Import PyStr PyPath Sandbox OS Shutil Backup Security TerminalDecorator.
Import PyStrFacts FnmatchFacts PyPathFacts OSFacts SortFacts BackupFacts BackupExtra.

(** *** [secure_file_operation] *)

(** **** X18
    When one positional argument of a wrapped call is a string or a path
    that [is_path_allowed] rejects, the wrapper raises: the wrapped
    function is not called, no backup is made and the state is what it
    was, whatever the function, its name and the other arguments are. *)
Theorem X18_denied_path_blocks_operation {A} (H : host) (E : os_env)
    (self : SecurityManager) (func_name : string) (func : list arg -> M A)
    (ts : string) (args : list arg) (w : world) (a : arg) (p : path)
    (Harg : a ∈ args)
    (Hpath : arg_path a = Some p)
    (Hdenied : is_path_allowed H (sandbox_manager self) p = false) :
  secure_file_operation H E self func_name func ts args w = (None, w).
Proof.
  unfold secure_file_operation.
  assert (Hall : paths_allowed H self args = false).
  { apply not_true_iff_false. intros Hall. unfold paths_allowed in Hall.
    rewrite forallb_forall in Hall.
    specialize (Hall a (proj1 (list_elem_of_In _ _) Harg)).
    destruct a; [| |done]; rewrite Hpath in Hall; congruence. }
  by rewrite Hall.
Qed.

Lemma X18_witness :
  secure_file_operation Scenario.host0 Scenario.env0
    (mksecurity Scenario.mgr0 (new Scenario.host0)) "write_file"
    (fun _ => write_text Scenario.env0 Scenario.bashrc "export X=3") "20240101_120000"
    [ArgPath Scenario.bashrc; ArgStr "/etc/passwd"] Scenario.world0
  = (None, Scenario.world0).
Proof.
  apply (X18_denied_path_blocks_operation Scenario.host0 Scenario.env0
           (mksecurity Scenario.mgr0 (new Scenario.host0)) "write_file" _
           "20240101_120000" _ Scenario.world0 (ArgStr "/etc/passwd")
           ["/"; "etc"; "passwd"]).
  - apply list_elem_of_In. simpl. tauto.
  - reflexivity.
  - reflexivity.
Defined.

(** **** X19
    For a wrapped function named [write_file], [modify_file] or
    [delete_file] whose arguments pass the path check, the wrapper calls
    the function in the state [create_backup] of the first argument leaves
    behind, whether or not that backup was made: a failed backup does not
    stop the operation, and for a file that does not exist yet the
    function simply runs. *)
Theorem X19_operation_follows_backup_attempt {A} (H : host) (E : os_env)
    (self : SecurityManager) (func_name : string) (func : list arg -> M A)
    (ts : string) (a0 : arg) (rest : list arg) (w : world) (p : path)
    (Hname : func_name ∈ mutating_names)
    (Hallowed : paths_allowed H self (a0 :: rest) = true)
    (Hfirst : arg_path a0 = Some p) :
  secure_file_operation H E self func_name func ts (a0 :: rest) w
  = func (a0 :: rest)
         (create_backup E (backup_manager self) p default_category ts w).2
  /\ (fs_lookup p (w_fs w) = None ->
      secure_file_operation H E self func_name func ts (a0 :: rest) w
      = func (a0 :: rest) w).
Proof.
  assert (Hrun : secure_file_operation H E self func_name func ts (a0 :: rest) w
                 = func (a0 :: rest)
                     (create_backup E (backup_manager self) p default_category ts w).2).
  { unfold secure_file_operation. rewrite Hallowed, Hfirst.
    rewrite bool_decide_eq_true_2 by done.
    unfold bind, must, ret. cbn [negb].
    unfold create_backup, try_except.
    by destruct (create_backup_body E (backup_manager self) p default_category ts w)
      as [[r|] w1]. }
  split; [exact Hrun|]. intros Hnone. rewrite Hrun. f_equal.
  unfold create_backup, create_backup_body. by run.
Qed.

Lemma X19_witness :
  secure_file_operation Scenario.host0 Scenario.env0
    (mksecurity Scenario.mgr0 (new Scenario.host0)) "delete_file"
    (fun _ => unlink Scenario.bashrc) "20240101_120000"
    [ArgPath Scenario.bashrc] ScenarioMore.world_orphan
  = unlink Scenario.bashrc
      (create_backup Scenario.env0 Scenario.mgr0 Scenario.bashrc
         default_category "20240101_120000" ScenarioMore.world_orphan).2.
Proof.
  apply (X19_operation_follows_backup_attempt Scenario.host0 Scenario.env0
           (mksecurity Scenario.mgr0 (new Scenario.host0)) "delete_file"
           (fun _ => unlink Scenario.bashrc) "20240101_120000"
           (ArgPath Scenario.bashrc) [] ScenarioMore.world_orphan
           Scenario.bashrc).
  - apply list_elem_of_In. simpl. tauto.
  - reflexivity.
  - reflexivity.
Defined.

(** *** The shell configuration file *)

Lemma contains_rc_tail s : contains "rc" (s +:+ "rc") = true.
Proof.
  apply contains_spec. exists s, EmptyString. by rewrite PyStrFacts.app_nil_r.
Qed.

(** The name of the shell configuration file ends in ["rc"]. *)
Lemma shell_config_name environ home :
  exists s, name (shell_config_path environ home) = String "." s +:+ "rc".
Proof.
  unfold shell_config_path.
  set (shell := List.last _ _).
  destruct (String.eqb shell "zsh"); [|destruct (String.eqb shell "bash")].
  - exists "zsh". by rewrite name_truediv.
  - exists "bash". by rewrite name_truediv.
  - exists shell. rewrite name_truediv_long; [by rewrite app_cons, app_nil_l|].
    rewrite app_cons, app_nil_l. cbn [String.length].
    rewrite app_length. simpl. lia.
Qed.

(** **** X20
    Whatever [SHELL] holds, and when it is unset, the shell
    configuration file has a name with ["rc"] in it, so the directory
    [restore_shell_config] searches is the one [backup_shell_config]
    stores into.  When the name has no pattern character, the file's
    owner is known, the file is newer than the backups of that name
    already stored, the caller may read the file and write and read back
    the two files of its backup, and the temporary directory is on the
    device of the file, [backup_shell_config] followed by
    [restore_shell_config] without a backup path both return [True] and
    the file holds the bytes it held. *)
Theorem X20_shell_config_round_trip (E : os_env) (mgr : BackupManager)
    (environ : gmap string string) (home : path) (ts : string) (w : world)
    (f : file) (pw_name : string)
    (cfg := shell_config_path environ home)
    (b := backup_dir mgr // default_category
            // (name cfg +:+ "_" +:+ ts +:+ ".bak"))
    (mp := backup_dir mgr // default_category
             // ((name cfg +:+ "_" +:+ ts) +:+ ".meta"))
    (recorded := {| original_path := str cfg;
                    timestamp := ts;
                    hash := sha256_hexdigest E (f_data f);
                    permissions := oct_last3 (st_mode f);
                    owner := pw_name |})
    (Hliteral : Fnmatch.literal (name cfg) = true)
    (Hfile : fs_lookup cfg (w_fs w) = Some f)
    (Hread : Access.may_read E f = true)
    (Hslot : Access.free_or_writable E (w_fs w) b = true)
    (Hslotm : Access.free_or_own E (w_fs w) mp = true)
    (Hcreat : Access.creates_readable E = true)
    (Hdev : Access.same_device E cfg = true)
    (Hpw : getpwuid E (f_uid f) = Some pw_name)
    (Hroot : getuid E = 0%Z -> is_Some (getpwnam E pw_name))
    (Hjson : json_loads E (json_dumps E recorded) = Some recorded)
    (Hnewest : forall q, q ∈ candidate_backups mgr cfg (w_fs w) ->
                 q <> b -> (st_mtime (w_fs w) q < f_mtime f)%Z)
    (Hfresh : fs_lookup (mkstemp E) (w_fs w) = None)
    (Htmp : mkstemp E <> cfg /\ mkstemp E <> b /\ mkstemp E <> mp) :
  restore_category cfg = default_category
  /\ exists w1 w2 f',
       backup_shell_config E mgr environ home ts w = (Some true, w1)
       /\ restore_shell_config E mgr environ home None w1 = (Some true, w2)
       /\ fs_lookup cfg (w_fs w2) = Some f'
       /\ f_data f' = f_data f.
Proof.
  destruct Htmp as (Htp & Htb & Htm).
  assert (Hcat : restore_category cfg = default_category).
  { unfold restore_category.
    destruct (shell_config_name environ home) as [s Hs]. fold cfg in Hs.
    by rewrite Hs, contains_rc_tail. }
  split; [exact Hcat|].
  assert (Hpb : cfg <> b) by apply backup_path_not_source.
  assert (Hmp : with_suffix b ".meta" = Some mp) by apply backup_sidecar_path.
  destruct (create_backup_runs E mgr cfg default_category ts
              w f pw_name b mp Hfile Hpw eq_refl Hpb Hmp)
    as (bfile0 & mfile0 & log1 & Hcreate & _).
  revert Hcreate Hnewest. unfold b, mp in *. rewrite <- Hcat.
  intros Hcreate Hnewest.
  destruct (search_settles_on_new_backup E mgr cfg cfg ts w f
              pw_name _ Hfile Hpw
              (contains_stars_pattern _ (literal_no_stars _ Hliteral))
              (fnmatch_backup_name _ ts Hliteral)
              Hnewest Hcreate)
    as (Hchosen & bfile & mfile & Hb1 & Hbdata & Hbmtime & Hm1 & Hmdata & Hframe).
  rewrite <- Hcat in Hmp, Htb, Htm.
  destruct (restore_sidecar_runs E mgr cfg None _ _ _ bfile mfile
              recorded (f_mode f mod 512)%Z Hchosen Hb1 Hmp Hm1)
    as (w2 & f' & Hrestore & Hf' & Hdata & _); try done.
  - by rewrite Hmdata.
  - by rewrite Hbdata.
  - unfold recorded, st_mode. cbn [permissions]. apply oct_last3_mode.
  - apply fits_int_mod.
  - by rewrite Hframe.
  - rewrite Hcat in Hcreate, Hrestore.
    eexists _, w2, f'. split; [|split; [|split; [exact Hf' | by rewrite Hdata]]].
    + unfold backup_shell_config, try_except, bind, get_fs, fs_exists, ret.
      fold cfg. rewrite Hfile. by rewrite Hcreate.
    + unfold restore_shell_config, try_except. fold cfg. by rewrite Hrestore.
Qed.

Lemma X20_witness :
  restore_category
    (shell_config_path (<["SHELL" := "/bin/bash"]> ∅) ["/"; "home"; "u"])
  = default_category
  /\ exists w1 w2 f',
       backup_shell_config Scenario.env0 Scenario.mgr0
         (<["SHELL" := "/bin/bash"]> ∅) ["/"; "home"; "u"] "20240101_120000"
         Scenario.world0 = (Some true, w1)
       /\ restore_shell_config Scenario.env0 Scenario.mgr0
            (<["SHELL" := "/bin/bash"]> ∅) ["/"; "home"; "u"] None w1
          = (Some true, w2)
       /\ fs_lookup
            (shell_config_path (<["SHELL" := "/bin/bash"]> ∅) ["/"; "home"; "u"])
            (w_fs w2) = Some f'
       /\ f_data f' = "export X=1".
Proof.
  apply (X20_shell_config_round_trip Scenario.env0 Scenario.mgr0
           (<["SHELL" := "/bin/bash"]> ∅) ["/"; "home"; "u"] "20240101_120000"
           Scenario.world0 (Scenario.file0 "export X=1" 1700000000) "u").
  - by vm_compute.
  - by vm_compute.
  - by vm_compute.
  - by vm_compute.
  - by vm_compute.
  - by vm_compute.
  - by vm_compute.
  - by vm_compute.
  - by vm_compute.
  - by vm_compute.
  - intros q Hq. vm_compute in Hq. by apply elem_of_nil in Hq.
  - by vm_compute.
  - by vm_compute.
Defined.

(** *** [verify_file_integrity] *)










Section verify_after_backup.
Context (E : os_env) (self : SecurityManager) (p : path) (category ts : string)
        (fs fs2 : fsys) (f g mfile : file) (pw : string).

Local Abbreviation bm := (backup_manager self).
Local Abbreviation stem := (name p +:+ "_" +:+ ts).
Local Abbreviation b :=
  (backup_dir bm // category // (name p +:+ "_" +:+ ts +:+ ".bak")).
Local Abbreviation mp := (backup_dir bm // category // (stem +:+ ".meta")).
Local Abbreviation recorded :=
  (mkmeta (str p) ts (sha256_hexdigest E (f_data f))
          (oct_last3 (st_mode f)) pw).

Hypothesis Hcategory : category = "shell_configs" \/ category = "system_configs".
Hypothesis Hjson : json_loads E (json_dumps E recorded) = Some recorded.
Hypothesis Hparse : parse (str p) = p.
Hypothesis Houtside : forall cat', in_dir (backup_dir bm // cat') p = false.
Hypothesis Hlists : is_Some (list_backups E bm fs (Some p)).
Hypothesis Hnewer :
  forall cat' q mq mf md,
    cat' = "shell_configs" \/ cat' = "system_configs" ->
    q ∈ fs_glob (backup_dir bm // cat') "*.bak" fs -> q <> b ->
    with_suffix q ".meta" = Some mq -> fs_lookup mq fs = Some mf ->
    json_loads E (f_data mf) = Some md -> parse (original_path md) = p ->
    le ts (timestamp md) = false.
Hypothesis Hkeys : forall q, q ∈ fs2.*1 <-> q ∈ fs.*1 \/ q = b \/ q = mp \/ q = p.
Hypothesis Hframe :
  forall q, q <> b -> q <> mp -> q <> p -> fs_lookup q fs2 = fs_lookup q fs.
Hypothesis Hsidecar : fs_lookup mp fs2 = Some mfile.
Hypothesis Hrecord : f_data mfile = json_dumps E recorded.
Hypothesis Hcurrent : fs_lookup p fs2 = Some g.



End verify_after_backup.



End SecurityExtra.

(** ** The constructor of the backup manager *)

Module DirsFacts.
Import PyPath OS Backup Dirs.

Lemma t_lookup_set_eq p n t : t_lookup p (t_set p n t) = Some n.
Proof.
  induction t as [|[q m] t IH]; simpl.
  - by rewrite decide_True.
  - destruct (decide (q = p)) as [->|Hne]; simpl.
    + by rewrite decide_True.
    + by rewrite decide_False.
Qed.

Lemma t_lookup_set_ne p q n t : q <> p -> t_lookup q (t_set p n t) = t_lookup q t.
Proof.
  intros Hqp. induction t as [|[r m] t IH]; simpl.
  - by rewrite decide_False.
  - destruct (decide (r = p)) as [->|Hne]; simpl.
    + by rewrite !decide_False.
    + destruct (decide (r = q)); [done | apply IH].
Qed.

Lemma t_set_same p n t : t_lookup p t = Some n -> t_set p n t = t.
Proof.
  induction t as [|[q m] t IH]; [done|]. simpl.
  destruct (decide (q = p)) as [->|Hne]; [by intros [= ->]|].
  intros Hl. by rewrite IH.
Qed.

Lemma is_dir_lookup p t :
  is_dir p t = true -> exists n, t_lookup p t = Some n /\ n_kind n = KDir.
Proof.
  unfold is_dir. destruct (t_lookup p t) as [n|]; [|done].
  destruct (n_kind n) eqn:Hk; [|done]. by exists n.
Qed.

(** *** The three ways of [mkdir] *)

Lemma mkdir_exists fuel E umask p parents t :
  is_dir p t = true -> mkdir fuel E umask p parents true t = (inr tt, t).
Proof.
  intros Hd. destruct (is_dir_lookup p t Hd) as (n & Hn & Hk).
  destruct fuel; simpl; unfold os_mkdir; by rewrite Hn, Hd.
Qed.

Lemma mkdir_creates fuel E umask p parents exist_ok t :
  t_lookup p t = None -> is_dir (parent p) t = true ->
  mkdir fuel E umask p parents exist_ok t
  = (inr tt, t_set p (fresh_dir E umask) t).
Proof.
  intros Hp Hd. destruct (is_dir_lookup _ t Hd) as (n & Hn & Hk).
  destruct fuel; simpl; unfold os_mkdir; by rewrite Hp, Hn, Hk.
Qed.

Lemma mkdir_climbs fuel E umask p exist_ok t :
  t_lookup p t = None -> t_lookup (parent p) t = None -> parent p <> p ->
  mkdir (S fuel) E umask p true exist_ok t
  = match mkdir fuel E umask (parent p) true true t with
    | (inr _, t'') => mkdir fuel E umask p false exist_ok t''
    | (inl e, t'') => (inl e, t'')
    end.
Proof.
  intros Hp Hpp Hne. simpl. unfold os_mkdir at 1. rewrite Hp, Hpp.
  by rewrite bool_decide_eq_false_2.
Qed.

Lemma parent_snoc d c : d <> [] -> parent (d ++ [c]) = d.
Proof.
  intros Hd. destruct d as [|a [|b d]]; [done | done |].
  change (removelast ((a :: b :: d) ++ [c]) = a :: b :: d).
  apply removelast_last.
Qed.

(** [mkdir(parents=True, exist_ok=True)] on an absolute path none of
    whose ancestors is something other than a directory: it returns, the
    path is then a directory, what existed is as it was, and nothing but
    missing ancestors has been made. *)
Lemma mkdir_parents_ok E umask rest :
  forall fuel t,
    length rest <= fuel ->
    is_dir ["/"] t = true ->
    (forall q, q `prefix_of` "/" :: rest -> q <> [] ->
       t_lookup q t = None \/ is_dir q t = true) ->
    exists t',
      mkdir fuel E umask ("/" :: rest) true true t = (inr tt, t')
      /\ is_dir ("/" :: rest) t' = true
      /\ (forall q n, t_lookup q t = Some n -> t_lookup q t' = Some n)
      /\ (forall q, t_lookup q t = None -> ~ q `prefix_of` "/" :: rest ->
            t_lookup q t' = None)
      /\ (t_lookup ("/" :: rest) t = None ->
          t_lookup ("/" :: rest) t' = Some (fresh_dir E umask)).
Proof.
  induction rest as [|x rest IH] using rev_ind; intros fuel t Hfuel Hroot Hanc.
  - exists t. rewrite mkdir_exists by done. split; [done|]. split; [done|].
    split; [done|]. split; [done|]. intros Hn.
    apply is_dir_lookup in Hroot as (n & Hl & _). congruence.
  - set (p := "/" :: rest ++ [x]). set (pp := "/" :: rest).
    assert (Hpar : parent p = pp).
    { unfold p. rewrite app_comm_cons. by apply parent_snoc. }
    assert (Hne : parent p <> p).
    { rewrite Hpar. unfold p, pp. rewrite app_comm_cons. intros Heq.
      apply (f_equal length) in Heq. rewrite length_app in Heq. simpl in Heq. lia. }
    assert (Hpre : pp `prefix_of` p).
    { exists [x]. unfold p, pp. by rewrite app_comm_cons. }
    destruct (Hanc p) as [Hp|Hp]; [done | done | |].
    2: { exists t. rewrite mkdir_exists by done. split; [done|].
         split; [done|]. split; [done|]. split; [done|]. intros Hn.
         apply is_dir_lookup in Hp as (n & Hl & _). congruence. }
    assert (Hmade : forall t1,
              t_lookup p t1 = None -> is_dir pp t1 = true ->
              is_dir p (t_set p (fresh_dir E umask) t1) = true
              /\ (forall q n, t_lookup q t1 = Some n ->
                    t_lookup q (t_set p (fresh_dir E umask) t1) = Some n)
              /\ (forall q, t_lookup q t1 = None -> ~ q `prefix_of` p ->
                    t_lookup q (t_set p (fresh_dir E umask) t1) = None)).
    { intros t1 Hp1 Hd1. split; [|split].
      - unfold is_dir. by rewrite t_lookup_set_eq.
      - intros q n Hq. rewrite t_lookup_set_ne; [done|]. congruence.
      - intros q Hq Hnp. rewrite t_lookup_set_ne; [done|]. by intros ->. }
    destruct (Hanc pp) as [Hpp|Hpp]; [done | done | |].
    + (* the parent is missing as well *)
      destruct fuel as [|fuel]; [rewrite length_app in Hfuel; simpl in Hfuel; lia|].
      destruct (IH fuel t) as (t1 & Hrun & Hd1 & Hkeep & Hnew & _).
      { rewrite length_app in Hfuel. simpl in Hfuel. lia. }
      { done. }
      { intros q Hq. apply Hanc. by etrans. }
      assert (Hp1 : t_lookup p t1 = None).
      { apply Hnew; [done|]. intros Hq%prefix_length. unfold p in Hq.
        simpl in Hq. rewrite length_app in Hq. simpl in Hq. lia. }
      destruct (Hmade t1 Hp1 Hd1) as (Hdp & Hk & Hn).
      exists (t_set p (fresh_dir E umask) t1).
      rewrite mkdir_climbs
        by first [exact Hp | exact Hne | rewrite Hpar; exact Hpp].
      rewrite Hpar. fold pp in Hrun. rewrite Hrun.
      rewrite mkdir_creates by first [exact Hp1 | rewrite Hpar; exact Hd1].
      split; [done|]. split; [done|]. split; [|split].
      * intros q n Hq. by apply Hk, Hkeep.
      * intros q Hq Hnp. apply Hn; [|done]. apply Hnew; [done|].
        intros Hqp. apply Hnp. by etrans.
      * intros _. apply t_lookup_set_eq.
    + destruct (Hmade t Hp Hpp) as (Hdp & Hk & Hn).
      exists (t_set p (fresh_dir E umask) t).
      rewrite mkdir_creates by first [exact Hp | rewrite Hpar; exact Hpp].
      split; [done|]. split; [done|]. split; [done|]. split; [done|].
      intros _. apply t_lookup_set_eq.
Qed.

(** A missing subdirectory is made, an existing one is left alone. *)
Lemma parent_child d c : c <> "/" -> c <> "//" -> parent (d // c) = d.
Proof.
  intros Hc Hc'. destruct d as [|a d].
  - unfold truediv, parent. cbn [app].
    by rewrite PyPathFacts.is_root_false.
  - by apply parent_snoc.
Qed.

Lemma mkdir_child E umask d c t :
  c <> "/" -> c <> "//" ->
  is_dir d t = true -> absent_or_dir t (d // c) = true ->
  exists t',
    mkdir 0 E umask (d // c) false true t = (inr tt, t')
    /\ t_lookup (d // c) t'
       = Some (default (fresh_dir E umask) (t_lookup (d // c) t))
    /\ (forall q, q <> d // c -> t_lookup q t' = t_lookup q t).
Proof.
  intros Hd Hd' Hdir Hc. unfold absent_or_dir in Hc.
  destruct (t_lookup (d // c) t) as [n|] eqn:Hl.
  - exists t. rewrite mkdir_exists by (unfold is_dir; by rewrite Hl).
    split; [done|]. split; [exact Hl | done].
  - exists (t_set (d // c) (fresh_dir E umask) t).
    rewrite mkdir_creates; [| done | by rewrite parent_child].
    split; [done|]. split; [by rewrite t_lookup_set_eq|].
    intros q Hq. by apply t_lookup_set_ne.
Qed.

Lemma elem_of_ancestors q p : q `prefix_of` p -> q <> [] -> q ∈ ancestors p.
Proof.
  intros [k ->] Hq. unfold ancestors. apply list_elem_of_fmap.
  exists (length q). split; [by rewrite take_app_length|].
  apply elem_of_seq. rewrite length_app. destruct q; [done|]. simpl. lia.
Qed.

Lemma child_not_parent (d : path) c : d // c <> d.
Proof.
  unfold truediv. intros Heq. apply (f_equal length) in Heq.
  rewrite length_app in Heq. simpl in Heq. lia.
Qed.

#[local] Arguments mkdir : simpl never.
#[local] Arguments t_lookup : simpl never.
#[local] Arguments t_set : simpl never.
#[local] Arguments truediv : simpl never.

(** The constructor run to its end. *)
Lemma init_runs E umask home arg t rest (bd := init_backup_dir home arg) :
  bd = "/" :: rest ->
  is_dir ["/"] t = true ->
  forallb (absent_or_dir t) (ancestors bd) = true ->
  forallb (fun c => absent_or_dir t (bd // c)) subdirectories = true ->
  absent_or_own E t bd = true ->
  exists t',
    __init__ E umask home arg t = (inr {| backup_dir := bd |}, t')
    /\ t_lookup bd t'
       = Some {| n_kind := KDir; n_mode := 448;
                 n_uid := getuid E; n_gid := getgid E |}
    /\ (forall c, c ∈ subdirectories ->
          t_lookup (bd // c) t'
          = Some (default (fresh_dir E umask) (t_lookup (bd // c) t)))
    /\ (forall q n, t_lookup q t = Some n -> q <> bd -> t_lookup q t' = Some n).
Proof.
  intros Habs Hroot Hanc Hsub Hown.
  rewrite forallb_forall in Hanc. rewrite forallb_forall in Hsub.
  assert (Hbd : bd <> []) by by rewrite Habs.
  destruct (mkdir_parents_ok E umask rest (length bd) t)
    as (t1 & Hrun1 & Hdir1 & Hkeep1 & Hnew1 & Hfresh1).
  { rewrite Habs. simpl. lia. }
  { done. }
  { rewrite <- Habs. intros q Hq Hne.
    specialize (Hanc q (proj1 (list_elem_of_In _ _) (elem_of_ancestors q bd Hq Hne))).
    unfold absent_or_dir in Hanc. unfold is_dir.
    destruct (t_lookup q t) as [n|]; [by right | by left]. }
  rewrite <- Habs in Hrun1, Hdir1, Hnew1, Hfresh1.
  (* the entries of the subdirectories are as they were *)
  assert (Hsame1 : forall c, t_lookup (bd // c) t1 = t_lookup (bd // c) t).
  { intros c. destruct (t_lookup (bd // c) t) as [n|] eqn:Hl; [by apply Hkeep1|].
    apply Hnew1; [done|]. intros Hp%prefix_length.
    unfold truediv in Hp. rewrite length_app in Hp. simpl in Hp. lia. }
  assert (Hsub1 : forall c, c ∈ subdirectories -> absent_or_dir t1 (bd // c) = true).
  { intros c Hc. unfold absent_or_dir. rewrite Hsame1.
    by apply (Hsub c), list_elem_of_In. }
  destruct (mkdir_child E umask bd "shell_configs" t1)
    as (t2 & Hrun2 & Hnew2 & Hkeep2); [done | done | done | |].
  { apply Hsub1, list_elem_of_In. simpl. tauto. }
  destruct (mkdir_child E umask bd "system_configs" t2)
    as (t3 & Hrun3 & Hnew3 & Hkeep3); [done | done | | |].
  { unfold is_dir. rewrite Hkeep2 by (symmetry; apply child_not_parent). done. }
  { unfold absent_or_dir. rewrite Hkeep2.
    - apply Hsub1, list_elem_of_In. simpl. tauto.
    - unfold truediv. by intros [_ ?]%app_inj_tail. }
  destruct (mkdir_child E umask bd "logs" t3)
    as (t4 & Hrun4 & Hnew4 & Hkeep4); [done | done | | |].
  { unfold is_dir.
    rewrite Hkeep3, Hkeep2 by (symmetry; apply child_not_parent). done. }
  { unfold absent_or_dir. rewrite Hkeep3, Hkeep2.
    - apply Hsub1, list_elem_of_In. simpl. tauto.
    - unfold truediv. by intros [_ ?]%app_inj_tail.
    - unfold truediv. by intros [_ ?]%app_inj_tail. }
  (* the directory itself *)
  destruct (is_dir_lookup bd t1 Hdir1) as (n1 & Hn1 & Hk1).
  assert (Hn4 : t_lookup bd t4 = Some n1).
  { rewrite Hkeep4, Hkeep3, Hkeep2 by (symmetry; apply child_not_parent). done. }
  assert (Hmay : may_change E n1 = true).
  { unfold absent_or_own in Hown.
    destruct (t_lookup bd t) as [n|] eqn:Hl.
    - rewrite (Hkeep1 bd n Hl) in Hn1. by injection Hn1 as <-.
    - rewrite (Hfresh1 eq_refl) in Hn1. injection Hn1 as <-.
      unfold may_change, fresh_dir. cbn [n_uid]. by rewrite Z.eqb_refl. }
  eexists.
  unfold __init__, _setup_backup_structure, _secure_directory, dbind, dret.
  cbn [backup_dir]. fold bd.
  rewrite Hrun1, Hrun2, Hrun3, Hrun4.
  unfold chmod, chown_self. rewrite Hn4, Hmay, t_lookup_set_eq.
  unfold may_change in *. cbn [n_uid] in *. rewrite Hmay.
  split; [reflexivity|]. cbn [n_kind n_mode]. rewrite Hk1.
  split; [by rewrite t_lookup_set_eq|]. split.
  - intros c Hc.
    rewrite !t_lookup_set_ne by apply child_not_parent.
    rewrite <- Hsame1.
    apply list_elem_of_In in Hc. simpl in Hc.
    destruct Hc as [<-|[<-|[<-|[]]]].
    + rewrite Hkeep4, Hkeep3 by (unfold truediv; by intros [_ ?]%app_inj_tail).
      done.
    + rewrite Hkeep4 by (unfold truediv; by intros [_ ?]%app_inj_tail).
      rewrite Hnew3. by rewrite Hkeep2 by (unfold truediv; by intros [_ ?]%app_inj_tail).
    + rewrite Hnew4.
      by rewrite Hkeep3, Hkeep2 by (unfold truediv; by intros [_ ?]%app_inj_tail).
  - intros q n Hq Hqb. rewrite !t_lookup_set_ne by done.
    pose proof (Hkeep1 q n Hq) as Hq1.
    assert (Hstep : forall c ta tb,
              t_lookup (bd // c) tb
              = Some (default (fresh_dir E umask) (t_lookup (bd // c) ta)) ->
              (forall q', q' <> bd // c -> t_lookup q' tb = t_lookup q' ta) ->
              t_lookup q ta = Some n -> t_lookup q tb = Some n).
    { intros c ta tb Hc Hk Hqa. destruct (decide (q = bd // c)) as [->|Hne].
      - by rewrite Hc, Hqa.
      - by rewrite Hk. }
    eapply Hstep; [exact Hnew4 | exact Hkeep4 |].
    eapply Hstep; [exact Hnew3 | exact Hkeep3 |].
    eapply Hstep; [exact Hnew2 | exact Hkeep2 |]. done.
Qed.

(** The constructor on a store that is set up changes nothing. *)
Lemma init_again E umask home arg t (bd := init_backup_dir home arg) :
  t_lookup bd t
  = Some {| n_kind := KDir; n_mode := 448;
            n_uid := getuid E; n_gid := getgid E |} ->
  (forall c, c ∈ subdirectories -> is_dir (bd // c) t = true) ->
  __init__ E umask home arg t = (inr {| backup_dir := bd |}, t).
Proof.
  intros Hbd Hsub.
  assert (Hin : forall c, In c subdirectories -> is_dir (bd // c) t = true).
  { intros c Hc. by apply Hsub, list_elem_of_In. }
  unfold __init__, _setup_backup_structure, _secure_directory, dbind, dret.
  cbn [backup_dir]. fold bd.
  rewrite mkdir_exists by (unfold is_dir; by rewrite Hbd).
  rewrite !mkdir_exists by (apply Hin; simpl; tauto).
  unfold chmod, chown_self. rewrite Hbd.
  unfold may_change. cbn [n_uid n_kind n_mode n_gid]. rewrite Z.eqb_refl.
  cbn [orb]. rewrite (t_set_same bd _ t Hbd), Hbd.
  cbn [n_uid n_kind n_mode n_gid]. rewrite Z.eqb_refl. cbn [orb].
  by rewrite (t_set_same bd _ t Hbd).
Qed.

(** **** X23
    The constructor of [BackupManager], run for an absolute store path
    with nothing but directories (or nothing) at the path, above it and at
    its three subdirectories, and with a store that is the caller's if it
    exists, returns; the store directory then has mode 0700 and belongs
    to the caller's user and group.  The subdirectories are not secured:
    one that existed keeps the mode and owner it had, and one that was
    missing has the mode the process's umask leaves of 0777.  Everything
    else that existed is as it was.  (The permission to create entries in
    a directory is not part of the model.) *)
Theorem X23_constructor_secures_store_directory_only (E : os_env) (umask : Z)
    (home : path) (arg : option string) (t : tree) (rest : list string)
    (bd := init_backup_dir home arg)
    (Habsolute : bd = "/" :: rest)
    (Hroot : is_dir ["/"] t = true)
    (Hancestors : forallb (absent_or_dir t) (ancestors bd) = true)
    (Hchildren : forallb (fun c => absent_or_dir t (bd // c)) subdirectories
                 = true)
    (Howner : absent_or_own E t bd = true) :
  exists t',
    __init__ E umask home arg t = (inr {| backup_dir := bd |}, t')
    /\ t_lookup bd t'
       = Some {| n_kind := KDir; n_mode := 448;
                 n_uid := getuid E; n_gid := getgid E |}
    /\ (forall c, c ∈ subdirectories ->
          t_lookup (bd // c) t'
          = Some (default (fresh_dir E umask) (t_lookup (bd // c) t)))
    /\ (forall q n, t_lookup q t = Some n -> q <> bd -> t_lookup q t' = Some n).
Proof. by apply (init_runs E umask home arg t rest). Qed.

Lemma X23_witness :
  exists t',
    __init__ Scenario.env0 18 ["/"; "home"; "u"] None ScenarioMore.tree0
    = (inr Scenario.mgr0, t')
    /\ t_lookup (backup_dir Scenario.mgr0) t' = Some (mknode KDir 448 1000 1000)
    /\ t_lookup (backup_dir Scenario.mgr0 // "shell_configs") t'
       = Some (mknode KDir 493 1000 1000).
Proof.
  destruct (X23_constructor_secures_store_directory_only Scenario.env0 18
              ["/"; "home"; "u"] None ScenarioMore.tree0
              ["home"; "u"; ".terminal_decorator"; "backups"])
    as (t' & Hrun & Hbd & Hsub & _).
  - reflexivity.
  - reflexivity.
  - reflexivity.
  - reflexivity.
  - reflexivity.
  - exists t'. split; [exact Hrun|]. split; [exact Hbd|].
    apply (Hsub "shell_configs"). apply list_elem_of_In. simpl. tauto.
Defined.

(** **** X24
    Under the same conditions, constructing the manager a second time
    (every [SecurityManager()] does) returns as well and changes nothing:
    the state the first construction leaves is a fixed point. *)
Theorem X24_constructor_idempotent (E : os_env) (umask : Z)
    (home : path) (arg : option string) (t : tree) (rest : list string)
    (bd := init_backup_dir home arg)
    (Habsolute : bd = "/" :: rest)
    (Hroot : is_dir ["/"] t = true)
    (Hancestors : forallb (absent_or_dir t) (ancestors bd) = true)
    (Hchildren : forallb (fun c => absent_or_dir t (bd // c)) subdirectories
                 = true)
    (Howner : absent_or_own E t bd = true) :
  exists t',
    __init__ E umask home arg t = (inr {| backup_dir := bd |}, t')
    /\ __init__ E umask home arg t' = (inr {| backup_dir := bd |}, t').
Proof.
  destruct (init_runs E umask home arg t rest Habsolute Hroot Hancestors
              Hchildren Howner) as (t' & Hrun & Hbd & Hsub & _).
  exists t'. split; [exact Hrun|]. apply init_again; [exact Hbd|].
  intros c Hc. unfold is_dir. rewrite (Hsub c Hc).
  rewrite forallb_forall in Hchildren.
  specialize (Hchildren c (proj1 (list_elem_of_In _ _) Hc)).
  unfold absent_or_dir in Hchildren. subst bd.
  destruct (t_lookup (_ // c) t) as [n|]; simpl; [|reflexivity].
  by destruct (n_kind n).
Qed.

Lemma X24_witness :
  exists t',
    __init__ Scenario.env0 18 ["/"; "home"; "u"] None ScenarioMore.tree0
    = (inr Scenario.mgr0, t')
    /\ __init__ Scenario.env0 18 ["/"; "home"; "u"] None t'
       = (inr Scenario.mgr0, t').
Proof.
  apply (X24_constructor_idempotent Scenario.env0 18
           ["/"; "home"; "u"] None ScenarioMore.tree0
           ["home"; "u"; ".terminal_decorator"; "backups"]); reflexivity.
Defined.

(** **** X25
    When the store directory exists and belongs to another user, and the
    caller is not root, the constructor raises [PermissionError] at the
    [chmod], and the directory keeps its mode and owner: no manager can be
    built over a store one does not own. *)
Theorem X25_constructor_refuses_foreign_store (E : os_env) (umask : Z)
    (home : path) (arg : option string) (t : tree) (n : node)
    (bd := init_backup_dir home arg)
    (Hstore : t_lookup bd t = Some n)
    (Hkind : n_kind n = KDir)
    (Hforeign : may_change E n = false)
    (Hchildren : forallb (fun c => absent_or_dir t (bd // c)) subdirectories
                 = true) :
  exists t',
    __init__ E umask home arg t = (inl PermissionError, t')
    /\ t_lookup bd t' = Some n.
Proof.
  rewrite forallb_forall in Hchildren.
  assert (Hdir : is_dir bd t = true) by (unfold is_dir; by rewrite Hstore, Hkind).
  destruct (mkdir_child E umask bd "shell_configs" t)
    as (t2 & Hrun2 & Hnew2 & Hkeep2); [done | done | done | |].
  { apply Hchildren. simpl. tauto. }
  destruct (mkdir_child E umask bd "system_configs" t2)
    as (t3 & Hrun3 & Hnew3 & Hkeep3); [done | done | | |].
  { unfold is_dir. rewrite Hkeep2 by (symmetry; apply child_not_parent).
    by rewrite Hstore, Hkind. }
  { unfold absent_or_dir. rewrite Hkeep2.
    - apply (Hchildren "system_configs"). simpl. tauto.
    - unfold truediv. by intros [_ ?]%app_inj_tail. }
  destruct (mkdir_child E umask bd "logs" t3)
    as (t4 & Hrun4 & Hnew4 & Hkeep4); [done | done | | |].
  { unfold is_dir.
    rewrite Hkeep3, Hkeep2 by (symmetry; apply child_not_parent).
    by rewrite Hstore, Hkind. }
  { unfold absent_or_dir. rewrite Hkeep3, Hkeep2.
    - apply (Hchildren "logs"). simpl. tauto.
    - unfold truediv. by intros [_ ?]%app_inj_tail.
    - unfold truediv. by intros [_ ?]%app_inj_tail. }
  assert (Hn4 : t_lookup bd t4 = Some n).
  { rewrite Hkeep4, Hkeep3, Hkeep2 by (symmetry; apply child_not_parent). done. }
  exists t4.
  unfold __init__, _setup_backup_structure, _secure_directory, dbind, dret.
  cbn [backup_dir]. fold bd.
  rewrite mkdir_exists by done.
  rewrite Hrun2, Hrun3, Hrun4.
  unfold chmod. by rewrite Hn4, Hforeign.
Qed.

Lemma X25_witness :
  exists t',
    __init__ Scenario.env0 18 ["/"; "home"; "u"] None ScenarioMore.tree_foreign
    = (inl PermissionError, t')
    /\ t_lookup (backup_dir Scenario.mgr0) t' = Some (mknode KDir 511 0 0).
Proof.
  apply (X25_constructor_refuses_foreign_store Scenario.env0 18
           ["/"; "home"; "u"] None ScenarioMore.tree_foreign
           (mknode KDir 511 0 0)); reflexivity.
Defined.

End DirsFacts.
